(** * Downshift: the state-reconciliation engine of [src/downshift.js]
      and the helpers shared by the hooks

    A shallow embedding.  JavaScript objects used as records of state fields
    are finite maps from property names to values; the component instance is
    a record threaded through every method (explicit state passing); calls to
    the caller's props callbacks are recorded, in order, in a trace. *)

From stdpp Require Import gmap strings list fin_maps pretty.

Local Open Scope string_scope.
Local Open Scope list_scope.
Local Open Scope Z_scope.

(** ** JavaScript values *)

(** Modelled from the spec: the module [./stateChangeTypes] is absent.  §6:
    the discriminant of an action comes "from a fixed enumeration"; there is
    one constructor for each constant [downshift.js] names. *)
Inductive stateChangeType :=
  | unknown | mouseUp | itemMouseEnter | keyDownArrowUp | keyDownArrowDown
  | keyDownEscape | keyDownEnter | keyDownHome | keyDownEnd | clickItem
  | blurInput | changeInput | keyDownSpaceButton | clickButton | blurButton
  | controlledPropUpdatedSelectedItem | touchEnd.

#[global] Instance stateChangeType_eq_dec : EqDecision stateChangeType.
Proof. solve_decision. Defined.

(** Numbers are the integers the engine computes with (indices, counts);
    [VObj n] is an object known only by its identity [n], so Rocq equality
    on [jsval] is JavaScript's [===]. *)
Inductive jsval :=
  | VUndefined
  | VNull
  | VBool (b : bool)
  | VNum (n : Z)
  | VStr (s : string)
  | VObj (id : nat)
  | VType (t : stateChangeType).

#[global] Instance jsval_eq_dec : EqDecision jsval.
Proof. solve_decision. Defined.

#[global] Instance jsval_inhabited : Inhabited jsval := populate VUndefined.

(** A plain object: own enumerable properties by name. *)
Abbreviation obj := (gmap string jsval).

(** [o[key]]: a missing property reads as [undefined]. *)
Definition get (o : obj) (key : string) : jsval := default VUndefined (o !! key).

(** [o.hasOwnProperty(key)] *)
Definition hasOwnProperty (o : obj) (key : string) : bool := bool_decide (is_Some (o !! key)).

(** [{...a, ...b}]: later spreads win. *)
Definition spread (a b : obj) : obj := b ∪ a.

(** ToBoolean. Every [stateChangeTypes] constant but [unknown] is truthy in
    every build; [unknown] is only ever tested by [type ||= unknown], which
    yields [unknown] either way. *)
Definition truthy (v : jsval) : bool :=
  match v with
  | VUndefined | VNull => false
  | VBool b => b
  | VNum n => negb (n =? 0)
  | VStr s => negb (String.eqb s "")
  | VObj _ => true
  | VType _ => true
  end.

(** [v == null] *)
Definition is_nullish (v : jsval) : bool :=
  match v with VUndefined | VNull => true | _ => false end.

(** [!v] as a value *)
Definition js_not (v : jsval) : jsval := VBool (negb (truthy v)).

(** [String(v)] on the values modelled here. *)
Definition stateChangeType_name (t : stateChangeType) : string :=
  match t with
  | unknown => "unknown" | mouseUp => "mouseUp" | itemMouseEnter => "itemMouseEnter"
  | keyDownArrowUp => "keyDownArrowUp" | keyDownArrowDown => "keyDownArrowDown"
  | keyDownEscape => "keyDownEscape" | keyDownEnter => "keyDownEnter"
  | keyDownHome => "keyDownHome" | keyDownEnd => "keyDownEnd" | clickItem => "clickItem"
  | blurInput => "blurInput" | changeInput => "changeInput"
  | keyDownSpaceButton => "keyDownSpaceButton" | clickButton => "clickButton"
  | blurButton => "blurButton"
  | controlledPropUpdatedSelectedItem => "controlledPropUpdatedSelectedItem"
  | touchEnd => "touchEnd"
  end.

Definition js_String (v : jsval) : string :=
  match v with
  | VUndefined => "undefined"
  | VNull => "null"
  | VBool true => "true"
  | VBool false => "false"
  | VNum n => pretty n
  | VStr s => s
  | VObj _ => "[object Object]"
  | VType t => stateChangeType_name t
  end.

(** [array[index]] for an index that is any value: only an in-range number
    finds an element. *)
Definition array_get (a : list jsval) (index : jsval) : jsval :=
  match index with
  | VNum n => if 0 <=? n then default VUndefined (a !! Z.to_nat n) else VUndefined
  | _ => VUndefined
  end.

(** [array.indexOf(x)]: first position holding a value [===] to [x], or -1. *)
Fixpoint indexOf_from (a : list jsval) (x : jsval) (i : Z) : Z :=
  match a with
  | [] => -1
  | y :: a' => if decide (y = x) then i else indexOf_from a' x (i + 1)
  end.

Definition indexOf (a : list jsval) (x : jsval) : Z := indexOf_from a x 0.

(** ** Helpers imported from [./utils] *)

Module utils.

(** Modelled from the spec: [isControlledProp] of [src/utils.js] is absent.
    §4.2: a field is controlled when the external props define it ("the
    caller passed that prop"); a prop whose value is [undefined] is not
    defined. *)
Definition isControlledProp (props : obj) (key : string) : bool :=
  bool_decide (get props key ≠ VUndefined).

(** Modelled from the spec: [getState] of [src/utils.js] is absent.  §4.2:
    [resolve] is applied "independently for every field" of the tracked
    state: the prop where the field is controlled, the internally tracked
    value otherwise. *)
Definition getState (state props : obj) : obj :=
  map_imap (λ key v, Some (if isControlledProp props key then get props key else v)) state.

(** Modelled from the spec: [stateKeys] of [src/utils.js] is absent.  §3
    gives the Interaction State "exactly four semantic fields" and §6 has
    every changeset carry the action's discriminant. *)
Definition stateKeys : list string :=
  ["highlightedIndex"; "inputValue"; "isOpen"; "selectedItem"; "type"].

(** Modelled from the spec: [pickState] of [src/utils.js] is absent.  It
    keeps the own properties named by [stateKeys] and drops every other one;
    the callers in [downshift.js] pass [type], [selectedItem] and
    [inputValue] through it. *)
Definition pickState (state : obj) : obj :=
  filter (λ kv : string * jsval, kv.1 ∈ stateKeys) state.

(** Modelled from the spec: the sentinel index, "e.g. -1" (§3), as the hooks
    have it. *)
Definition sentinel : Z := -1.

(** Modelled from the spec: the walk of §4.1, "in the direction of step's
    sign, wrapping modulo itemCount, skipping any index for which
    isDisabled is true, until a non-disabled index is found or every index
    has been visited (then returns sentinel)"; [fuel] counts the indices
    still to visit. *)
Fixpoint walk (fuel : nat) (dir count : Z) (isDisabled : Z → bool) (index : Z) : Z :=
  match fuel with
  | O => sentinel
  | S fuel' =>
      if isDisabled index then walk fuel' dir count isDisabled ((index + dir) `mod` count)
      else index
  end.

(** Modelled from the spec: [getHighlightedIndex] of [src/utils.js] is absent.
    §4.1 [move(currentIndex, step, itemCount, isDisabled)]: the sentinel for a
    count [<= 0]; otherwise the walk "starting from currentIndex + step".
    §3: a current index that is not a number, or not within
    [[0, itemCount)], "must be normalized (set to sentinel)" when navigation
    looks it up.  §4.3 and Scenario A: from the sentinel a step of +1
    reaches the first index and a step of -1 the last ("first/last index
    when opening via directional key"), so for a step forward the sentinel
    stands just before the first index and for a step back just after the
    last.  The collection [downshift.js] passes is [{length: itemCount}], so
    the predicate sees the index only. *)
Definition getHighlightedIndex (start : jsval) (offset count : Z)
    (isItemDisabled : Z → bool) : Z :=
  if count <=? 0 then sentinel
  else
    let current :=
      match start with
      | VNum n => if (0 <=? n) && (n <? count) then n else sentinel
      | _ => sentinel
      end in
    let from := if (current =? sentinel) && (offset <? 0) then count else current in
    walk (Z.to_nat count) (Z.sgn offset) count isItemDisabled ((from + offset) `mod` count).

End utils.

(** ** The class component of [src/downshift.js] *)

Module Downshift.

(** What [props.environment.document.getElementById(this.getItemId(index))]
    finds for an item index: no element, or an element together with whether
    it carries the [disabled] attribute. *)
Record Environment := {
  getItemElement : jsval → option bool;
}.

Record Props := {
  (** the props read by key, [props[key]]: the state fields the caller may
      control ([selectedItem], [isOpen], [inputValue], [highlightedIndex]);
      a patch is taken to name no other prop *)
  fields : obj;
  defaultHighlightedIndex : jsval;
  defaultIsOpen : jsval;
  initialHighlightedIndex : jsval;
  initialIsOpen : jsval;
  initialInputValue : jsval;
  initialSelectedItem : jsval;
  itemToString : jsval → string;
  selectedItemChanged : jsval → jsval → bool;
  stateReducer : obj → obj → obj;
  props_itemCount : option Z;
  environment : option Environment;
}.

(** [static defaultProps]; the environment is the caller's window. *)
Definition default_itemToString (i : jsval) : string :=
  if is_nullish i then "" else js_String i.

Definition default_stateReducer (state stateToSet : obj) : obj := stateToSet.

Definition defaultProps (env : option Environment) : Props :=
  {| fields := ∅;
     defaultHighlightedIndex := VNull;
     defaultIsOpen := VBool false;
     initialHighlightedIndex := VUndefined;
     initialIsOpen := VUndefined;
     initialInputValue := VUndefined;
     initialSelectedItem := VUndefined;
     itemToString := default_itemToString;
     selectedItemChanged := λ prevItem item, bool_decide (prevItem ≠ item);
     stateReducer := default_stateReducer;
     props_itemCount := None;
     environment := env |}.

(** A call of one of the caller's functions, with its arguments.  The second
    argument of the props callbacks is [getStateAndHelpers()], of which the
    four state fields are kept. [callback tag] is a call of the completion
    callback the caller attached to a transition. *)
Inductive event :=
  | onInputValueChange (inputValue : jsval) (stateAndHelpers : obj)
  | onStateChange (changes : obj) (stateAndHelpers : obj)
  | onSelect (selectedItem : jsval) (stateAndHelpers : obj)
  | onChange (selectedItem : jsval) (stateAndHelpers : obj)
  | onUserAction (changes : obj) (stateAndHelpers : obj)
  | onOuterClick (stateAndHelpers : obj)
  | callback (tag : nat).

#[global] Instance event_eq_dec : EqDecision event.
Proof. solve_decision. Defined.

(** The instance: [this]. *)
Record Component := {
  props : Props;
  state : obj;
  items : list jsval;
  itemCount : option Z;
  isMouseDown : bool;
  isTouchMove : bool;
  trace : list event;
}.

Definition set_state (st : obj) (this : Component) : Component :=
  {| props := props this; state := st; items := items this;
     itemCount := itemCount this; isMouseDown := isMouseDown this;
     isTouchMove := isTouchMove this; trace := trace this |}.

Definition set_itemCount (c : option Z) (this : Component) : Component :=
  {| props := props this; state := state this; items := items this;
     itemCount := c; isMouseDown := isMouseDown this;
     isTouchMove := isTouchMove this; trace := trace this |}.

Definition set_isMouseDown (b : bool) (this : Component) : Component :=
  {| props := props this; state := state this; items := items this;
     itemCount := itemCount this; isMouseDown := b;
     isTouchMove := isTouchMove this; trace := trace this |}.

Definition set_isTouchMove (b : bool) (this : Component) : Component :=
  {| props := props this; state := state this; items := items this;
     itemCount := itemCount this; isMouseDown := isMouseDown this;
     isTouchMove := b; trace := trace this |}.

Definition set_items (l : list jsval) (this : Component) : Component :=
  {| props := props this; state := state this; items := l;
     itemCount := itemCount this; isMouseDown := isMouseDown this;
     isTouchMove := isTouchMove this; trace := trace this |}.

(** The caller renders the component again with new props. *)
Definition set_props (p : Props) (this : Component) : Component :=
  {| props := p; state := state this; items := items this;
     itemCount := itemCount this; isMouseDown := isMouseDown this;
     isTouchMove := isTouchMove this; trace := trace this |}.

(** Calling one of the caller's functions. *)
Definition call (e : event) (this : Component) : Component :=
  {| props := props this; state := state this; items := items this;
     itemCount := itemCount this; isMouseDown := isMouseDown this;
     isTouchMove := isTouchMove this; trace := trace this ++ [e] |}.

(** A completion callback: [undefined], or a function run on the instance. *)
Abbreviation cb_t := (option (Component → Component)).

(** The caller's own completion callback, opaque but for its being called. *)
Definition userCallback (tag : nat) : Component → Component := call (callback tag).

(** Modelled from the spec: [cbToCb] of [src/utils.js] is absent.  §4.4
    step 6 and the comment at its call site, "call the provided callback if
    it's a function": the callback where one was attached, nothing
    otherwise. *)
Definition cbToCb (cb : cb_t) : Component → Component := default id cb.

(** [getState(stateToMerge = this.state)] *)
Definition getState_of (stateToMerge : obj) (this : Component) : obj :=
  utils.getState stateToMerge (fields (props this)).

Definition getState (this : Component) : obj := getState_of (state this) this.

(** [constructor(props)] *)
Definition or_default (initial default : jsval) : jsval :=
  if decide (initial = VUndefined) then default else initial.

Definition constructor (p : Props) : Component :=
  let highlightedIndex := or_default (initialHighlightedIndex p) (defaultHighlightedIndex p) in
  let isOpen := or_default (initialIsOpen p) (defaultIsOpen p) in
  let inputValue := or_default (initialInputValue p) (VStr "") in
  let selectedItem := or_default (initialSelectedItem p) VNull in
  let state :=
    utils.getState
      {[ "highlightedIndex" := highlightedIndex; "isOpen" := isOpen;
         "inputValue" := inputValue; "selectedItem" := selectedItem ]}
      (fields p) in
  let state :=
    if negb (is_nullish (get state "selectedItem"))
       && bool_decide (initialInputValue p = VUndefined)
    then <[ "inputValue" := VStr (itemToString p (get state "selectedItem")) ]> state
    else state in
  {| props := p; state := state; items := []; itemCount := None;
     isMouseDown := false; isTouchMove := false; trace := [] |}.

(** [getItemCount()]: "in priority order: 1. this.itemCount
    2. this.props.itemCount 3. this.items.length" *)
Definition getItemCount (this : Component) : Z :=
  let count := Z.of_nat (length (items this)) in
  match itemCount this with
  | Some c => c
  | None =>
      match props_itemCount (props this) with
      | Some c => c
      | None => count
      end
  end.

Definition setItemCount (count : Z) (this : Component) : Component :=
  set_itemCount (Some count) this.

Definition unsetItemCount (this : Component) : Component :=
  set_itemCount None this.

(** [clearItems()]; [render] calls it and [getItemProps] registers the
    items of the new cycle. *)
Definition clearItems (this : Component) : Component := set_items [] this.

Definition getItemNodeFromIndex (index : jsval) (this : Component) : option bool :=
  match environment (props this) with
  | Some env => getItemElement env index
  | None => None
  end.

(** [isItemDisabled(_item, index)]:
    [currentElementNode && currentElementNode.hasAttribute('disabled')] *)
Definition isItemDisabled (this : Component) (_item : jsval) (index : Z) : bool :=
  match getItemNodeFromIndex (VNum index) this with
  | Some disabled => disabled
  | None => false
  end.

(** [getStateAndHelpers()]: the four state fields of the bag (the helper
    functions, [itemToString] and [id] are not values of the model). *)
Definition getStateAndHelpers (this : Component) : obj :=
  let st := getState this in
  {[ "highlightedIndex" := get st "highlightedIndex";
     "inputValue" := get st "inputValue";
     "selectedItem" := get st "selectedItem";
     "isOpen" := get st "isOpen" ]}.

(** [stateToSet]: an object, or a function of the current state. *)
Inductive patch :=
  | PatchObj (o : obj)
  | PatchFn (f : obj → obj).

Definition isFunction (stateToSet : patch) : bool :=
  match stateToSet with PatchFn _ => true | PatchObj _ => false end.

(** [stateToSet.selectedItem], as read in the commit callback: a function
    has no such property. *)
Definition patch_selectedItem (stateToSet : patch) : jsval :=
  match stateToSet with
  | PatchObj o => get o "selectedItem"
  | PatchFn _ => VUndefined
  end.

(** What the updater passed to [this.setState] computes besides
    [nextState]: the closure variables the commit callback reads. *)
Record Update := {
  newStateToSet : obj;
  isItemSelected : bool;
  onChangeArg : jsval;
  onStateChangeArg : obj;
  nextState : obj;
}.

(** The updater body, on [state = this.getState(state)] and the proposal
    [stateToSet] already applied to it when it is a function. *)
Definition updater (p : Props) (state proposed : obj) : Update :=
  let reduced := stateReducer p state proposed in
  let selected := hasOwnProperty reduced "selectedItem" in
  let changeArg :=
    if selected && bool_decide (get reduced "selectedItem" ≠ get state "selectedItem")
    then get reduced "selectedItem" else VUndefined in
  (* newStateToSet.type ||= stateChangeTypes.unknown *)
  let typed :=
    if truthy (get reduced "type") then reduced
    else <[ "type" := VType unknown ]> reduced in
  {| newStateToSet := typed;
     isItemSelected := selected;
     onChangeArg := changeArg;
     onStateChangeArg :=
       filter (λ kv : string * jsval, get state kv.1 ≠ kv.2) typed;
     nextState :=
       filter (λ kv : string * jsval,
                 kv.1 ≠ "type" ∧ utils.isControlledProp (fields p) kv.1 = false) typed |}.

(** [if (cond) { this.props.onX(..., this.getStateAndHelpers()) }] *)
Definition when (cond : bool) (e : Component → event) (this : Component) : Component :=
  if cond then call (e this) this else this.

(** The own properties of [stateToSet] that the engine reads; a function
    has none of them. *)
Definition patch_obj (stateToSet : patch) : obj :=
  match stateToSet with
  | PatchObj o => o
  | PatchFn _ => ∅
  end.

(** [isStateToSetFunction ? stateToSet(state) : stateToSet] *)
Definition proposal (stateToSet : patch) (state : obj) : obj :=
  match stateToSet with
  | PatchFn f => f state
  | PatchObj o => o
  end.

(** The callback [internalSetState] passes to [this.setState], on the
    closure variables [u] the updater has set. *)
Definition afterSetState (stateToSet : patch) (cb : cb_t) (u : Update)
    (this : Component) : Component :=
  (* call the provided callback if it's a function *)
  let this := cbToCb cb this in
  let this :=
    when (bool_decide (1 < size (onStateChangeArg u))%nat)
      (λ this, onStateChange (onStateChangeArg u) (getStateAndHelpers this)) this in
  let this :=
    when (isItemSelected u)
      (λ this, onSelect (patch_selectedItem stateToSet) (getStateAndHelpers this)) this in
  let this :=
    when (bool_decide (onChangeArg u ≠ VUndefined))
      (λ this, onChange (onChangeArg u) (getStateAndHelpers this)) this in
  call (onUserAction (onStateChangeArg u) (getStateAndHelpers this)) this.

(** [internalSetState(stateToSet, cb)].  [this.setState(updater, callback)]
    is taken to run the updater on the current state, merge its result into
    [this.state], and then run the callback, as React does with a call that
    reaches it while it is not committing.  [cb] is a callback that does
    not call [this.setState] itself: the caller's own, taken as opaque, or
    one that only reads the instance.  The callbacks of the engine that
    start a transition go to [internalSetState_queueing] below. *)
Definition internalSetState (stateToSet : patch) (cb : cb_t) (this : Component) : Component :=
  let isStateToSetFunction := isFunction stateToSet in
  (* onInputValueChange before the setState call *)
  let this :=
    when (negb isStateToSetFunction && hasOwnProperty (patch_obj stateToSet) "inputValue")
      (λ this, onInputValueChange (get (patch_obj stateToSet) "inputValue")
                 (spread (getStateAndHelpers this) (patch_obj stateToSet)))
      this in
  (* the updater *)
  let st := getState this in
  let u := updater (props this) st (proposal stateToSet st) in
  let this :=
    when (isStateToSetFunction && hasOwnProperty (newStateToSet u) "inputValue")
      (λ this, onInputValueChange (get (newStateToSet u) "inputValue")
                 (spread (getStateAndHelpers this) (newStateToSet u)))
      this in
  let this := set_state (spread (state this) (nextState u)) this in
  (* the callback, after the state is committed *)
  afterSetState stateToSet cb u this.

(** [internalSetState(stateToSet, cb)] called from a completion callback,
    in its two parts.  React is committing while it runs the callback passed
    to [this.setState]: a [this.setState] called meanwhile is queued, and
    started when that callback has returned.  [beforeSetState] is what
    [internalSetState] does before it calls [this.setState], which happens
    at once; [queuedSetState] is the update it hands to [this.setState]. *)
Definition beforeSetState (stateToSet : patch) (this : Component) : Component :=
  when (negb (isFunction stateToSet) && hasOwnProperty (patch_obj stateToSet) "inputValue")
    (λ this, onInputValueChange (get (patch_obj stateToSet) "inputValue")
               (spread (getStateAndHelpers this) (patch_obj stateToSet)))
    this.

Definition queuedSetState (stateToSet : patch) (cb : cb_t) (this : Component) : Component :=
  (* the updater *)
  let st := getState this in
  let u := updater (props this) st (proposal stateToSet st) in
  let this :=
    when (isFunction stateToSet && hasOwnProperty (newStateToSet u) "inputValue")
      (λ this, onInputValueChange (get (newStateToSet u) "inputValue")
                 (spread (getStateAndHelpers this) (newStateToSet u)))
      this in
  let this := set_state (spread (state this) (nextState u)) this in
  (* the callback, after the state is committed *)
  afterSetState stateToSet cb u this.

(** A completion callback that calls [internalSetState] itself: it answers
    the instance it leaves and the update it has queued, if any. *)
Abbreviation cb_queueing := (Component → Component * option (Component → Component)).

(** [internalSetState(stateToSet, cb)] for such a callback: the callback
    passed to [this.setState] runs [cb] and sends the notifications of this
    transition; then React starts the update [cb] has queued. *)
Definition internalSetState_queueing (stateToSet : patch) (cb : cb_queueing)
    (this : Component) : Component :=
  let isStateToSetFunction := isFunction stateToSet in
  (* onInputValueChange before the setState call *)
  let this :=
    when (negb isStateToSetFunction && hasOwnProperty (patch_obj stateToSet) "inputValue")
      (λ this, onInputValueChange (get (patch_obj stateToSet) "inputValue")
                 (spread (getStateAndHelpers this) (patch_obj stateToSet)))
      this in
  (* the updater *)
  let st := getState this in
  let u := updater (props this) st (proposal stateToSet st) in
  let this :=
    when (isStateToSetFunction && hasOwnProperty (newStateToSet u) "inputValue")
      (λ this, onInputValueChange (get (newStateToSet u) "inputValue")
                 (spread (getStateAndHelpers this) (newStateToSet u)))
      this in
  let this := set_state (spread (state this) (nextState u)) this in
  (* the callback, after the state is committed: [cbToCb(cb)()] ... *)
  let called := cb this in
  (* ... and the notifications *)
  let this := afterSetState stateToSet None u called.1 in
  (* the update queued by [cb] *)
  default id called.2 this.

(** The bookkeeping of the transition [stateToSet] started on [this]. *)
Definition update_of (stateToSet : patch) (this : Component) : Update :=
  updater (props this) (getState this) (proposal stateToSet (getState this)).

(** The completion callback of a caller: absent, or the opaque function
    tagged [tag]. *)
Definition user_cb (tag : option nat) : cb_t := userCallback <$> tag.

(** [setHighlightedIndex(highlightedIndex = this.props.defaultHighlightedIndex,
    otherStateToSet = {})] *)
Definition setHighlightedIndex (highlightedIndex : jsval) (otherStateToSet : obj)
    (this : Component) : Component :=
  let highlightedIndex :=
    or_default highlightedIndex (defaultHighlightedIndex (props this)) in
  let otherStateToSet := utils.pickState otherStateToSet in
  internalSetState
    (PatchObj (spread {[ "highlightedIndex" := highlightedIndex ]} otherStateToSet))
    None this.

(** [setHighlightedIndex(highlightedIndex, otherStateToSet)] called from a
    completion callback: what it does at once, and the update it queues. *)
Definition setHighlightedIndex_queueing (highlightedIndex : jsval) (otherStateToSet : obj)
    (this : Component) : Component * option (Component → Component) :=
  let highlightedIndex :=
    or_default highlightedIndex (defaultHighlightedIndex (props this)) in
  let otherStateToSet := utils.pickState otherStateToSet in
  let stateToSet :=
    PatchObj (spread {[ "highlightedIndex" := highlightedIndex ]} otherStateToSet) in
  (beforeSetState stateToSet this, Some (queuedSetState stateToSet None)).

(** [moveHighlightedIndex(amount, otherStateToSet)]; the collection handed
    to the navigator is [{length: itemCount}], whose every item is
    [undefined]. *)
Definition moveHighlightedIndex (amount : Z) (otherStateToSet : obj)
    (this : Component) : Component :=
  let count := getItemCount this in
  let highlightedIndex := get (getState this) "highlightedIndex" in
  if 0 <? count then
    let nextHighlightedIndex :=
      utils.getHighlightedIndex highlightedIndex amount count
        (isItemDisabled this VUndefined) in
    setHighlightedIndex (VNum nextHighlightedIndex) otherStateToSet this
  else this.

Definition clearSelection (cb : cb_t) (this : Component) : Component :=
  internalSetState
    (PatchObj
       {[ "selectedItem" := VNull;
          "inputValue" := VStr "";
          "highlightedIndex" := defaultHighlightedIndex (props this);
          "isOpen" := defaultIsOpen (props this) ]})
    cb this.

Definition selectItem (item : jsval) (otherStateToSet : obj) (cb : cb_t)
    (this : Component) : Component :=
  let otherStateToSet := utils.pickState otherStateToSet in
  internalSetState
    (PatchObj
       (spread
          {[ "isOpen" := defaultIsOpen (props this);
             "highlightedIndex" := defaultHighlightedIndex (props this);
             "selectedItem" := item;
             "inputValue" := VStr (itemToString (props this) item) ]}
          otherStateToSet))
    cb this.

Definition selectItemAtIndex (itemIndex : jsval) (otherStateToSet : obj) (cb : cb_t)
    (this : Component) : Component :=
  let item := array_get (items this) itemIndex in
  if is_nullish item then this
  else selectItem item otherStateToSet cb this.

Definition selectHighlightedItem (otherStateToSet : obj) (cb : cb_t)
    (this : Component) : Component :=
  selectItemAtIndex (get (getState this) "highlightedIndex") otherStateToSet cb this.

(** [reset(otherStateToSet = {}, cb)] *)
Definition reset (otherStateToSet : obj) (cb : cb_t) (this : Component) : Component :=
  let otherStateToSet := utils.pickState otherStateToSet in
  internalSetState
    (PatchFn (λ st,
       spread
         {[ "isOpen" := defaultIsOpen (props this);
            "highlightedIndex" := defaultHighlightedIndex (props this);
            "inputValue" := VStr (itemToString (props this) (get st "selectedItem")) ]}
         otherStateToSet))
    cb this.

(** The completion callback of [toggleMenu]: the transition it starts with
    [setHighlightedIndex] is queued, and the caller's [cb] is called. *)
Definition highlightOnToggle (otherStateToSet : obj) (cb : cb_t)
    (this : Component) : Component * option (Component → Component) :=
  let st := getState this in
  let highlightedIndex := get st "highlightedIndex" in
  let highlighting :=
    if truthy (get st "isOpen")
       && (0 <? getItemCount this)
       && (match highlightedIndex with VNum _ => true | _ => false end)
    then setHighlightedIndex_queueing highlightedIndex otherStateToSet this
    else (this, None) in
  (cbToCb cb highlighting.1, highlighting.2).

(** [toggleMenu(otherStateToSet = {}, cb)] *)
Definition toggleMenu (otherStateToSet : obj) (cb : cb_t) (this : Component) : Component :=
  let otherStateToSet := utils.pickState otherStateToSet in
  internalSetState_queueing
    (PatchFn (λ st,
       spread
         (spread {[ "isOpen" := js_not (get st "isOpen") ]}
            (if truthy (get st "isOpen")
             then {[ "highlightedIndex" := defaultHighlightedIndex (props this) ]}
             else ∅))
         otherStateToSet))
    (highlightOnToggle otherStateToSet cb)
    this.

Definition openMenu (cb : cb_t) (this : Component) : Component :=
  internalSetState (PatchObj {[ "isOpen" := VBool true ]}) cb this.


(** *** Keyboard handlers *)

Record KeyboardEvent := {
  which : Z;
  shiftKey : bool;
  defaultPrevented : bool;
}.

Definition preventDefault (event : KeyboardEvent) : KeyboardEvent :=
  {| which := which event; shiftKey := shiftKey event; defaultPrevented := true |}.

(** The completion callback of the arrow keys on a closed widget; the
    transition it starts is queued. *)
Definition highlightOnOpen (amount : Z) (type : stateChangeType)
    (this : Component) : Component * option (Component → Component) :=
  let count := getItemCount this in
  if 0 <? count then
    let highlightedIndex := get (getState this) "highlightedIndex" in
    let nextHighlightedIndex :=
      utils.getHighlightedIndex highlightedIndex amount count
        (isItemDisabled this VUndefined) in
    setHighlightedIndex_queueing (VNum nextHighlightedIndex) {[ "type" := VType type ]} this
  else (this, None).

Definition ArrowDown (event : KeyboardEvent) (this : Component)
    : KeyboardEvent * Component :=
  let event := preventDefault event in
  if truthy (get (getState this) "isOpen") then
    let amount := if shiftKey event then 5 else 1 in
    (event, moveHighlightedIndex amount {[ "type" := VType keyDownArrowDown ]} this)
  else
    (event,
     internalSetState_queueing
       (PatchObj {[ "isOpen" := VBool true; "type" := VType keyDownArrowDown ]})
       (highlightOnOpen 1 keyDownArrowDown) this).

Definition ArrowUp (event : KeyboardEvent) (this : Component)
    : KeyboardEvent * Component :=
  let event := preventDefault event in
  if truthy (get (getState this) "isOpen") then
    let amount := if shiftKey event then -5 else -1 in
    (event, moveHighlightedIndex amount {[ "type" := VType keyDownArrowUp ]} this)
  else
    (event,
     internalSetState_queueing
       (PatchObj {[ "isOpen" := VBool true; "type" := VType keyDownArrowUp ]})
       (highlightOnOpen (-1) keyDownArrowUp) this).

Definition Enter (event : KeyboardEvent) (this : Component)
    : KeyboardEvent * Component :=
  if which event =? 229 then (event, this)
  else
    let st := getState this in
    let isOpen := get st "isOpen" in
    let highlightedIndex := get st "highlightedIndex" in
    if truthy isOpen && negb (is_nullish highlightedIndex) then
      let event := preventDefault event in
      let item := array_get (items this) highlightedIndex in
      let itemNode := getItemNodeFromIndex highlightedIndex this in
      if is_nullish item || default false itemNode then (event, this)
      else (event, selectHighlightedItem {[ "type" := VType keyDownEnter ]} None this)
    else (event, this).

Definition Escape (event : KeyboardEvent) (this : Component)
    : KeyboardEvent * Component :=
  let event := preventDefault event in
  (event,
   reset
     (spread {[ "type" := VType keyDownEscape ]}
        (if negb (truthy (get (state this) "isOpen"))
         then {[ "selectedItem" := VNull; "inputValue" := VStr "" ]}
         else ∅))
     None this).

(** *** Input, blur and outside interaction *)

(** [inputHandleChange(event)], on [event.target.value]. *)
Definition inputHandleChange (value : string) (this : Component) : Component :=
  internalSetState
    (PatchObj
       {[ "type" := VType changeInput;
          "isOpen" := VBool true;
          "inputValue" := VStr value;
          "highlightedIndex" := defaultHighlightedIndex (props this) ]})
    None this.

(** The function [inputHandleBlur] schedules, once its timer fires;
    [downshiftButtonIsActive] is what the document answers about the active
    element. *)
Definition inputHandleBlur_timeout (downshiftButtonIsActive : bool)
    (this : Component) : Component :=
  if isMouseDown this || negb (bool_decide (is_Some (environment (props this)))) then this
  else if negb downshiftButtonIsActive then reset {[ "type" := VType blurInput ]} None this
  else this.

(** Likewise for [buttonHandleBlur]; [refocused] is whether the active
    element is the input or the blurred button itself. *)
Definition buttonHandleBlur_timeout (refocused : bool) (this : Component) : Component :=
  if isMouseDown this || negb (bool_decide (is_Some (environment (props this)))) then this
  else if negb refocused then reset {[ "type" := VType blurButton ]} None this
  else this.

(** The listeners [componentDidMount] registers on the environment;
    [contextWithinDownshift] is the answer of [targetWithinDownshift]. *)
Definition onMouseDown (this : Component) : Component := set_isMouseDown true this.

Definition onMouseUp (contextWithinDownshift : bool) (this : Component) : Component :=
  let this := set_isMouseDown false this in
  if negb contextWithinDownshift && truthy (get (getState this) "isOpen") then
    reset {[ "type" := VType mouseUp ]}
      (Some (λ this, call (onOuterClick (getStateAndHelpers this)) this)) this
  else this.

Definition onTouchStart (this : Component) : Component := set_isTouchMove false this.

Definition onTouchMove (this : Component) : Component := set_isTouchMove true this.

Definition onTouchEnd (contextWithinDownshift : bool) (this : Component) : Component :=
  if negb (isTouchMove this) && negb contextWithinDownshift
     && truthy (get (getState this) "isOpen") then
    reset {[ "type" := VType touchEnd ]}
      (Some (λ this, call (onOuterClick (getStateAndHelpers this)) this)) this
  else this.

(** *** Home, End and Space *)

(** [getNonDisabledIndex(start, backwards, items, isItemDisabled)] of
    [./utils], which is absent: the handlers are taken over any such
    function, applied to [{length: itemCount}]. *)
Abbreviation nonDisabledIndex_t := (Z → bool → Z → (Z → bool) → Z).

(** [inputKeyDownHandlers.Home] *)
Definition Home (getNonDisabledIndex : nonDisabledIndex_t) (event : KeyboardEvent)
    (this : Component) : KeyboardEvent * Component :=
  let isOpen := get (getState this) "isOpen" in
  if negb (truthy isOpen) then (event, this)
  else
    let event := preventDefault event in
    let count := getItemCount this in
    if (count <=? 0) || negb (truthy isOpen) then (event, this)
    else
      let newHighlightedIndex :=
        getNonDisabledIndex 0 false count (isItemDisabled this VUndefined) in
      (event,
       setHighlightedIndex (VNum newHighlightedIndex) {[ "type" := VType keyDownHome ]} this).

(** [inputKeyDownHandlers.End] *)
Definition End_key (getNonDisabledIndex : nonDisabledIndex_t) (event : KeyboardEvent)
    (this : Component) : KeyboardEvent * Component :=
  let isOpen := get (getState this) "isOpen" in
  if negb (truthy isOpen) then (event, this)
  else
    let event := preventDefault event in
    let count := getItemCount this in
    if (count <=? 0) || negb (truthy isOpen) then (event, this)
    else
      let newHighlightedIndex :=
        getNonDisabledIndex (count - 1) true count (isItemDisabled this VUndefined) in
      (event,
       setHighlightedIndex (VNum newHighlightedIndex) {[ "type" := VType keyDownEnd ]} this).

(** [buttonKeyDownHandlers[' ']] *)
Definition Space (event : KeyboardEvent) (this : Component) : KeyboardEvent * Component :=
  let event := preventDefault event in
  (event, toggleMenu {[ "type" := VType keyDownSpaceButton ]} None this).

(** *** Items *)

(** [this.items[index] = item]: an index past the end extends the array,
    the holes reading [undefined] (a hole and a stored [undefined] differ
    for [indexOf] alone, and only when the item looked up is [undefined]). *)
Definition array_set (a : list jsval) (index : nat) (item : jsval) : list jsval :=
  if bool_decide (index < length a)%nat then <[ index := item ]> a
  else a ++ replicate (index - length a) VUndefined ++ [item].

(** The registration [getItemProps({index, item})] performs, with the index
    it goes on with: [index] is a position or, when [undefined], the item is
    pushed and looked up with [indexOf]. *)
Definition getItemProps_register (index : option nat) (item : jsval)
    (this : Component) : Z * Component :=
  match index with
  | None =>
      let this := set_items (items this ++ [item]) this in
      (indexOf (items this) item, this)
  | Some i => (Z.of_nat i, set_items (array_set (items this) i item) this)
  end.

(** The [onMouseMove] handler of the item at [index]; the flag is
    [this.avoidScrolling] (its timer, which clears it 250ms later, is left
    to the caller of this function). *)
Definition item_onMouseMove (index : Z) (avoidScrolling : bool)
    (this : Component) : bool * Component :=
  if bool_decide (VNum index = get (getState this) "highlightedIndex")
  then (avoidScrolling, this)
  else (true, setHighlightedIndex (VNum index) {[ "type" := VType itemMouseEnter ]} this).

(** The [onClick] handler of the item at [index]. *)
Definition item_onClick (index : Z) (this : Component) : Component :=
  selectItemAtIndex (VNum index) {[ "type" := VType clickItem ]} None this.

(** *** Updates *)

(** [shouldScroll(prevState, prevProps)], as the condition it is used for. *)
Definition shouldScroll (prevState : obj) (prevProps : Props) (this : Component) : bool :=
  let currentHighlightedIndex :=
    if bool_decide (get (fields (props this)) "highlightedIndex" = VUndefined)
    then get (getState this) "highlightedIndex"
    else get (fields (props this)) "highlightedIndex" in
  let prevHighlightedIndex :=
    if bool_decide (get (fields prevProps) "highlightedIndex" = VUndefined)
    then get prevState "highlightedIndex"
    else get (fields prevProps) "highlightedIndex" in
  let scrollWhenOpen :=
    truthy currentHighlightedIndex
    && truthy (get (getState this) "isOpen")
    && negb (truthy (get prevState "isOpen")) in
  let scrollWhenNavigating :=
    bool_decide (currentHighlightedIndex ≠ prevHighlightedIndex) in
  scrollWhenOpen || scrollWhenNavigating.

(** [componentDidUpdate(prevProps, prevState)]: the transition it starts, and
    whether it calls [scrollHighlightedItemIntoView]; the development checks
    and the debounced status update are left out.  React is committing when
    it calls [componentDidUpdate], so the update of the transition is queued:
    [shouldScroll] reads the state as it is before that update, which React
    starts when [componentDidUpdate] has returned. *)
Definition componentDidUpdate (prevProps : Props) (prevState : obj)
    (avoidScrolling : bool) (this : Component) : bool * Component :=
  let syncing :=
    if utils.isControlledProp (fields (props this)) "selectedItem"
       && selectedItemChanged (props this)
            (get (fields prevProps) "selectedItem")
            (get (fields (props this)) "selectedItem")
    then
      let stateToSet :=
        PatchObj
          {[ "type" := VType controlledPropUpdatedSelectedItem;
             "inputValue" :=
               VStr (itemToString (props this) (get (fields (props this)) "selectedItem")) ]} in
      (beforeSetState stateToSet this, Some (queuedSetState stateToSet None))
    else (this, None) in
  let scroll := negb avoidScrolling && shouldScroll prevState prevProps syncing.1 in
  (scroll, default id syncing.2 syncing.1).

(** *** Timers and teardown *)

(** The mounted component with what the claims leave out of [Component]:
    [this.timeoutIds], the environment's table of pending timeouts, its next
    timeout id, and whether the listeners of [componentDidMount] are still
    registered. *)
Record Mounted := {
  instance : Component;
  timeoutIds : list nat;
  pending : list (nat * (Component → Component));
  nextTimeoutId : nat;
  listening : bool;
}.

(** [componentDidMount()]: the listeners are registered when there is an
    environment. *)
Definition componentDidMount (this : Component) : Mounted :=
  {| instance := this; timeoutIds := []; pending := []; nextTimeoutId := 0;
     listening := bool_decide (is_Some (environment (props this))) |}.

(** [internalSetTimeout(fn, time)]; [fn] acts on the instance. *)
Definition internalSetTimeout (fn : Component → Component) (m : Mounted) : Mounted :=
  let id := nextTimeoutId m in
  {| instance := instance m;
     timeoutIds := timeoutIds m ++ [id];
     pending := pending m ++ [(id, fn)];
     nextTimeoutId := S id;
     listening := listening m |}.

(** The environment fires timeout [id], if it is pending: the function
    [internalSetTimeout] handed to [setTimeout] drops the id and calls [fn]. *)
Definition fire (id : nat) (m : Mounted) : Mounted :=
  match list_find (λ t, t.1 = id) (pending m) with
  | Some (_, (_, fn)) =>
      {| instance := fn (instance m);
         timeoutIds := filter (λ i, i ≠ id) (timeoutIds m);
         pending := filter (λ t, t.1 ≠ id) (pending m);
         nextTimeoutId := nextTimeoutId m;
         listening := listening m |}
  | None => m
  end.

(** [internalClearTimeouts()]: [clearTimeout] for every id kept. *)
Definition internalClearTimeouts (m : Mounted) : Mounted :=
  {| instance := instance m;
     timeoutIds := [];
     pending := filter (λ t, t.1 ∉ timeoutIds m) (pending m);
     nextTimeoutId := nextTimeoutId m;
     listening := listening m |}.

(** [componentWillUnmount()]: the [cleanup] of [componentDidMount]. *)
Definition componentWillUnmount (m : Mounted) : Mounted :=
  let m := internalClearTimeouts m in
  {| instance := instance m; timeoutIds := timeoutIds m; pending := pending m;
     nextTimeoutId := nextTimeoutId m; listening := false |}.

(** What the environment delivers to a mounted component. *)
Inductive delivery :=
  | mousedown
  | mouseup (contextWithinDownshift : bool)
  | touchstart
  | touchmove
  | touchend (contextWithinDownshift : bool)
  | timeout (id : nat).

Definition on_instance (f : Component → Component) (m : Mounted) : Mounted :=
  {| instance := f (instance m); timeoutIds := timeoutIds m; pending := pending m;
     nextTimeoutId := nextTimeoutId m; listening := listening m |}.

Definition deliver (d : delivery) (m : Mounted) : Mounted :=
  match d with
  | timeout id => fire id m
  | _ =>
      if listening m then
        match d with
        | mousedown => on_instance onMouseDown m
        | mouseup c => on_instance (onMouseUp c) m
        | touchstart => on_instance onTouchStart m
        | touchmove => on_instance onTouchMove m
        | touchend c => on_instance (onTouchEnd c) m
        | timeout _ => m
        end
      else m
  end.

(** [inputHandleBlur()]; the answer of the document about the active
    element is the one it will give when the timeout fires. *)
Definition inputHandleBlur (downshiftButtonIsActive : bool) (m : Mounted) : Mounted :=
  internalSetTimeout (inputHandleBlur_timeout downshiftButtonIsActive) m.

(** [buttonHandleBlur(event)] *)
Definition buttonHandleBlur (refocused : bool) (m : Mounted) : Mounted :=
  internalSetTimeout (buttonHandleBlur_timeout refocused) m.

(** [buttonHandleClick(event)] outside the test build: the toggle waits for
    a timeout. *)
Definition buttonHandleClick (m : Mounted) : Mounted :=
  internalSetTimeout (toggleMenu {[ "type" := VType clickButton ]} None) m.

End Downshift.

(** ** The shared hook helpers of [src/hooks/utils.js] *)

Module hooks.

(** [dropdownDefaultStateValues] *)
Definition dropdownDefaultStateValues : obj :=
  {[ "highlightedIndex" := VNum (-1); "isOpen" := VBool false;
     "selectedItem" := VNull; "inputValue" := VStr "" ]}.

(** What the user's [stateReducer] receives: [{...action, changes}], of
    which the discriminant, the payload and the changes are kept. *)
Record ActionAndChanges := {
  type : jsval;
  payload : obj;
  changes : obj;
}.

Record Props := {
  (** the props read by key, [props[key]]: the controlled state fields and
      their [initial...] and [default...] companions *)
  fields : obj;
  items : list jsval;
  itemToString : jsval → string;
  stateReducer : obj → ActionAndChanges → obj;
}.


(** "Default state reducer that returns the changes." *)
Definition default_stateReducer (s : obj) (a : ActionAndChanges) : obj := changes a.

Definition default_itemToString (item : jsval) : string :=
  if truthy item then js_String item else "".

(** [capitalizeString(string)], on the ASCII names of the state fields. *)
Definition toUpperCase (c : Ascii.ascii) : Ascii.ascii :=
  let n := Ascii.nat_of_ascii c in
  if (97 <=? n)%nat && (n <=? 122)%nat then Ascii.ascii_of_nat (n - 32) else c.

Definition capitalizeString (str : string) : string :=
  match str with
  | EmptyString => EmptyString
  | String c rest => String (toUpperCase c) rest
  end.

(** [getDefaultValue(props, propKey, defaultStateValues = dropdownDefaultStateValues)] *)
Definition getDefaultValue (props : Props) (propKey : string) : jsval :=
  let defaultValue := get (fields props) ("default" +:+ capitalizeString propKey) in
  if bool_decide (defaultValue ≠ VUndefined) then defaultValue
  else get dropdownDefaultStateValues propKey.



Definition getHighlightedIndexOnOpen (props : Props) (state : obj) (offset : Z) : jsval :=
  let initialHighlightedIndex := get (fields props) "initialHighlightedIndex" in
  let defaultHighlightedIndex := get (fields props) "defaultHighlightedIndex" in
  let selectedItem := get state "selectedItem" in
  let highlightedIndex := get state "highlightedIndex" in
  let length := Z.of_nat (length (items props)) in
  if length =? 0 then VNum (-1)
  else if bool_decide (initialHighlightedIndex ≠ VUndefined)
          && bool_decide (highlightedIndex = initialHighlightedIndex)
  then initialHighlightedIndex
  else if bool_decide (defaultHighlightedIndex ≠ VUndefined)
  then defaultHighlightedIndex
  else if truthy selectedItem then VNum (indexOf (items props) selectedItem)
  else if offset =? 0 then VNum (-1)
  else VNum (if offset <? 0 then length - 1 else 0).

(** [getChangesOnSelection(props, highlightedIndex, inputValue = true)]:
    "Closes the menu and resets the highlighted index, unless there is a
    highlighted.  In that case, selects the item and resets to defaults". *)
Definition getChangesOnSelection (props : Props) (highlightedIndex : Z)
    (inputValue : bool) : obj :=
  let shouldSelect :=
    negb (Z.of_nat (length (items props)) =? 0) && (0 <=? highlightedIndex) in
  spread
    {[ "isOpen" := VBool false; "highlightedIndex" := VNum (-1) ]}
    (if shouldSelect then
       spread
         {[ "selectedItem" := array_get (items props) (VNum highlightedIndex);
            "isOpen" := getDefaultValue props "isOpen";
            "highlightedIndex" := getDefaultValue props "highlightedIndex" ]}
         (if inputValue then
            {[ "inputValue" :=
                 VStr (itemToString props (array_get (items props) (VNum highlightedIndex))) ]}
          else ∅)
     else ∅).

(** [getInitialValue(props, propKey, defaultStateValues = dropdownDefaultStateValues)] *)
Definition getInitialValue (props : Props) (propKey : string) : jsval :=
  let value := get (fields props) propKey in
  if bool_decide (value ≠ VUndefined) then value
  else
    let initialValue := get (fields props) ("initial" +:+ capitalizeString propKey) in
    if bool_decide (initialValue ≠ VUndefined) then initialValue
    else getDefaultValue props propKey.

(** [getItemAndIndex(itemProp, indexProp, items, errorMessage)]: [inl] is
    the thrown [Error(errorMessage)]; an index is a number or [undefined]. *)
Definition getItemAndIndex (itemProp : jsval) (indexProp : option Z)
    (items : list jsval) (errorMessage : string) : string + jsval * Z :=
  if decide (itemProp = VUndefined) then
    match indexProp with
    | None => inl errorMessage
    | Some index => inr (array_get items (VNum index), index)
    end
  else
    inr (itemProp,
         match indexProp with
         | None => indexOf items itemProp
         | Some index => index
         end).

(** A call of one of the caller's change handlers, by prop name. *)
Inductive notification :=
  | handler_called (name : string) (arg : obj).

(** [invokeOnChangeHandler(key, action, state, newState)]; [handlers] tells
    which props of the caller hold a function. *)
Definition invokeOnChangeHandler (handlers : string → bool) (type : jsval)
    (key : string) (state newState : obj) : list notification :=
  let handler := "on" +:+ capitalizeString key +:+ "Change" in
  if handlers handler
     && bool_decide (get newState key ≠ VUndefined)
     && bool_decide (get newState key ≠ get state key)
  then [handler_called handler (spread {[ "type" := type ]} newState)]
  else [].

(** [callOnChangeProps(action, state, newState)]; [keys] is
    [Object.keys(state)], in the order the object enumerates them. *)
Definition callOnChangeProps (handlers : string → bool) (type : jsval)
    (keys : list string) (state newState : obj) : list notification :=
  let changes : obj :=
    list_to_map
      (omap (λ key, if decide (get newState key ≠ get state key)
                    then Some (key, get newState key) else None) keys) in
  flat_map (λ key, invokeOnChangeHandler handlers type key state newState) keys
  ++ (if handlers "onStateChange" && negb (bool_decide (size changes = 0%nat))
      then [handler_called "onStateChange" (spread {[ "type" := type ]} changes)]
      else []).

(** [useElementIds({id, labelId, menuId, getItemId, toggleButtonId, inputId})]
    once [id] has its value; a prop given is a string, the empty one
    counting as not given, and [getItemId] a function of the index. *)
Record ElementIds := {
  labelId : string;
  menuId : string;
  getItemId : Z → string;
  toggleButtonId : string;
  inputId : string;
}.

Definition or_string (given : option string) (fallback : string) : string :=
  match given with
  | Some s => if String.eqb s "" then fallback else s
  | None => fallback
  end.

Definition useElementIds (id : string) (labelIdProp menuIdProp : option string)
    (getItemIdProp : option (Z → string))
    (toggleButtonIdProp inputIdProp : option string) : ElementIds :=
  {| labelId := or_string labelIdProp (id +:+ "-label");
     menuId := or_string menuIdProp (id +:+ "-menu");
     getItemId := default (λ index, id +:+ "-item-" +:+ pretty index) getItemIdProp;
     toggleButtonId := or_string toggleButtonIdProp (id +:+ "-toggle-button");
     inputId := or_string inputIdProp (id +:+ "-input") |}.

End hooks.

(** ** Observing a transition *)

Module Observe.
Import Downshift.

(** The calls made between two moments of an instance's life. *)
Definition fired (before after : Component) : list event :=
  drop (length (trace before)) (trace after).










(** The patch a transition commits: the override's answer to the proposal. *)
Definition reduced (stateToSet : patch) (this : Component) : obj :=
  stateReducer (props this) (getState this) (proposal stateToSet (getState this)).

(** Every field of the override-adjusted patch holds the current effective
    value. *)
Definition proposes_current_state (stateToSet : patch) (this : Component) : Prop :=
  map_Forall (λ k v, k ≠ "type" → get (getState this) k = v) (reduced stateToSet this).

#[global] Instance proposes_current_state_dec stateToSet this :
  Decision (proposes_current_state stateToSet this).
Proof. unfold proposes_current_state. apply _. Defined.

(** Exactly one call is made, the user-action notification, and its
    changeset names no state field. *)
Definition only_user_action (evs : list event) : Prop :=
  ∃ changes helpers,
    evs = [onUserAction changes helpers] ∧ ∀ k, k ≠ "type" → changes !! k = None.

(** The object whose [inputValue] the per-field notification announces:
    the raw object patch (before the override runs), or for a function patch
    the override's answer. *)
Definition announced (stateToSet : patch) (this : Component) : obj :=
  match stateToSet with
  | PatchObj o => o
  | PatchFn _ => newStateToSet (update_of stateToSet this)
  end.

(** The values the per-field input notifications carry. *)
Definition inputValues_notified (evs : list event) : list jsval :=
  omap (λ e, match e with onInputValueChange v _ => Some v | _ => None end) evs.

(** The values the select notifications carry. *)
Definition items_selected (evs : list event) : list jsval :=
  omap (λ e, match e with onSelect v _ => Some v | _ => None end) evs.


(** The changesets the aggregate state-change notifications carry. *)
Definition stateChanges_notified (evs : list event) : list obj :=
  omap (λ e, match e with onStateChange c _ => Some c | _ => None end) evs.

(** The items the selection-changed notifications carry. *)
Definition selections_changed (evs : list event) : list jsval :=
  omap (λ e, match e with onChange v _ => Some v | _ => None end) evs.

(** The state snapshots the outer-click notifications carry. *)
Definition outerClicks (evs : list event) : list obj :=
  omap (λ e, match e with onOuterClick h => Some h | _ => None end) evs.

(** The four fields of the state. *)
Definition fourFields : list string :=
  ["highlightedIndex"; "isOpen"; "inputValue"; "selectedItem"].

(** No field of the caller's, and the default override: the widget owns its
    whole state. *)
Definition uncontrolled (this : Component) : Prop :=
  fields (props this) = ∅ ∧ ∀ st p, stateReducer (props this) st p = p.

(** Every pending timeout of a mounted component is one whose id it keeps,
    and the ids it keeps were handed out before the next one. *)
Definition timers_tracked (m : Mounted) : Prop :=
  Forall (λ i, (i < nextTimeoutId m)%nat) (timeoutIds m)
  ∧ Forall (λ t, t.1 ∈ timeoutIds m) (pending m).

End Observe.

(** ** Concrete widgets *)

Module Scenario.
Import Downshift.

(** A document holding the elements of items 0, 1 and 2, none disabled. *)
Definition document3 : Environment :=
  {| getItemElement := λ index,
       match index with
       | VNum n => if (0 <=? n) && (n <? 3) then Some false else None
       | _ => None
       end |}.

Definition abc : list jsval := [VStr "a"; VStr "b"; VStr "c"].

(** A freshly mounted widget with the default props. *)
Definition fresh : Component := constructor (defaultProps (Some document3)).

(** The collection ["a"; "b"; "c"] rendered, closed, nothing highlighted. *)
Definition closed3 : Component := set_items abc fresh.

(** The same, open with the last item highlighted (Scenario B). *)
Definition open3_at2 : Component :=
  setHighlightedIndex (VNum 2) ∅ (openMenu None closed3).

Definition keydown (code : Z) : KeyboardEvent :=
  {| which := code; shiftKey := false; defaultPrevented := false |}.

(** Index 2 is highlighted, then the rendered collection shrinks to nothing. *)
Definition emptied_at2 : Component := clearItems open3_at2.

(** A caller controlling [isOpen]: mounted closed with "a" selected, then
    rendered again with [isOpen = true]. *)
Definition controls_isOpen (isOpen : bool) : Props :=
  {| fields := {[ "isOpen" := VBool isOpen ]};
     defaultHighlightedIndex := VNull;
     defaultIsOpen := VBool false;
     initialHighlightedIndex := VUndefined;
     initialIsOpen := VUndefined;
     initialInputValue := VUndefined;
     initialSelectedItem := VStr "a";
     itemToString := default_itemToString;
     selectedItemChanged := λ prevItem item, bool_decide (prevItem ≠ item);
     stateReducer := default_stateReducer;
     props_itemCount := None;
     environment := Some document3 |}.

Definition controlled_open : Component :=
  set_items abc (set_props (controls_isOpen true) (constructor (controls_isOpen false))).



(** Hook props with three items and a configured default highlight of 7. *)
Definition hook_default7 : hooks.Props :=
  {| hooks.fields := {[ "defaultHighlightedIndex" := VNum 7 ]};
     hooks.items := abc;
     hooks.itemToString := hooks.default_itemToString;
     hooks.stateReducer := hooks.default_stateReducer |}.

(** The same widget with index 1 highlighted: the prop says open, the
    [isOpen] kept in the state still says closed. *)
Definition controlled_open_at1 : Component :=
  setHighlightedIndex (VNum 1) ∅ controlled_open.

(** A caller controlling [selectedItem]. *)
Definition controls_selectedItem (item : string) : Props :=
  {| fields := {[ "selectedItem" := VStr item ]};
     defaultHighlightedIndex := VNull;
     defaultIsOpen := VBool false;
     initialHighlightedIndex := VUndefined;
     initialIsOpen := VUndefined;
     initialInputValue := VUndefined;
     initialSelectedItem := VUndefined;
     itemToString := default_itemToString;
     selectedItemChanged := λ prevItem item, bool_decide (prevItem ≠ item);
     stateReducer := default_stateReducer;
     props_itemCount := None;
     environment := Some document3 |}.

(** Mounted with "a" selected by the caller, index 2 highlighted since, and
    rendered again with "b". *)
Definition mounted_with_a : Component :=
  set_items abc (constructor (controls_selectedItem "a")).

Definition reselected_b : Component :=
  set_props (controls_selectedItem "b") (setHighlightedIndex (VNum 2) ∅ mounted_with_a).

(** A caller controlling nothing, starting with "a" selected. *)
Definition starts_with_a : Props :=
  {| fields := ∅;
     defaultHighlightedIndex := VNull;
     defaultIsOpen := VBool false;
     initialHighlightedIndex := VUndefined;
     initialIsOpen := VUndefined;
     initialInputValue := VUndefined;
     initialSelectedItem := VStr "a";
     itemToString := default_itemToString;
     selectedItemChanged := λ prevItem item, bool_decide (prevItem ≠ item);
     stateReducer := default_stateReducer;
     props_itemCount := None;
     environment := Some document3 |}.

(** Hook props with three items and nothing else configured. *)
Definition hook_plain : hooks.Props :=
  {| hooks.fields := ∅;
     hooks.items := abc;
     hooks.itemToString := hooks.default_itemToString;
     hooks.stateReducer := hooks.default_stateReducer |}.

End Scenario.

(** * Properties *)

(** ** The merger *)

Lemma getState_lookup (state props : obj) k :
  utils.getState state props !! k =
    (λ v, if utils.isControlledProp props k then get props k else v) <$> state !! k.
Proof. unfold utils.getState. rewrite map_lookup_imap. by destruct (state !! k). Qed.

Lemma getState_controlled (state props : obj) k :
  utils.isControlledProp props k = true → is_Some (state !! k) →
  get (utils.getState state props) k = get props k.
Proof.
  intros Hc [v Hv]. unfold get at 1. rewrite getState_lookup, Hv. simpl. by rewrite Hc.
Qed.

Lemma getState_uncontrolled (state props : obj) k :
  utils.isControlledProp props k = false →
  get (utils.getState state props) k = get state k.
Proof.
  intros Hc. unfold get. rewrite getState_lookup. destruct (state !! k); simpl; [by rewrite Hc | done].
Qed.

Lemma isControlledProp_empty k : utils.isControlledProp ∅ k = false.
Proof. reflexivity. Qed.

Lemma getState_no_props (state : obj) : utils.getState state ∅ = state.
Proof.
  apply map_eq. intros k. rewrite getState_lookup.
  destruct (state !! k); simpl; [|done]. unfold utils.isControlledProp.
  by rewrite (bool_decide_eq_false_2 (get ∅ k ≠ VUndefined)) by (intros H; by apply H).
Qed.

(** ** The session *)

Section Session.
Import Downshift Observe.

Lemma state_when c e this : state (when c e this) = state this.
Proof. by destruct c. Qed.

Lemma props_when c e this : props (when c e this) = props this.
Proof. by destruct c. Qed.

Lemma getState_when c e this : getState (when c e this) = getState this.
Proof. by destruct c. Qed.

Lemma getStateAndHelpers_when c e this :
  getStateAndHelpers (when c e this) = getStateAndHelpers this.
Proof. by destruct c. Qed.

Lemma trace_when c e this :
  trace (when c e this) = trace this ++ (if c then [e this] else []).
Proof. destruct c; simpl; [done | by rewrite app_nil_r]. Qed.

Lemma user_cb_state tag this : state (cbToCb (user_cb tag) this) = state this.
Proof. by destruct tag. Qed.

Lemma user_cb_props tag this : props (cbToCb (user_cb tag) this) = props this.
Proof. by destruct tag. Qed.

Lemma user_cb_trace tag this :
  trace (cbToCb (user_cb tag) this) =
    trace this ++ match tag with Some t => [callback t] | None => [] end.
Proof. destruct tag; simpl; [done | by rewrite app_nil_r]. Qed.

Lemma internalSetState_props stateToSet tag this :
  props (internalSetState stateToSet (user_cb tag) this) = props this.
Proof.
  unfold internalSetState, afterSetState. cbn [props call].
  by rewrite ?props_when, user_cb_props; cbn [props set_state]; rewrite ?props_when.
Qed.

Lemma internalSetState_state stateToSet tag this :
  state (internalSetState stateToSet (user_cb tag) this) =
    spread (state this) (nextState (update_of stateToSet this)).
Proof.
  unfold internalSetState, afterSetState, update_of. cbn [state call].
  rewrite !state_when, user_cb_state. cbn [state set_state].
  by rewrite ?state_when, ?props_when, ?getState_when.
Qed.

Lemma getStateAndHelpers_ext a b :
  state a = state b → props a = props b → getStateAndHelpers a = getStateAndHelpers b.
Proof. intros Hs Hp. unfold getStateAndHelpers, getState, getState_of. by rewrite Hs, Hp. Qed.

Lemma getStateAndHelpers_user_cb tag this :
  getStateAndHelpers (cbToCb (user_cb tag) this) = getStateAndHelpers this.
Proof. by destruct tag. Qed.

(** The calls a transition makes, in order. *)
Lemma internalSetState_trace stateToSet tag this :
  let u := update_of stateToSet this in
  let this' := internalSetState stateToSet (user_cb tag) this in
  let helpers := getStateAndHelpers this' in
  trace this' =
    trace this
    ++ (if negb (isFunction stateToSet) && hasOwnProperty (patch_obj stateToSet) "inputValue"
        then [onInputValueChange (get (patch_obj stateToSet) "inputValue")
                (spread (getStateAndHelpers this) (patch_obj stateToSet))]
        else [])
    ++ (if isFunction stateToSet && hasOwnProperty (newStateToSet u) "inputValue"
        then [onInputValueChange (get (newStateToSet u) "inputValue")
                (spread (getStateAndHelpers this) (newStateToSet u))]
        else [])
    ++ match tag with Some t => [callback t] | None => [] end
    ++ (if bool_decide (1 < size (onStateChangeArg u))%nat
        then [onStateChange (onStateChangeArg u) helpers] else [])
    ++ (if isItemSelected u
        then [onSelect (patch_selectedItem stateToSet) helpers] else [])
    ++ (if bool_decide (onChangeArg u ≠ VUndefined)
        then [onChange (onChangeArg u) helpers] else [])
    ++ [onUserAction (onStateChangeArg u) helpers].
Proof.
  intros u this' helpers.
  set (committed := set_state (spread (state this) (nextState u)) this).
  assert (Hh : ∀ x, state x = state committed → props x = props committed →
                    getStateAndHelpers x = getStateAndHelpers committed)
    by (intros; by apply getStateAndHelpers_ext).
  assert (Hhelpers : helpers = getStateAndHelpers committed).
  { apply Hh.
    - subst this'. by rewrite internalSetState_state.
    - subst this'. by rewrite internalSetState_props. }
  rewrite Hhelpers. clear Hhelpers helpers.
  subst this'. unfold internalSetState, afterSetState.
  set (c1 := negb _ && _). set (e1 := λ this0, onInputValueChange (get (patch_obj _) _) _).
  rewrite (props_when c1 e1 this), (getState_when c1 e1 this).
  fold (update_of stateToSet this). fold u.
  cbn [trace call].
  rewrite !trace_when, user_cb_trace. cbn [trace set_state].
  rewrite !trace_when, !getStateAndHelpers_when, !getStateAndHelpers_user_cb.
  rewrite (Hh (set_state _ _))
    by (cbn [state props set_state]; by rewrite ?state_when, ?props_when).
  by rewrite <- !app_assoc.
Qed.

(** *** What the updater computes *)

Lemma newStateToSet_lookup_ne p st proposed k :
  k ≠ "type" →
  newStateToSet (updater p st proposed) !! k = stateReducer p st proposed !! k.
Proof.
  intros Hk. unfold updater; cbn [newStateToSet].
  destruct (truthy _); [done | by rewrite lookup_insert_ne].
Qed.

Lemma nextState_lookup_Some p st proposed k v :
  nextState (updater p st proposed) !! k = Some v ↔
    k ≠ "type" ∧ utils.isControlledProp (fields p) k = false
    ∧ stateReducer p st proposed !! k = Some v.
Proof.
  unfold updater at 1; cbn [nextState]. rewrite map_lookup_filter_Some. cbn [fst snd].
  split.
  - intros (Hl & Hk & Hc). split_and!; [done..|].
    by rewrite <- (newStateToSet_lookup_ne p st proposed k Hk).
  - intros (Hk & Hc & Hl). split_and!; [|done..].
    by rewrite <- (newStateToSet_lookup_ne p st proposed k Hk) in Hl.
Qed.

Lemma nextState_lookup_controlled p st proposed k :
  utils.isControlledProp (fields p) k = true →
  nextState (updater p st proposed) !! k = None.
Proof.
  intros Hc. apply eq_None_not_Some. intros [v Hv].
  apply nextState_lookup_Some in Hv as (_ & Hc' & _). congruence.
Qed.

Lemma nextState_lookup_None p st proposed k :
  stateReducer p st proposed !! k = None →
  nextState (updater p st proposed) !! k = None.
Proof.
  intros Hn. apply eq_None_not_Some. intros [v Hv].
  apply nextState_lookup_Some in Hv as (_ & _ & Hl). congruence.
Qed.

Lemma onStateChangeArg_lookup_Some p st proposed k v :
  onStateChangeArg (updater p st proposed) !! k = Some v ↔
    newStateToSet (updater p st proposed) !! k = Some v ∧ get st k ≠ v.
Proof. unfold updater at 1; cbn [onStateChangeArg]. by rewrite map_lookup_filter_Some. Qed.

(** *** Controlled and uncontrolled fields *)

Lemma internalSetState_lookup_controlled stateToSet tag this k :
  utils.isControlledProp (fields (props this)) k = true →
  state (internalSetState stateToSet (user_cb tag) this) !! k = state this !! k.
Proof.
  intros Hc. rewrite internalSetState_state. unfold spread, update_of.
  by rewrite lookup_union_r by by apply nextState_lookup_controlled.
Qed.

Lemma internalSetState_lookup_written stateToSet tag this k v :
  k ≠ "type" → utils.isControlledProp (fields (props this)) k = false →
  stateReducer (props this) (getState this) (proposal stateToSet (getState this)) !! k = Some v →
  state (internalSetState stateToSet (user_cb tag) this) !! k = Some v.
Proof.
  intros Hk Hc Hl. rewrite internalSetState_state. unfold spread, update_of.
  apply lookup_union_Some_l. by apply nextState_lookup_Some.
Qed.

Lemma internalSetState_lookup_untouched stateToSet tag this k :
  stateReducer (props this) (getState this) (proposal stateToSet (getState this)) !! k = None →
  state (internalSetState stateToSet (user_cb tag) this) !! k = state this !! k.
Proof.
  intros Hl. rewrite internalSetState_state. unfold spread, update_of.
  by rewrite lookup_union_r by by apply nextState_lookup_None.
Qed.

Lemma internalSetState_effective_written stateToSet tag this k v :
  k ≠ "type" → utils.isControlledProp (fields (props this)) k = false →
  stateReducer (props this) (getState this) (proposal stateToSet (getState this)) !! k = Some v →
  get (getState (internalSetState stateToSet (user_cb tag) this)) k = v.
Proof.
  intros Hk Hc Hl. unfold getState, getState_of.
  rewrite internalSetState_props, getState_uncontrolled by done.
  unfold get. by erewrite internalSetState_lookup_written.
Qed.

(** The four fields exist from the constructor on, and no transition removes
    one. *)
Lemma constructor_tracks p k :
  k ∈ ["highlightedIndex"; "isOpen"; "inputValue"; "selectedItem"] →
  is_Some (state (constructor p) !! k).
Proof.
  intros Hk. unfold constructor; cbn [state].
  assert (Hg : ∀ o : obj, is_Some (o !! k) → is_Some (utils.getState o (fields p) !! k)).
  { intros o [v Hv]. rewrite getState_lookup, Hv. by eexists. }
  destruct (negb _ && _).
  - destruct (decide (k = "inputValue")) as [-> | Hne].
    + rewrite lookup_insert_eq. by eexists.
    + rewrite lookup_insert_ne by done. apply Hg.
      repeat (apply elem_of_cons in Hk as [-> | Hk]); try by eexists.
      by apply elem_of_nil in Hk.
  - apply Hg.
    repeat (apply elem_of_cons in Hk as [-> | Hk]); try by eexists.
    by apply elem_of_nil in Hk.
Qed.

Lemma internalSetState_tracks stateToSet tag this k :
  is_Some (state this !! k) →
  is_Some (state (internalSetState stateToSet (user_cb tag) this) !! k).
Proof.
  intros [v Hv]. rewrite internalSetState_state. unfold spread.
  destruct (nextState (update_of stateToSet this) !! k) as [w|] eqn:E.
  - exists w. by apply lookup_union_Some_l.
  - exists v. by rewrite lookup_union_r.
Qed.



(** *** The item count *)

(** C10: the count set by [setItemCount] wins over the [itemCount] prop and
    the number of registered items, whatever these are; once
    [unsetItemCount] is called the prop, or else that number, decides again;
    reading the count changes nothing; and [moveHighlightedIndex] navigates
    by this count (none set here means staying put when it is not
    positive). *)
Theorem getItemCount_priority this c :
  getItemCount (setItemCount c this) = c
  ∧ getItemCount (unsetItemCount this) =
      match props_itemCount (props this) with
      | Some p => p
      | None => Z.of_nat (length (items this))
      end
  ∧ getItemCount (unsetItemCount (setItemCount c this)) = getItemCount (unsetItemCount this)
  ∧ (∀ l p, getItemCount (set_props p (set_items l (setItemCount c this))) = c)
  ∧ (∀ amount otherStateToSet,
       moveHighlightedIndex amount otherStateToSet (setItemCount c this) =
         if 0 <? c then
           setHighlightedIndex
             (VNum (utils.getHighlightedIndex (get (getState this) "highlightedIndex")
                      amount c (isItemDisabled this VUndefined)))
             otherStateToSet (setItemCount c this)
         else setItemCount c this).
Proof. split_and!; try reflexivity. Qed.

(** *** Keys that change nothing *)

(** C9: an Enter keydown whose [which] is 229 returns at once: the event is
    not even default-prevented and the instance, with its four state fields
    and its trace of notifications, is the one it was. *)
Theorem Enter_during_composition event this :
  which event = 229 → Enter event this = (event, this).
Proof. intros H. unfold Enter. by rewrite H. Qed.

Lemma Enter_during_composition_witness :
  which (Scenario.keydown 229) = 229
  ∧ Enter (Scenario.keydown 229) Scenario.open3_at2
      = (Scenario.keydown 229, Scenario.open3_at2).
Proof.
  split; [reflexivity |].
  apply (Enter_during_composition (Scenario.keydown 229) Scenario.open3_at2).
  reflexivity.
Defined.

(** C6 as amended: with no item to commit (the highlighted index is [null],
    or -1, or names no registered item) Enter and [selectHighlightedItem]
    return before any transition starts: the instance is unchanged, so
    [selectedItem], [isOpen], [inputValue] and the trace are, and no
    notification fires, [onUserAction] neither.  The hooks'
    [getChangesOnSelection] proposes, in that situation, to close the menu
    and to reset the highlight, and nothing for [selectedItem] and
    [inputValue]. *)
Theorem commit_without_item event otherStateToSet cb this :
  let highlightedIndex := get (getState this) "highlightedIndex" in
  highlightedIndex = VNull ∨ highlightedIndex = VNum utils.sentinel
    ∨ is_nullish (array_get (items this) highlightedIndex) = true →
  (Enter event this).2 = this
  ∧ selectHighlightedItem otherStateToSet cb this = this
  ∧ (∀ hprops index inputValue,
       index < 0 ∨ hooks.items hprops = [] →
       hooks.getChangesOnSelection hprops index inputValue
         = {[ "isOpen" := VBool false; "highlightedIndex" := VNum (-1) ]}).
Proof.
  intros hi Hhi.
  assert (Hitem : is_nullish (array_get (items this) hi) = true).
  { destruct Hhi as [-> | [-> | H]]; done. }
  split_and!.
  - unfold Enter. fold hi. destruct (which event =? 229); [done|].
    destruct (truthy _ && negb _); [|done]. by rewrite Hitem.
  - unfold selectHighlightedItem, selectItemAtIndex. fold hi. by rewrite Hitem.
  - intros hprops index inputValue Hno. unfold hooks.getChangesOnSelection.
    assert (negb (Z.of_nat (length (hooks.items hprops)) =? 0) && (0 <=? index) = false) as ->.
    { destruct Hno as [Hneg | ->]; [|done].
      rewrite (proj2 (Z.leb_gt 0 index)) by done. apply andb_false_r. }
    unfold spread. apply (left_id_L ∅ (∪)).
Qed.

Lemma commit_without_item_witness :
  get (getState (openMenu None Scenario.closed3)) "highlightedIndex" = VNull
  ∧ (Enter (Scenario.keydown 13) (openMenu None Scenario.closed3)).2
      = openMenu None Scenario.closed3
  ∧ selectHighlightedItem ∅ None (openMenu None Scenario.closed3)
      = openMenu None Scenario.closed3.
Proof.
  split; [reflexivity |].
  destruct (commit_without_item (Scenario.keydown 13) ∅ None
              (openMenu None Scenario.closed3)) as (H1 & H2 & _).
  - left. reflexivity.
  - split; [exact H1 | exact H2].
Defined.

(** C6 as stated fails: on the open widget with nothing highlighted, Enter
    (and [selectHighlightedItem]) makes no call at all, so the user-action
    notification the claim expects does not fire; and in the hooks the
    commit proposes [isOpen = false], which closes the open menu. *)
Lemma silent_commit_fires_nothing :
  let this := openMenu None Scenario.closed3 in
  get (getState this) "highlightedIndex" = VNull
  ∧ get (getState this) "isOpen" = VBool true
  ∧ fired this (Enter (Scenario.keydown 13) this).2 = []
  ∧ ¬ only_user_action (fired this (Enter (Scenario.keydown 13) this).2)
  ∧ ¬ only_user_action (fired this (selectHighlightedItem ∅ None this))
  ∧ get (hooks.getChangesOnSelection Scenario.hook_plain (-1) true) "isOpen" = VBool false.
Proof.
  split_and!; try reflexivity;
    intros (changes & helpers & H & _); vm_compute in H; discriminate H.
Qed.

(** *** The calls of one transition *)

Lemma fired_app before after evs :
  trace after = trace before ++ evs → fired before after = evs.
Proof. intros H. unfold fired. rewrite H. by rewrite drop_app_length. Qed.

Lemma if_hasOwnProperty {A} (o : obj) k (f : jsval → A) (d : A) :
  (if hasOwnProperty o k then f (get o k) else d) =
    match o !! k with Some v => f v | None => d end.
Proof.
  unfold hasOwnProperty, get. by destruct (o !! k).
Qed.

Lemma internalSetState_fired stateToSet tag this :
  let u := update_of stateToSet this in
  let this' := internalSetState stateToSet (user_cb tag) this in
  let helpers := getStateAndHelpers this' in
  fired this this' =
    match announced stateToSet this !! "inputValue" with
    | Some v =>
        [onInputValueChange v (spread (getStateAndHelpers this) (announced stateToSet this))]
    | None => []
    end
    ++ match tag with Some t => [callback t] | None => [] end
    ++ (if bool_decide (1 < size (onStateChangeArg u))%nat
        then [onStateChange (onStateChangeArg u) helpers] else [])
    ++ (if isItemSelected u
        then [onSelect (patch_selectedItem stateToSet) helpers] else [])
    ++ (if bool_decide (onChangeArg u ≠ VUndefined)
        then [onChange (onChangeArg u) helpers] else [])
    ++ [onUserAction (onStateChangeArg u) helpers].
Proof.
  intros u this' helpers. apply fired_app.
  subst this' helpers. rewrite internalSetState_trace. fold u.
  f_equal. destruct stateToSet as [o|f]; cbn [isFunction negb andb patch_obj announced].
  - rewrite app_nil_l.
    by rewrite (if_hasOwnProperty o "inputValue"
                  (λ v, [onInputValueChange v (spread (getStateAndHelpers this) o)])).
  - fold u. cbn [app]. f_equal.
    by rewrite (if_hasOwnProperty (newStateToSet u) "inputValue"
                  (λ v, [onInputValueChange v
                           (spread (getStateAndHelpers this) (newStateToSet u))])).
Qed.

(** *** Transitions that propose the current state *)

Lemma only_type_size (m : obj) :
  (∀ k, k ≠ "type" → m !! k = None) → (size m ≤ 1)%nat.
Proof.
  intros Hm.
  assert (m = match m !! "type" with Some v => {[ "type" := v ]} | None => ∅ end) as Hmeq.
  { apply map_eq. intros k. destruct (decide (k = "type")) as [-> | Hk].
    - destruct (m !! "type") eqn:E; by simplify_map_eq.
    - rewrite Hm by done. destruct (m !! "type"); by simplify_map_eq. }
  rewrite Hmeq. destruct (m !! "type");
    [rewrite map_size_singleton | rewrite map_size_empty]; lia.
Qed.

Section Noop.
Context (stateToSet : patch) (this : Component).
Hypothesis Hnoop : proposes_current_state stateToSet this.

Lemma noop_changes k : k ≠ "type" → onStateChangeArg (update_of stateToSet this) !! k = None.
Proof.
  intros Hk. apply eq_None_not_Some. intros [v Hv].
  apply onStateChangeArg_lookup_Some in Hv as [Hl Hne].
  rewrite newStateToSet_lookup_ne in Hl by done.
  apply Hne. by apply (Hnoop k v).
Qed.

Lemma noop_no_onStateChange : bool_decide (1 < size (onStateChangeArg (update_of stateToSet this)))%nat = false.
Proof.
  apply bool_decide_eq_false_2. pose proof (only_type_size _ noop_changes). lia.
Qed.

Lemma noop_no_onChange : bool_decide (onChangeArg (update_of stateToSet this) ≠ VUndefined) = false.
Proof.
  apply bool_decide_eq_false_2. intros Hne. apply Hne. clear Hne.
  unfold update_of, updater; cbn [onChangeArg].
  unfold hasOwnProperty. case_bool_decide as Hs; [|done]. cbn [andb].
  case_bool_decide as Hd; [|done]. destruct Hd. destruct Hs as [v Hv].
  unfold get at 1. rewrite Hv. simpl. symmetry. by apply (Hnoop "selectedItem" v).
Qed.

Lemma noop_state k :
  get (state (internalSetState stateToSet (user_cb None) this)) k = get (state this) k.
Proof.
  rewrite internalSetState_state. unfold get, spread.
  destruct (nextState (update_of stateToSet this) !! k) as [v|] eqn:E.
  - erewrite lookup_union_Some_l by done.
    apply nextState_lookup_Some in E as (Hk & Hc & Hl). simpl.
    rewrite <- (Hnoop k v Hl Hk). unfold getState, getState_of.
    rewrite getState_uncontrolled by done. reflexivity.
  - by rewrite lookup_union_r.
Qed.

End Noop.

(** C3 as amended: when every field of the override-adjusted patch holds
    the current effective value, no state field is rewritten to a new value,
    the changeset names no state field, neither the aggregate [onStateChange]
    nor [onChange] fires and [onUserAction] fires last; but
    [onInputValueChange] still fires when the patch carries an [inputValue]
    (changed or not), and [onSelect] when it carries a [selectedItem]. *)
Theorem noop_transition_notifications stateToSet this :
  proposes_current_state stateToSet this →
  let this' := internalSetState stateToSet None this in
  ∃ changes helpers,
    fired this this' =
      match announced stateToSet this !! "inputValue" with
      | Some v =>
          [onInputValueChange v
             (spread (getStateAndHelpers this) (announced stateToSet this))]
      | None => []
      end
      ++ (if hasOwnProperty (reduced stateToSet this) "selectedItem"
          then [onSelect (patch_selectedItem stateToSet) helpers] else [])
      ++ [onUserAction changes helpers]
    ∧ (∀ k, k ≠ "type" → changes !! k = None)
    ∧ (∀ k, get (state this') k = get (state this) k).
Proof.
  intros Hnoop this'.
  exists (onStateChangeArg (update_of stateToSet this)), (getStateAndHelpers this').
  split_and!.
  - subst this'. change None with (user_cb None).
    rewrite internalSetState_fired.
    rewrite noop_no_onStateChange, noop_no_onChange by done.
    reflexivity.
  - by apply noop_changes.
  - intros k. by apply noop_state.
Qed.

Lemma noop_transition_notifications_witness :
  let this := Scenario.open3_at2 in
  let stateToSet := PatchObj {[ "isOpen" := VBool true; "highlightedIndex" := VNum 2 ]} in
  proposes_current_state stateToSet this
  ∧ ∃ changes helpers,
      fired this (internalSetState stateToSet None this) = [onUserAction changes helpers].
Proof.
  intros this stateToSet.
  assert (Hnoop : proposes_current_state stateToSet this).
  { apply (bool_decide_unpack _). vm_compute. exact I. }
  split; [exact Hnoop |].
  destruct (noop_transition_notifications stateToSet this Hnoop)
    as (changes & helpers & Hf & _).
  exists changes, helpers. exact Hf.
Defined.

(** C3 as stated fails: [clearSelection] on a fresh widget proposes the very
    state the widget is in, yet [onInputValueChange] and [onSelect] fire
    besides [onUserAction]. *)
Lemma noop_still_notifies_fields :
  let this := Scenario.fresh in
  let stateToSet :=
    PatchObj {[ "selectedItem" := VNull; "inputValue" := VStr "";
                "highlightedIndex" := VNull; "isOpen" := VBool false ]} in
  clearSelection None this = internalSetState stateToSet None this
  ∧ proposes_current_state stateToSet this
  ∧ ¬ only_user_action (fired this (clearSelection None this))
  ∧ inputValues_notified (fired this (clearSelection None this)) = [VStr ""]
  ∧ items_selected (fired this (clearSelection None this)) = [VNull].
Proof.
  split_and!.
  - reflexivity.
  - apply (bool_decide_unpack _). vm_compute. exact I.
  - intros (changes & helpers & H & _). vm_compute in H. discriminate H.
  - vm_compute. reflexivity.
  - vm_compute. reflexivity.
Qed.

(** *** The override *)







(** *** The index navigator *)

Lemma walk_range fuel dir count isDisabled index :
  0 < count → 0 ≤ index < count →
  let r := utils.walk fuel dir count isDisabled index in
  r = utils.sentinel ∨ 0 ≤ r < count.
Proof.
  intros Hc. revert index. induction fuel as [|fuel IH]; intros index Hi; simpl.
  - by left.
  - destruct (isDisabled index).
    + apply IH. by apply Z.mod_pos_bound.
    + by right.
Qed.

Lemma walk_all_disabled fuel dir count isDisabled index :
  (∀ i, isDisabled i = true) → utils.walk fuel dir count isDisabled index = utils.sentinel.
Proof.
  intros Hd. revert index. induction fuel as [|fuel IH]; intros index; simpl; [done|].
  by rewrite Hd.
Qed.

(** "If every item is disabled, move returns the sentinel regardless of
    step or start." *)
Lemma getHighlightedIndex_all_disabled start offset count isItemDisabled :
  (∀ i, isItemDisabled i = true) →
  utils.getHighlightedIndex start offset count isItemDisabled = utils.sentinel.
Proof.
  intros Hd. unfold utils.getHighlightedIndex. destruct (count <=? 0); [done|].
  by apply walk_all_disabled.
Qed.

Lemma getHighlightedIndex_range start offset count isItemDisabled :
  let r := utils.getHighlightedIndex start offset count isItemDisabled in
  r = utils.sentinel ∨ 0 ≤ r < count.
Proof.
  unfold utils.getHighlightedIndex. destruct (count <=? 0) eqn:E; [by left|].
  apply Z.leb_gt in E. apply walk_range; [done|]. by apply Z.mod_pos_bound.
Qed.

Lemma getHighlightedIndex_enabled start offset count isItemDisabled :
  0 ≤ start < count →
  isItemDisabled ((start + offset) `mod` count) = false →
  utils.getHighlightedIndex (VNum start) offset count isItemDisabled
    = (start + offset) `mod` count.
Proof.
  intros Hc Hd. unfold utils.getHighlightedIndex, utils.sentinel.
  rewrite (proj2 (Z.leb_gt count 0)) by lia.
  rewrite (proj2 (Z.leb_le 0 start)), (proj2 (Z.ltb_lt start count)) by lia.
  cbn [andb]. rewrite (proj2 (Z.eqb_neq start (-1))) by lia. cbn [andb].
  destruct (Z.to_nat count) as [|fuel] eqn:E; [lia|]. simpl. by rewrite Hd.
Qed.

Lemma pickState_lookup_None (o : obj) k : o !! k = None → utils.pickState o !! k = None.
Proof. intros H. unfold utils.pickState. apply map_lookup_filter_None. by left. Qed.

Lemma setHighlightedIndex_effective this highlightedIndex otherStateToSet :
  highlightedIndex ≠ VUndefined →
  otherStateToSet !! "highlightedIndex" = None →
  utils.isControlledProp (fields (props this)) "highlightedIndex" = false →
  (∀ st p, stateReducer (props this) st p = p) →
  get (getState (setHighlightedIndex highlightedIndex otherStateToSet this)) "highlightedIndex"
    = highlightedIndex.
Proof.
  intros Hu Ho Hc Hid. unfold setHighlightedIndex, or_default.
  rewrite decide_False by done. change None with (user_cb None).
  apply internalSetState_effective_written; [done | done |].
  rewrite Hid. cbn [proposal]. unfold spread.
  rewrite lookup_union_r by by apply pickState_lookup_None.
  apply lookup_singleton_eq.
Qed.

Section Navigation.
Context (this : Component) (event : KeyboardEvent) (n : Z).
Hypothesis Hcount : getItemCount this = n.
Hypothesis Hpos : 0 < n.
Hypothesis Hopen : truthy (get (getState this) "isOpen") = true.
Hypothesis Henabled : ∀ i, isItemDisabled this VUndefined i = false.
Hypothesis Hfree :
  utils.isControlledProp (fields (props this)) "highlightedIndex" = false.
Hypothesis Hid : ∀ st p, stateReducer (props this) st p = p.
Hypothesis Hshift : shiftKey event = false.

Lemma moveHighlightedIndex_enabled i amount type :
  0 ≤ i < n →
  get (getState this) "highlightedIndex" = VNum i →
  get (getState (moveHighlightedIndex amount {[ "type" := VType type ]} this))
      "highlightedIndex"
    = VNum ((i + amount) `mod` n).
Proof.
  intros Hr Hi. unfold moveHighlightedIndex. rewrite Hcount, Hi.
  rewrite (proj2 (Z.ltb_lt 0 n)) by done.
  rewrite getHighlightedIndex_enabled by done.
  by apply setHighlightedIndex_effective.
Qed.

Lemma ArrowDown_enabled i :
  0 ≤ i < n →
  get (getState this) "highlightedIndex" = VNum i →
  get (getState (ArrowDown event this).2) "highlightedIndex" = VNum ((i + 1) `mod` n).
Proof.
  intros Hr Hi. unfold ArrowDown. rewrite Hopen. cbn [snd preventDefault shiftKey].
  rewrite Hshift. by apply moveHighlightedIndex_enabled.
Qed.

Lemma ArrowUp_enabled i :
  0 ≤ i < n →
  get (getState this) "highlightedIndex" = VNum i →
  get (getState (ArrowUp event this).2) "highlightedIndex" = VNum ((i - 1) `mod` n).
Proof.
  intros Hr Hi. unfold ArrowUp. rewrite Hopen. cbn [snd preventDefault shiftKey].
  rewrite Hshift. by apply (moveHighlightedIndex_enabled i (-1)).
Qed.

End Navigation.

Lemma mod_minus_one n : 0 < n → (0 - 1) `mod` n = n - 1.
Proof. intros Hn. symmetry. apply (Z.mod_unique_pos (0 - 1) n (-1) (n - 1)); lia. Qed.

(** C5: on an open widget of [n > 0] items, all enabled, whose highlighted
    index the engine owns, an arrow key without shift moves the highlight
    from an in-range [i] to [i + 1] (down) or [i - 1] (up) modulo [n]: down
    from [n - 1] wraps to 0 and up from 0 wraps to [n - 1].  The navigator
    itself maps [(n - 1, +1)] to 0 and [(0, -1)] to [n - 1]. *)
Theorem arrow_navigation_wraps this event n :
  getItemCount this = n →
  0 < n →
  truthy (get (getState this) "isOpen") = true →
  (∀ i, isItemDisabled this VUndefined i = false) →
  utils.isControlledProp (fields (props this)) "highlightedIndex" = false →
  (∀ st p, stateReducer (props this) st p = p) →
  shiftKey event = false →
  (∀ i, 0 ≤ i < n → get (getState this) "highlightedIndex" = VNum i →
     get (getState (ArrowDown event this).2) "highlightedIndex" = VNum ((i + 1) `mod` n)
     ∧ get (getState (ArrowUp event this).2) "highlightedIndex" = VNum ((i - 1) `mod` n))
  ∧ (get (getState this) "highlightedIndex" = VNum (n - 1) →
     get (getState (ArrowDown event this).2) "highlightedIndex" = VNum 0)
  ∧ (get (getState this) "highlightedIndex" = VNum 0 →
     get (getState (ArrowUp event this).2) "highlightedIndex" = VNum (n - 1))
  ∧ utils.getHighlightedIndex (VNum (n - 1)) 1 n (λ _, false) = 0
  ∧ utils.getHighlightedIndex (VNum 0) (-1) n (λ _, false) = n - 1.
Proof.
  intros Hcount Hpos Hopen Henabled Hfree Hid Hshift. split_and!.
  - intros i Hi Hhi. split.
    + by apply ArrowDown_enabled.
    + by apply ArrowUp_enabled.
  - intros Hhi. rewrite (ArrowDown_enabled this event n) with (i := n - 1) by (done || lia).
    f_equal. replace (n - 1 + 1) with n by lia. apply Z_mod_same_full.
  - intros Hhi. rewrite (ArrowUp_enabled this event n) with (i := 0) by (done || lia).
    f_equal. by apply mod_minus_one.
  - rewrite getHighlightedIndex_enabled by (done || lia).
    replace (n - 1 + 1) with n by lia. apply Z_mod_same_full.
  - rewrite getHighlightedIndex_enabled by (done || lia). by apply mod_minus_one.
Qed.

(** Scenario B: ["a"; "b"; "c"] open at index 2, arrow down. *)
Lemma arrow_navigation_wraps_witness :
  let this := Scenario.open3_at2 in
  getItemCount this = 3
  ∧ get (getState this) "highlightedIndex" = VNum 2
  ∧ get (getState (ArrowDown (Scenario.keydown 40) this).2) "highlightedIndex" = VNum 0.
Proof.
  intros this. split_and!; [reflexivity | reflexivity |].
  assert (Henabled : ∀ i, isItemDisabled this VUndefined i = false).
  { intros i. unfold isItemDisabled, getItemNodeFromIndex.
    assert (environment (props this) = Some Scenario.document3) as ->
      by (vm_compute; reflexivity).
    cbn [Scenario.document3 getItemElement].
    destruct ((0 <=? i) && (i <? 3)); reflexivity. }
  apply (arrow_navigation_wraps this (Scenario.keydown 40) 3);
    [reflexivity | lia | reflexivity | exact Henabled | reflexivity
    | intros; reflexivity | reflexivity | reflexivity].
Defined.

(** *** Bounds of the highlighted index *)

Lemma indexOf_from_range a x i :
  let r := indexOf_from a x i in
  r = -1 ∨ i ≤ r < i + Z.of_nat (length a).
Proof.
  revert i. induction a as [|y a IH]; intros i; simpl; [by left|].
  destruct (decide (y = x)); [right; lia|].
  destruct (IH (i + 1)) as [H | H]; [by left | right; lia].
Qed.

Lemma indexOf_range a x : -1 ≤ indexOf a x < Z.of_nat (length a).
Proof. unfold indexOf. destruct (indexOf_from_range a x 0) as [H | H]; simpl in H; lia. Qed.

Lemma moveHighlightedIndex_empty this amount otherStateToSet :
  getItemCount this ≤ 0 → moveHighlightedIndex amount otherStateToSet this = this.
Proof.
  intros H. unfold moveHighlightedIndex. by rewrite (proj2 (Z.ltb_ge 0 _)) by done.
Qed.

Lemma getHighlightedIndexOnOpen_cases props state offset :
  let r := hooks.getHighlightedIndexOnOpen props state offset in
  (hooks.items props ≠ [] ∧ r = get (hooks.fields props) "initialHighlightedIndex" ∧ r ≠ VUndefined)
  ∨ (hooks.items props ≠ [] ∧ r = get (hooks.fields props) "defaultHighlightedIndex" ∧ r ≠ VUndefined)
  ∨ ∃ i, r = VNum i ∧ (i = -1 ∨ 0 ≤ i < Z.of_nat (length (hooks.items props))).
Proof.
  unfold hooks.getHighlightedIndexOnOpen.
  destruct (Z.of_nat (length (hooks.items props)) =? 0) eqn:El.
  { right; right. exists (-1). split; [done | lia]. }
  apply Z.eqb_neq in El.
  assert (Hne : hooks.items props ≠ []) by (intros E; by rewrite E in El).
  case_bool_decide as Hi; cbn [andb].
  - case_bool_decide as Hh; [by left|].
    case_bool_decide as Hd; [by right; left|].
    right; right. destruct (truthy _).
    + eexists; split; [done|]. pose proof (indexOf_range (hooks.items props) (get state "selectedItem")). lia.
    + destruct (offset =? 0); [exists (-1); split; [done | lia]|].
      destruct (offset <? 0); eexists; (split; [done | lia]).
  - case_bool_decide as Hd; [by right; left|].
    right; right. destruct (truthy _).
    + eexists; split; [done|]. pose proof (indexOf_range (hooks.items props) (get state "selectedItem")). lia.
    + destruct (offset =? 0); [exists (-1); split; [done | lia]|].
      destruct (offset <? 0); eexists; (split; [done | lia]).
Qed.

(** C4 as amended: the index arithmetic is total.  Against a count that is
    not positive [moveHighlightedIndex] starts no transition, so the
    highlighted index stays what it was; against a positive count it
    proposes the navigator's result, which is -1 or within the count.
    [getHighlightedIndexOnOpen] answers -1 for an empty collection;
    otherwise it hands back the caller's initial or default highlighted
    index as configured, and failing those an index that is -1 or within
    the collection. *)
Theorem highlight_arithmetic_bounds :
  (∀ this amount otherStateToSet,
     getItemCount this ≤ 0 →
     moveHighlightedIndex amount otherStateToSet this = this)
  ∧ (∀ this amount otherStateToSet,
       0 < getItemCount this →
       ∃ next,
         (next = utils.sentinel ∨ 0 ≤ next < getItemCount this)
         ∧ moveHighlightedIndex amount otherStateToSet this =
             setHighlightedIndex (VNum next) otherStateToSet this)
  ∧ (∀ start offset count isItemDisabled,
       count ≤ 0 → utils.getHighlightedIndex start offset count isItemDisabled = utils.sentinel)
  ∧ (∀ props state offset,
       hooks.items props = [] →
       hooks.getHighlightedIndexOnOpen props state offset = VNum (-1))
  ∧ (∀ props state offset,
       get (hooks.fields props) "initialHighlightedIndex" = VUndefined →
       get (hooks.fields props) "defaultHighlightedIndex" = VUndefined →
       ∃ i, hooks.getHighlightedIndexOnOpen props state offset = VNum i
            ∧ (i = -1 ∨ 0 ≤ i < Z.of_nat (length (hooks.items props))))
  ∧ (∀ props state offset,
       let r := hooks.getHighlightedIndexOnOpen props state offset in
       r = get (hooks.fields props) "initialHighlightedIndex"
       ∨ r = get (hooks.fields props) "defaultHighlightedIndex"
       ∨ ∃ i, r = VNum i ∧ (i = -1 ∨ 0 ≤ i < Z.of_nat (length (hooks.items props)))).
Proof.
  split_and!.
  - apply moveHighlightedIndex_empty.
  - intros this amount o Hpos. eexists. split; [apply getHighlightedIndex_range|].
    unfold moveHighlightedIndex. by rewrite (proj2 (Z.ltb_lt 0 _)) by done.
  - intros start offset count dis Hc. unfold utils.getHighlightedIndex.
    by rewrite (proj2 (Z.leb_le count 0)) by done.
  - intros props state offset He. unfold hooks.getHighlightedIndexOnOpen. by rewrite He.
  - intros props state offset Hi Hd.
    destruct (getHighlightedIndexOnOpen_cases props state offset)
      as [(_ & H1 & H2) | [(_ & H1 & H2) | (i & H1 & H2)]]; [congruence.. |].
    exists i. split; [done | lia].
  - intros props state offset r. subst r.
    destruct (getHighlightedIndexOnOpen_cases props state offset)
      as [(_ & H1 & _) | [(_ & H1 & _) | (i & H1 & H2)]]; [by left | by right; left |].
    right; right. exists i. split; [done | lia].
Qed.

(** C4 as stated fails: with index 2 highlighted and the collection
    emptied, arrow-down navigates against a count of 0 and the highlighted
    index stays 2, neither [null] nor -1; and on three items
    [getHighlightedIndexOnOpen] answers the configured default 7. *)
Lemma empty_collection_keeps_highlight :
  let this := Scenario.emptied_at2 in
  let this' := (ArrowDown (Scenario.keydown 40) this).2 in
  getItemCount this = 0
  ∧ get (getState this) "isOpen" = VBool true
  ∧ get (getState this') "highlightedIndex" = VNum 2
  ∧ get (getState this') "highlightedIndex" ≠ VNull
  ∧ get (getState this') "highlightedIndex" ≠ VNum utils.sentinel
  ∧ hooks.getHighlightedIndexOnOpen Scenario.hook_default7
      hooks.dropdownDefaultStateValues 1 = VNum 7
  ∧ length (hooks.items Scenario.hook_default7) = 3%nat.
Proof. split_and!; by vm_compute. Qed.

(** *** Reset, blur and escape *)

Section Reset.
Context (this : Component) (otherStateToSet : obj) (tag : option nat).
Hypothesis Hid : ∀ st p, stateReducer (props this) st p = p.

Lemma reset_written k v :
  k ≠ "type" → utils.isControlledProp (fields (props this)) k = false →
  utils.pickState otherStateToSet !! k = None →
  ({[ "isOpen" := defaultIsOpen (props this);
      "highlightedIndex" := defaultHighlightedIndex (props this);
      "inputValue" :=
        VStr (itemToString (props this) (get (getState this) "selectedItem")) ]} : obj)
    !! k = Some v →
  get (getState (reset otherStateToSet (user_cb tag) this)) k = v.
Proof.
  intros Hk Hc Hp Hl. unfold reset.
  apply internalSetState_effective_written; [done | done |].
  rewrite Hid. cbn [proposal]. unfold spread.
  by rewrite lookup_union_r.
Qed.

Lemma reset_overridden k v :
  k ≠ "type" → utils.isControlledProp (fields (props this)) k = false →
  utils.pickState otherStateToSet !! k = Some v →
  get (getState (reset otherStateToSet (user_cb tag) this)) k = v.
Proof.
  intros Hk Hc Hp. unfold reset.
  apply internalSetState_effective_written; [done | done |].
  rewrite Hid. cbn [proposal]. unfold spread.
  by apply lookup_union_Some_l.
Qed.

Lemma reset_keeps_selectedItem :
  utils.pickState otherStateToSet !! "selectedItem" = None →
  get (getState (reset otherStateToSet (user_cb tag) this)) "selectedItem" = get (getState this) "selectedItem".
Proof.
  intros Hp. unfold reset, getState, getState_of.
  rewrite internalSetState_props.
  destruct (utils.isControlledProp (fields (props this)) "selectedItem") eqn:Hc.
  - unfold get at 1 3. rewrite !getState_lookup, Hc.
    by rewrite internalSetState_lookup_controlled.
  - rewrite !getState_uncontrolled by done. unfold get.
    rewrite internalSetState_lookup_untouched; [done|].
    rewrite Hid. cbn [proposal]. unfold spread.
    by rewrite lookup_union_r.
Qed.

End Reset.

Lemma pickState_lookup_Some (o : obj) k v :
  k ∈ utils.stateKeys → o !! k = Some v → utils.pickState o !! k = Some v.
Proof. intros Hk H. unfold utils.pickState. by apply map_lookup_filter_Some. Qed.

(** What the reset family does when the caller has installed no override and
    controls no field: the defaults for [isOpen] and [highlightedIndex], the
    projected string of the selected item for [inputValue], the selection
    kept; escape on a closed widget clears the selection and the input. *)
Lemma reset_family_uncontrolled this type tag :
  (∀ st p, stateReducer (props this) st p = p) →
  fields (props this) = ∅ →
  let this' := reset {[ "type" := VType type ]} (user_cb tag) this in
  get (getState this') "isOpen" = defaultIsOpen (props this)
  ∧ get (getState this') "highlightedIndex" = defaultHighlightedIndex (props this)
  ∧ get (getState this') "inputValue"
      = VStr (itemToString (props this) (get (getState this) "selectedItem"))
  ∧ get (getState this') "selectedItem" = get (getState this) "selectedItem".
Proof.
  intros Hid Hf this'.
  assert (Hc : ∀ k, utils.isControlledProp (fields (props this)) k = false).
  { intros k. rewrite Hf. apply isControlledProp_empty. }
  assert (Hp : ∀ k, k ≠ "type" → utils.pickState ({[ "type" := VType type ]} : obj) !! k = None).
  { intros k Hk. apply pickState_lookup_None. by apply lookup_singleton_ne. }
  split_and!.
  - apply reset_written; [done | done | done | by apply Hp | done].
  - apply reset_written; [done | done | done | by apply Hp | done].
  - apply reset_written; [done | done | done | by apply Hp | done].
  - apply reset_keeps_selectedItem; [done | by apply Hp].
Qed.

Lemma Escape_uncontrolled this event :
  (∀ st p, stateReducer (props this) st p = p) →
  fields (props this) = ∅ →
  let this' := (Escape event this).2 in
  get (getState this') "isOpen" = defaultIsOpen (props this)
  ∧ get (getState this') "highlightedIndex" = defaultHighlightedIndex (props this)
  ∧ (truthy (get (getState this) "isOpen") = true →
       get (getState this') "selectedItem" = get (getState this) "selectedItem"
       ∧ get (getState this') "inputValue"
           = VStr (itemToString (props this) (get (getState this) "selectedItem")))
  ∧ (truthy (get (getState this) "isOpen") = false →
       get (getState this') "selectedItem" = VNull
       ∧ get (getState this') "inputValue" = VStr "").
Proof.
  intros Hid Hf this'.
  assert (Hs : getState this = state this).
  { unfold getState, getState_of. rewrite Hf. apply getState_no_props. }
  assert (Hc : ∀ k, utils.isControlledProp (fields (props this)) k = false).
  { intros k. rewrite Hf. apply isControlledProp_empty. }
  subst this'. unfold Escape. cbn [snd]. rewrite <- Hs.
  destruct (truthy (get (getState this) "isOpen")) eqn:Hopen; cbn [negb].
  - unfold spread. rewrite (left_id_L ∅ (∪)).
    destruct (reset_family_uncontrolled this keyDownEscape None Hid Hf)
      as (H1 & H2 & H3 & H4).
    split_and!; [done | done | by intros _ | by intros ?].
  - change None with (user_cb None). split_and!.
    + apply reset_written; [done | done | done | | done].
      apply pickState_lookup_None. unfold spread. by simplify_map_eq.
    + apply reset_written; [done | done | done | | done].
      apply pickState_lookup_None. unfold spread. by simplify_map_eq.
    + by intros ?.
    + intros _. split.
      * apply reset_overridden; [done | done | done |].
        apply pickState_lookup_Some; [set_solver|]. unfold spread. by simplify_map_eq.
      * apply reset_overridden; [done | done | done |].
        apply pickState_lookup_Some; [set_solver|]. unfold spread. by simplify_map_eq.
Qed.

(** C7 fails on the code where the caller controls [isOpen]: the Escape
    handler consults the internal copy [this.state.isOpen], which is parked
    at its mount-time value, instead of the effective value.  Mounted closed
    with "a" selected and rendered open by the caller, the widget is open,
    yet Escape clears the selection and the input. *)
Theorem Escape_clears_selection_of_open_widget :
  let this := Scenario.controlled_open in
  let this' := (Escape (Scenario.keydown 27) this).2 in
  get (getState this) "isOpen" = VBool true
  ∧ get (state this) "isOpen" = VBool false
  ∧ get (getState this) "selectedItem" = VStr "a"
  ∧ get (getState this) "inputValue" = VStr "a"
  ∧ get (getState this') "selectedItem" = VNull
  ∧ get (getState this') "inputValue" = VStr "".
Proof. split_and!; by vm_compute. Qed.

End Session.

(** ** Further properties of the component *)

Section Component.
Import Downshift Observe.

(** *** Frames *)

Lemma when_frame c e this :
  items (when c e this) = items this
  ∧ itemCount (when c e this) = itemCount this
  ∧ isMouseDown (when c e this) = isMouseDown this
  ∧ isTouchMove (when c e this) = isTouchMove this.
Proof. by destruct c. Qed.

Lemma afterSetState_frame stateToSet u this :
  let this' := afterSetState stateToSet None u this in
  state this' = state this ∧ props this' = props this ∧ items this' = items this
  ∧ itemCount this' = itemCount this ∧ isMouseDown this' = isMouseDown this
  ∧ isTouchMove this' = isTouchMove this.
Proof.
  unfold afterSetState, cbToCb. cbn [default id state props items itemCount isMouseDown
    isTouchMove call].
  rewrite !state_when, !props_when.
  repeat match goal with
         | |- context [items (when ?c ?e ?x)] =>
             destruct (when_frame c e x) as (-> & -> & -> & ->)
         end.
  done.
Qed.

Lemma afterSetState_getState stateToSet u this :
  getState (afterSetState stateToSet None u this) = getState this.
Proof.
  destruct (afterSetState_frame stateToSet u this) as (Hs & Hp & _).
  unfold getState, getState_of. by rewrite Hs, Hp.
Qed.

Lemma afterSetState_trace stateToSet u this :
  let helpers := getStateAndHelpers this in
  trace (afterSetState stateToSet None u this) =
    trace this
    ++ (if bool_decide (1 < size (onStateChangeArg u))%nat
        then [onStateChange (onStateChangeArg u) helpers] else [])
    ++ (if isItemSelected u
        then [onSelect (patch_selectedItem stateToSet) helpers] else [])
    ++ (if bool_decide (onChangeArg u ≠ VUndefined)
        then [onChange (onChangeArg u) helpers] else [])
    ++ [onUserAction (onStateChangeArg u) helpers].
Proof.
  intros helpers. unfold afterSetState, cbToCb. cbn [default id trace call].
  rewrite !trace_when, !getStateAndHelpers_when. by rewrite <- !app_assoc.
Qed.

(** A transition with any callback: the callback is handed the instance the
    same transition without callback would have written, its trace holding
    the early input notification only. *)
Lemma internalSetState_with_callback stateToSet (k : Component → Component) this :
  ∃ committed,
    state committed = state (internalSetState stateToSet None this)
    ∧ props committed = props this
    ∧ items committed = items this
    ∧ itemCount committed = itemCount this
    ∧ isMouseDown committed = isMouseDown this
    ∧ isTouchMove committed = isTouchMove this
    ∧ trace committed =
        trace this
        ++ match announced stateToSet this !! "inputValue" with
           | Some v =>
               [onInputValueChange v
                  (spread (getStateAndHelpers this) (announced stateToSet this))]
           | None => []
           end
    ∧ internalSetState stateToSet (Some k) this =
        afterSetState stateToSet None (update_of stateToSet this) (k committed).
Proof.
  change (internalSetState stateToSet None this)
    with (internalSetState stateToSet (user_cb None) this).
  rewrite internalSetState_state.
  unfold internalSetState.
  set (c1 := negb _ && _). set (e1 := λ this0, onInputValueChange (get (patch_obj _) _) _).
  rewrite (props_when c1 e1 this), (getState_when c1 e1 this).
  fold (update_of stateToSet this).
  set (u := update_of stateToSet this).
  set (c2 := isFunction _ && _). set (e2 := λ this0, onInputValueChange (get (newStateToSet u) _) _).
  exists (set_state (spread (state (when c2 e2 (when c1 e1 this))) (nextState u))
            (when c2 e2 (when c1 e1 this))).
  cbn [state props items itemCount isMouseDown isTouchMove trace set_state].
  rewrite !state_when, !props_when, !trace_when.
  destruct (when_frame c2 e2 (when c1 e1 this)) as (-> & -> & -> & ->).
  destruct (when_frame c1 e1 this) as (-> & -> & -> & ->).
  split_and!; try reflexivity.
  rewrite <- app_assoc. f_equal. subst c1 c2 e1 e2. cbv beta.
  rewrite ?getStateAndHelpers_when.
  destruct stateToSet as [o|f]; cbn [isFunction negb andb patch_obj announced app].
  - rewrite app_nil_r.
    by rewrite (if_hasOwnProperty o "inputValue"
                  (λ v, [onInputValueChange v (spread (getStateAndHelpers this) o)])).
  - fold u.
    by rewrite (if_hasOwnProperty (newStateToSet u) "inputValue"
                  (λ v, [onInputValueChange v
                           (spread (getStateAndHelpers this) (newStateToSet u))])).
Qed.




(** *** Which notifications a transition sends *)

Lemma size_with_type (m : obj) t :
  m !! "type" = Some t →
  (1 < size m)%nat ↔ ∃ k v, k ≠ "type" ∧ m !! k = Some v.
Proof.
  intros Ht. rewrite <- (insert_delete_id m "type" t Ht).
  rewrite map_size_insert_None by apply lookup_delete_eq.
  split.
  - intros Hs. assert (delete "type" m ≠ ∅) as Hne.
    { apply map_size_non_empty_iff. lia. }
    apply map_choose in Hne as (k & v & Hkv).
    apply lookup_delete_Some in Hkv as [Hk Hkv].
    exists k, v. split; [done|]. by rewrite lookup_insert_ne, lookup_delete_ne.
  - intros (k & v & Hk & Hkv). rewrite lookup_insert_ne in Hkv by done.
    assert (size (delete "type" m) ≠ 0)%nat; [|lia].
    apply map_size_non_empty_iff. intros He. by rewrite He, lookup_empty in Hkv.
Qed.

Lemma newStateToSet_type p st proposed :
  ∃ t, newStateToSet (updater p st proposed) !! "type" = Some t ∧ t ≠ VUndefined.
Proof.
  unfold updater; cbn [newStateToSet].
  destruct (truthy (get (stateReducer p st proposed) "type")) eqn:E.
  - unfold get in E. destruct (stateReducer p st proposed !! "type") as [t|]; [|done].
    exists t. split; [done|]. by intros ->.
  - exists (VType unknown). by rewrite lookup_insert_eq.
Qed.

Lemma internalSetState_stateChanges_notified stateToSet tag this :
  stateChanges_notified (fired this (internalSetState stateToSet (user_cb tag) this)) =
    if bool_decide (1 < size (onStateChangeArg (update_of stateToSet this)))%nat
    then [onStateChangeArg (update_of stateToSet this)] else [].
Proof.
  rewrite internalSetState_fired. unfold stateChanges_notified. rewrite !omap_app.
  destruct (announced stateToSet this !! "inputValue"), tag,
    (bool_decide (1 < size _)%nat), (isItemSelected _), (bool_decide (onChangeArg _ ≠ _));
    reflexivity.
Qed.

Lemma internalSetState_selections_changed stateToSet tag this :
  selections_changed (fired this (internalSetState stateToSet (user_cb tag) this)) =
    if bool_decide (onChangeArg (update_of stateToSet this) ≠ VUndefined)
    then [onChangeArg (update_of stateToSet this)] else [].
Proof.
  rewrite internalSetState_fired. unfold selections_changed. rewrite !omap_app.
  destruct (announced stateToSet this !! "inputValue"), tag,
    (bool_decide (1 < size _)%nat), (isItemSelected _), (bool_decide (onChangeArg _ ≠ _));
    reflexivity.
Qed.

(** X2: on an instance whose state holds no [type] (none ever does, by X1),
    the aggregate [onStateChange] fires, once, exactly when the committed
    patch gives some field other than [type] a value that differs from the
    effective one; and the changeset it carries holds just the differing
    fields and the type. *)
Theorem onStateChange_iff_change stateToSet tag this :
  state this !! "type" = None →
  let this' := internalSetState stateToSet (user_cb tag) this in
  let differs := ∃ k v, k ≠ "type" ∧ reduced stateToSet this !! k = Some v
                        ∧ get (getState this) k ≠ v in
  (differs → ∃ changes,
       stateChanges_notified (fired this this') = [changes]
       ∧ ∀ k v, k ≠ "type" →
           (changes !! k = Some v ↔
              reduced stateToSet this !! k = Some v ∧ get (getState this) k ≠ v))
  ∧ (¬ differs → stateChanges_notified (fired this this') = []).
Proof.
  intros Hty this' differs. subst this'.
  rewrite internalSetState_stateChanges_notified.
  set (u := update_of stateToSet this).
  destruct (newStateToSet_type (props this) (getState this)
              (proposal stateToSet (getState this))) as (t & Ht & Hne).
  assert (Harg : onStateChangeArg u !! "type" = Some t).
  { apply onStateChangeArg_lookup_Some. split; [done|].
    unfold get, getState, getState_of. rewrite getState_lookup, Hty. simpl. congruence. }
  assert (Hiff : (1 < size (onStateChangeArg u))%nat ↔ differs).
  { rewrite (size_with_type _ t Harg). subst differs. unfold reduced.
    split; intros (k & v & Hk & H); exists k, v; (split; [done|]).
    - apply onStateChangeArg_lookup_Some in H as [H1 H2].
      by rewrite newStateToSet_lookup_ne in H1.
    - apply onStateChangeArg_lookup_Some. by rewrite newStateToSet_lookup_ne. }
  split.
  - intros Hd. rewrite bool_decide_eq_true_2 by by apply Hiff.
    exists (onStateChangeArg u). split; [done|].
    intros k v Hk. subst u. unfold update_of, reduced.
    rewrite onStateChangeArg_lookup_Some. by rewrite newStateToSet_lookup_ne.
  - intros Hd. by rewrite bool_decide_eq_false_2 by by rewrite Hiff.
Qed.

Lemma onStateChange_iff_change_witness :
  let this := Scenario.closed3 in
  let this' := openMenu None this in
  state this !! "type" = None
  ∧ ∃ changes, stateChanges_notified (fired this this') = [changes]
               ∧ changes !! "isOpen" = Some (VBool true).
Proof.
  intros this this'. split; [reflexivity|].
  destruct (onStateChange_iff_change (PatchObj {[ "isOpen" := VBool true ]}) None this)
    as [H _]; [reflexivity|].
  destruct H as (changes & Hc & Hk).
  - exists "isOpen", (VBool true). split_and!; [done | reflexivity | by vm_compute].
  - exists changes. split; [exact Hc|].
    apply Hk; [done|]. split; [reflexivity | by vm_compute].
Defined.

(** X3: the selection-changed notification [onChange] fires, once and with
    the new item, exactly when the committed patch names a [selectedItem]
    that is not [undefined] and differs from the effective one. *)
Theorem onChange_iff_selection_changes stateToSet tag this :
  let this' := internalSetState stateToSet (user_cb tag) this in
  selections_changed (fired this this') =
    match reduced stateToSet this !! "selectedItem" with
    | Some item =>
        if bool_decide (item ≠ get (getState this) "selectedItem" ∧ item ≠ VUndefined)
        then [item] else []
    | None => []
    end.
Proof.
  intros this'. subst this'. rewrite internalSetState_selections_changed.
  unfold update_of, updater, reduced; cbn [onChangeArg].
  set (r := stateReducer _ _ _).
  destruct (r !! "selectedItem") as [item|] eqn:E.
  - assert (Hh : hasOwnProperty r "selectedItem" = true).
    { unfold hasOwnProperty. rewrite E. apply bool_decide_eq_true_2. by eexists. }
    assert (Hg : get r "selectedItem" = item) by (unfold get; by rewrite E).
    rewrite Hh, Hg. cbn [andb].
    destruct (decide (item ≠ get (getState this) "selectedItem")) as [Hd | Hd].
    + rewrite (bool_decide_eq_true_2 _ Hd).
      destruct (decide (item = VUndefined)) as [Hu | Hu].
      * rewrite (bool_decide_eq_false_2 (item ≠ VUndefined)) by (intros Hn; by apply Hn).
        by rewrite (bool_decide_eq_false_2 (_ ∧ _)) by (intros [_ Hn]; by apply Hn).
      * rewrite (bool_decide_eq_true_2 (item ≠ VUndefined)) by done.
        by rewrite (bool_decide_eq_true_2 (_ ∧ _)) by done.
    + rewrite (bool_decide_eq_false_2 _ Hd).
      rewrite (bool_decide_eq_false_2 (VUndefined ≠ VUndefined)) by (intros Hn; by apply Hn).
      by rewrite (bool_decide_eq_false_2 (_ ∧ _)) by (intros [Hn _]; by apply Hd).
  - assert (Hh : hasOwnProperty r "selectedItem" = false).
    { unfold hasOwnProperty. rewrite E. apply bool_decide_eq_false_2. by intros [? ?]. }
    rewrite Hh. cbn [andb]. by rewrite bool_decide_eq_false_2 by by intros H; apply H.
Qed.

(** *** The widget that owns its state *)

Ltac four_fields Hk :=
  repeat (apply elem_of_cons in Hk as [-> | Hk]);
  [..| apply elem_of_nil in Hk; destruct Hk].

Lemma fourFields_mem :
  "selectedItem" ∈ fourFields ∧ "inputValue" ∈ fourFields
  ∧ "isOpen" ∈ fourFields ∧ "highlightedIndex" ∈ fourFields.
Proof. unfold fourFields. set_solver. Qed.

Lemma uncontrolled_key this k :
  uncontrolled this → utils.isControlledProp (fields (props this)) k = false.
Proof. intros [Hf _]. rewrite Hf. apply isControlledProp_empty. Qed.

Lemma uncontrolled_getState this : uncontrolled this → getState this = state this.
Proof. intros [Hf _]. unfold getState, getState_of. rewrite Hf. apply getState_no_props. Qed.

Lemma uncontrolled_step stateToSet tag this :
  uncontrolled this →
  let this' := internalSetState stateToSet (user_cb tag) this in
  uncontrolled this'
  ∧ ∀ k, k ≠ "type" →
      get (getState this') k =
        match proposal stateToSet (state this) !! k with
        | Some v => v
        | None => get (state this) k
        end.
Proof.
  intros Hu this'. assert (Hu' : uncontrolled this').
  { unfold uncontrolled. subst this'. by rewrite internalSetState_props. }
  split; [done|]. intros k Hk.
  rewrite (uncontrolled_getState this' Hu'). subst this'.
  pose proof (uncontrolled_getState this Hu) as Hg. destruct Hu as [Hf Hid].
  destruct (proposal stateToSet (state this) !! k) as [v|] eqn:E.
  - unfold get. erewrite internalSetState_lookup_written; [done | done | |].
    + rewrite Hf. apply isControlledProp_empty.
    + by rewrite Hid, Hg.
  - unfold get. rewrite internalSetState_lookup_untouched; [done|]. by rewrite Hid, Hg.
Qed.

Lemma pickState_lookup_key (o : obj) k :
  k ∈ utils.stateKeys → utils.pickState o !! k = o !! k.
Proof.
  intros Hk. unfold utils.pickState. destruct (o !! k) as [v|] eqn:E.
  - by apply map_lookup_filter_Some.
  - apply map_lookup_filter_None. by left.
Qed.

Lemma fourFields_stateKeys k : k ∈ fourFields → k ∈ utils.stateKeys ∧ k ≠ "type".
Proof. intros Hk. four_fields Hk; (split; [set_solver | done]). Qed.

Lemma spread_pick_lookup (base o : obj) k :
  k ∈ utils.stateKeys →
  spread base (utils.pickState o) !! k =
    match o !! k with Some v => Some v | None => base !! k end.
Proof.
  intros Hk. unfold spread. destruct (o !! k) as [v|] eqn:E.
  - apply lookup_union_Some_l. by rewrite pickState_lookup_key.
  - rewrite lookup_union_r; [done|]. by rewrite pickState_lookup_key.
Qed.

(** X4: on a widget that owns its state, [selectItem(item, otherStateToSet)]
    leaves each of the four fields at what [otherStateToSet] says for it,
    and otherwise at: the item for [selectedItem], its projected string for
    [inputValue], and the configured defaults for [isOpen] and
    [highlightedIndex]; [clearSelection] after it leaves [null], the empty
    string and the defaults. *)
Theorem selectItem_then_clearSelection item otherStateToSet tag tag' this :
  uncontrolled this →
  let selected := selectItem item otherStateToSet (user_cb tag) this in
  let cleared := clearSelection (user_cb tag') selected in
  (∀ k, k ∈ fourFields →
     get (getState selected) k =
       match otherStateToSet !! k with
       | Some v => v
       | None =>
           get ({[ "isOpen" := defaultIsOpen (props this);
                   "highlightedIndex" := defaultHighlightedIndex (props this);
                   "selectedItem" := item;
                   "inputValue" := VStr (itemToString (props this) item) ]} : obj) k
       end)
  ∧ get (getState cleared) "selectedItem" = VNull
  ∧ get (getState cleared) "inputValue" = VStr ""
  ∧ get (getState cleared) "isOpen" = defaultIsOpen (props this)
  ∧ get (getState cleared) "highlightedIndex" = defaultHighlightedIndex (props this).
Proof.
  intros Hu selected cleared.
  destruct (uncontrolled_step
              (PatchObj
                 (spread
                    {[ "isOpen" := defaultIsOpen (props this);
                       "highlightedIndex" := defaultHighlightedIndex (props this);
                       "selectedItem" := item;
                       "inputValue" := VStr (itemToString (props this) item) ]}
                    (utils.pickState otherStateToSet)))
              tag this Hu) as [Hu' Hsel].
  fold (selectItem item otherStateToSet (user_cb tag) this) in Hu', Hsel. fold selected in Hu', Hsel.
  assert (Hp : props selected = props this) by apply internalSetState_props.
  split.
  - intros k Hk. destruct (fourFields_stateKeys k Hk) as [Hs Hne].
    rewrite Hsel by done. cbn [proposal]. rewrite spread_pick_lookup by done.
    destruct (otherStateToSet !! k); [done|].
    unfold get. clear Hsel Hu' Hp Hs Hne. clear cleared selected.
    four_fields Hk; by simplify_map_eq.
  - destruct (uncontrolled_step
                (PatchObj
                   {[ "selectedItem" := VNull; "inputValue" := VStr "";
                      "highlightedIndex" := defaultHighlightedIndex (props selected);
                      "isOpen" := defaultIsOpen (props selected) ]})
                tag' selected Hu') as [_ Hcl].
    fold (clearSelection (user_cb tag') selected) in Hcl. fold cleared in Hcl.
    rewrite !Hcl by done. cbn [proposal]. rewrite Hp.
    clear Hcl Hsel Hu' Hp. clear cleared. clearbody selected.
    split_and!; by simplify_map_eq.
Qed.

Lemma selectItem_then_clearSelection_witness :
  let this := Scenario.closed3 in
  let selected := selectItem (VStr "b") ∅ None this in
  uncontrolled this
  ∧ get (getState selected) "selectedItem" = VStr "b"
  ∧ get (getState (clearSelection None selected)) "selectedItem" = VNull.
Proof.
  intros this selected.
  assert (Hu : uncontrolled this) by (split; [reflexivity | intros; reflexivity]).
  destruct (selectItem_then_clearSelection (VStr "b") ∅ None None this Hu)
    as (H1 & H2 & _).
  split_and!; [exact Hu | | exact H2].
  apply (H1 "selectedItem"). apply fourFields_mem.
Defined.

(** X5: typing in the input of a widget that owns its state announces the
    typed text first, through [onInputValueChange], and leaves the widget
    open with the text as [inputValue], the highlighted index back at its
    default and the selection as it was. *)
Theorem inputHandleChange_opens value this :
  uncontrolled this →
  let this' := inputHandleChange value this in
  (∃ helpers, head (fired this this') = Some (onInputValueChange (VStr value) helpers))
  ∧ get (getState this') "isOpen" = VBool true
  ∧ get (getState this') "inputValue" = VStr value
  ∧ get (getState this') "highlightedIndex" = defaultHighlightedIndex (props this)
  ∧ get (getState this') "selectedItem" = get (getState this) "selectedItem".
Proof.
  intros Hu this'. subst this'. unfold inputHandleChange.
  change None with (user_cb None).
  split.
  - rewrite internalSetState_fired. cbn [announced].
    rewrite (lookup_insert_ne _ "type" "inputValue") by done.
    rewrite (lookup_insert_ne _ "isOpen" "inputValue") by done.
    rewrite lookup_insert_eq. by eexists.
  - destruct (uncontrolled_step
                (PatchObj
                   {[ "type" := VType changeInput; "isOpen" := VBool true;
                      "inputValue" := VStr value;
                      "highlightedIndex" := defaultHighlightedIndex (props this) ]})
                None this Hu) as [_ H].
    rewrite !H by done. cbn [proposal]. rewrite (uncontrolled_getState this Hu).
    split_and!; by simplify_map_eq.
Qed.

Lemma inputHandleChange_opens_witness :
  uncontrolled Scenario.closed3
  ∧ get (getState (inputHandleChange "ab" Scenario.closed3)) "isOpen" = VBool true
  ∧ get (getState (inputHandleChange "ab" Scenario.closed3)) "inputValue" = VStr "ab".
Proof.
  assert (Hu : uncontrolled Scenario.closed3) by (split; [reflexivity | intros; reflexivity]).
  destruct (inputHandleChange_opens "ab" Scenario.closed3 Hu) as (_ & H1 & H2 & _).
  split_and!; [exact Hu | exact H1 | exact H2].
Defined.

(** *** Items: registration, click, Enter and mouse move *)

Lemma transition_fields stateToSet (base o : obj) tag this :
  uncontrolled this →
  proposal stateToSet (state this) = spread base (utils.pickState o) →
  ∀ k, k ∈ fourFields →
    get (getState (internalSetState stateToSet (user_cb tag) this)) k =
      match o !! k with
      | Some v => v
      | None => match base !! k with Some v => v | None => get (getState this) k end
      end.
Proof.
  intros Hu Hp k Hk. destruct (fourFields_stateKeys k Hk) as [Hs Hne].
  destruct (uncontrolled_step stateToSet tag this Hu) as [_ H].
  rewrite H by done. rewrite Hp, spread_pick_lookup by done.
  rewrite (uncontrolled_getState this Hu). by destruct (o !! k), (base !! k).
Qed.

Lemma type_only_lookup (t : jsval) k : k ∈ fourFields → ({[ "type" := t ]} : obj) !! k = None.
Proof. intros Hk. four_fields Hk; by simplify_map_eq. Qed.

Lemma selectItemAtIndex_fields index item type tag this :
  uncontrolled this →
  array_get (items this) index = item → is_nullish item = false →
  let this' := selectItemAtIndex index {[ "type" := VType type ]} (user_cb tag) this in
  get (getState this') "selectedItem" = item
  ∧ get (getState this') "inputValue" = VStr (itemToString (props this) item)
  ∧ get (getState this') "isOpen" = defaultIsOpen (props this)
  ∧ get (getState this') "highlightedIndex" = defaultHighlightedIndex (props this).
Proof.
  intros Hu Hitem Hnn this'. subst this'. unfold selectItemAtIndex.
  rewrite Hitem, Hnn. unfold selectItem.
  pose proof (transition_fields
    (PatchObj
       (spread
          {[ "isOpen" := defaultIsOpen (props this);
             "highlightedIndex" := defaultHighlightedIndex (props this);
             "selectedItem" := item;
             "inputValue" := VStr (itemToString (props this) item) ]}
          (utils.pickState {[ "type" := VType type ]})))
    _ _ tag this Hu eq_refl) as H.
  split_and!.
  - rewrite (H "selectedItem") by apply fourFields_mem. by simplify_map_eq.
  - rewrite (H "inputValue") by apply fourFields_mem. by simplify_map_eq.
  - rewrite (H "isOpen") by apply fourFields_mem. by simplify_map_eq.
  - rewrite (H "highlightedIndex") by apply fourFields_mem. by simplify_map_eq.
Qed.

(** X6: a click on a registered item of a widget that owns its state
    selects it: the item becomes [selectedItem], its projected string
    [inputValue], and [isOpen] and [highlightedIndex] go to their defaults;
    a click where no item is registered changes nothing and notifies
    nobody. *)
Theorem item_onClick_selects index this :
  uncontrolled this →
  let item := array_get (items this) (VNum index) in
  let this' := item_onClick index this in
  (is_nullish item = true → this' = this)
  ∧ (is_nullish item = false →
       get (getState this') "selectedItem" = item
       ∧ get (getState this') "inputValue" = VStr (itemToString (props this) item)
       ∧ get (getState this') "isOpen" = defaultIsOpen (props this)
       ∧ get (getState this') "highlightedIndex" = defaultHighlightedIndex (props this)).
Proof.
  intros Hu item this'. split.
  - intros Hn. subst this'. unfold item_onClick, selectItemAtIndex. fold item. by rewrite Hn.
  - intros Hn. by apply (selectItemAtIndex_fields (VNum index) item clickItem None).
Qed.

Lemma item_onClick_selects_witness :
  let this := Scenario.open3_at2 in
  uncontrolled this
  ∧ get (getState (item_onClick 1 this)) "selectedItem" = VStr "b"
  ∧ get (getState (item_onClick 1 this)) "inputValue" = VStr "b"
  ∧ get (getState (item_onClick 1 this)) "isOpen" = VBool false.
Proof.
  intros this.
  assert (Hu : uncontrolled this) by (split; [reflexivity | intros; reflexivity]).
  destruct (item_onClick_selects 1 this Hu) as [_ H].
  destruct H as (H1 & H2 & H3 & _); [reflexivity|].
  split_and!; [exact Hu | exact H1 | exact H2 | exact H3].
Defined.

(** X7: Enter on an open widget that owns its state, with a registered
    item highlighted, prevents the default action; it commits the item
    (selected, projected into the input, open state and highlight back at
    their defaults) unless the item's element carries [disabled], in which
    case nothing else happens. *)
Theorem Enter_commits_highlighted event index this :
  uncontrolled this →
  which event ≠ 229 →
  truthy (get (getState this) "isOpen") = true →
  get (getState this) "highlightedIndex" = VNum index →
  is_nullish (array_get (items this) (VNum index)) = false →
  let item := array_get (items this) (VNum index) in
  let this' := (Enter event this).2 in
  (Enter event this).1 = preventDefault event
  ∧ (getItemNodeFromIndex (VNum index) this = Some true → this' = this)
  ∧ (getItemNodeFromIndex (VNum index) this ≠ Some true →
       get (getState this') "selectedItem" = item
       ∧ get (getState this') "inputValue" = VStr (itemToString (props this) item)
       ∧ get (getState this') "isOpen" = defaultIsOpen (props this)
       ∧ get (getState this') "highlightedIndex" = defaultHighlightedIndex (props this)).
Proof.
  intros Hu Hw Hopen Hhi Hnn item this'. subst this'. unfold Enter.
  rewrite (proj2 (Z.eqb_neq _ _) Hw), Hopen, Hhi. cbn [is_nullish negb andb].
  rewrite Hnn. cbn [orb].
  destruct (getItemNodeFromIndex (VNum index) this) as [[|]|] eqn:En; cbn [default fst snd].
  - split_and!; [done | done | by intros H].
  - split_and!; [done | by intros H | intros _].
    unfold selectHighlightedItem. rewrite Hhi.
    by apply (selectItemAtIndex_fields (VNum index) item keyDownEnter None).
  - split_and!; [done | by intros H | intros _].
    unfold selectHighlightedItem. rewrite Hhi.
    by apply (selectItemAtIndex_fields (VNum index) item keyDownEnter None).
Qed.

Lemma Enter_commits_highlighted_witness :
  let this := Scenario.open3_at2 in
  let this' := (Enter (Scenario.keydown 13) this).2 in
  uncontrolled this
  ∧ get (getState this) "highlightedIndex" = VNum 2
  ∧ get (getState this') "selectedItem" = VStr "c"
  ∧ get (getState this') "isOpen" = VBool false.
Proof.
  intros this this'.
  assert (Hu : uncontrolled this) by (split; [reflexivity | intros; reflexivity]).
  destruct (Enter_commits_highlighted (Scenario.keydown 13) 2 this Hu)
    as (_ & _ & H); [by vm_compute | reflexivity | reflexivity | reflexivity |].
  destruct H as (H1 & _ & H3 & _); [by vm_compute|].
  split_and!; [exact Hu | reflexivity | exact H1 | exact H3].
Defined.

Lemma indexOf_from_spec a x i :
  (indexOf_from a x i = -1 ∧ x ∉ a)
  ∨ ∃ n : nat, indexOf_from a x i = i + Z.of_nat n ∧ a !! n = Some x
               ∧ ∀ m : nat, (m < n)%nat → a !! m ≠ Some x.
Proof.
  revert i. induction a as [|y a IH]; intros i; simpl.
  - left. split; [done | apply not_elem_of_nil].
  - destruct (decide (y = x)) as [-> | Hne].
    + right. exists 0%nat. split_and!; [lia | done | intros; lia].
    + destruct (IH (i + 1)) as [[Hr Hn] | (n & Hr & Hl & Hm)].
      * left. split; [done|]. intros [? | ?]%elem_of_cons; done.
      * right. exists (S n). split_and!; [lia | done |].
        intros [|m] Hlt; simpl; [congruence | apply Hm; lia].
Qed.

Lemma indexOf_found a x :
  x ∈ a →
  ∃ n : nat, indexOf a x = Z.of_nat n ∧ a !! n = Some x
             ∧ ∀ m : nat, (m < n)%nat → a !! m ≠ Some x.
Proof.
  intros Hin. unfold indexOf.
  destruct (indexOf_from_spec a x 0) as [[_ Hn] | (n & Hr & H)]; [done|].
  exists n. by rewrite Hr.
Qed.

Lemma indexOf_missing a x : x ∉ a → indexOf a x = -1.
Proof.
  intros Hn. unfold indexOf.
  destruct (indexOf_from_spec a x 0) as [[Hr _] | (n & _ & Hl & _)]; [done|].
  destruct Hn. by eapply list_elem_of_lookup_2.
Qed.

Lemma array_get_nat a (n : nat) : array_get a (VNum (Z.of_nat n)) = default VUndefined (a !! n).
Proof.
  unfold array_get. rewrite (proj2 (Z.leb_le 0 _)) by lia. by rewrite Nat2Z.id.
Qed.

Lemma array_set_lookup a i item j :
  array_set a i item !! j =
    if decide (j = i) then Some item
    else if decide (j < length a)%nat then a !! j
    else if decide (j < i)%nat then Some VUndefined else None.
Proof.
  unfold array_set. case_bool_decide as Hi.
  - destruct (decide (j = i)) as [-> | Hne].
    + by apply list_lookup_insert_eq.
    + rewrite list_lookup_insert_ne by done.
      destruct (decide (j < length a)%nat) as [Hj | Hj]; [done|].
      rewrite decide_False by lia. apply lookup_ge_None. lia.
  - destruct (decide (j < length a)%nat) as [Hj | Hj].
    + rewrite decide_False by lia. by rewrite lookup_app_l.
    + rewrite lookup_app_r by lia.
      destruct (decide (j = i)) as [-> | Hne].
      * rewrite lookup_app_r by (rewrite length_replicate; lia).
        rewrite length_replicate. by replace (i - length a - (i - length a))%nat with 0%nat by lia.
      * destruct (decide (j < i)%nat) as [Hlt | Hlt].
        -- rewrite lookup_app_l by (rewrite length_replicate; lia).
           apply lookup_replicate_2. lia.
        -- apply lookup_ge_None. rewrite length_app, length_replicate. simpl. lia.
Qed.

(** X8: registering an item through [getItemProps] and reading the registry
    back.  With an index the item is found at that index and every other
    registered position keeps its item; without one the item (not
    [undefined]) is appended, and the index handed on is that of the first
    registration of the same value, at which the item is found. *)
Theorem getItemProps_register_lookup item this :
  (∀ i : nat,
     let r := getItemProps_register (Some i) item this in
     r.1 = Z.of_nat i
     ∧ array_get (items r.2) (VNum r.1) = item
     ∧ (∀ j : nat, j ≠ i → (j < length (items this))%nat →
          items r.2 !! j = items this !! j))
  ∧ (item ≠ VUndefined →
     let r := getItemProps_register None item this in
     array_get (items r.2) (VNum r.1) = item
     ∧ items r.2 = items this ++ [item]
     ∧ 0 ≤ r.1 ≤ Z.of_nat (length (items this))
     ∧ (∀ j : nat, items this !! j = Some item → r.1 ≤ Z.of_nat j)
     ∧ (item ∉ items this → r.1 = Z.of_nat (length (items this)))).
Proof.
  split.
  - intros i r. subst r. cbn [getItemProps_register fst snd items set_items].
    split_and!; [done | |].
    + rewrite array_get_nat, array_set_lookup. by rewrite decide_True.
    + intros j Hne Hlt. rewrite array_set_lookup.
      by rewrite decide_False, decide_True.
  - intros _ r. subst r. cbn [getItemProps_register fst snd items set_items].
    destruct (indexOf_found (items this ++ [item]) item) as (n & Hn & Hl & Hm).
    { apply elem_of_app. right. by apply list_elem_of_singleton. }
    rewrite Hn. split_and!.
    + by rewrite array_get_nat, Hl.
    + done.
    + lia.
    + apply lookup_lt_Some in Hl. rewrite length_app in Hl. simpl in Hl. lia.
    + intros j Hj. destruct (decide (j < n)%nat) as [Hlt | Hge]; [|lia].
      exfalso. apply (Hm j Hlt). by apply lookup_app_l_Some.
    + intros Hni. destruct (decide (n < length (items this))%nat) as [Hlt | Hge].
      * rewrite lookup_app_l in Hl by done. destruct Hni. by eapply list_elem_of_lookup_2.
      * apply lookup_lt_Some in Hl. rewrite length_app in Hl. simpl in Hl. lia.
Qed.

Lemma getItemProps_register_lookup_witness :
  let r := getItemProps_register None (VStr "b") Scenario.open3_at2 in
  VStr "b" ≠ VUndefined
  ∧ array_get (items r.2) (VNum r.1) = VStr "b"
  ∧ length (items r.2) = 4%nat.
Proof.
  intros r.
  destruct (getItemProps_register_lookup (VStr "b") Scenario.open3_at2) as [_ H].
  destruct H as (H1 & H2 & _); [discriminate|].
  split_and!; [discriminate | exact H1 | fold r in H2; by rewrite H2].
Defined.

Lemma setHighlightedIndex_fields (index : Z) type this :
  uncontrolled this →
  let this' := setHighlightedIndex (VNum index) {[ "type" := VType type ]} this in
  get (getState this') "highlightedIndex" = VNum index
  ∧ get (getState this') "isOpen" = get (getState this) "isOpen"
  ∧ get (getState this') "selectedItem" = get (getState this) "selectedItem"
  ∧ get (getState this') "inputValue" = get (getState this) "inputValue".
Proof.
  intros Hu this'. subst this'. unfold setHighlightedIndex, or_default.
  rewrite decide_False by done. change None with (user_cb None).
  pose proof (transition_fields
    (PatchObj (spread {[ "highlightedIndex" := VNum index ]}
                 (utils.pickState {[ "type" := VType type ]})))
    _ _ None this Hu eq_refl) as H.
  split_and!.
  - rewrite (H "highlightedIndex") by apply fourFields_mem. by simplify_map_eq.
  - rewrite (H "isOpen") by apply fourFields_mem. by simplify_map_eq.
  - rewrite (H "selectedItem") by apply fourFields_mem. by simplify_map_eq.
  - rewrite (H "inputValue") by apply fourFields_mem. by simplify_map_eq.
Qed.

(** X9: moving the mouse over the item that is already highlighted does
    nothing at all; over another item of a widget that owns its state it
    highlights that item, touches no other field, and raises the
    avoid-scrolling flag. *)
Theorem item_onMouseMove_highlights index avoidScrolling this :
  let r := item_onMouseMove index avoidScrolling this in
  (get (getState this) "highlightedIndex" = VNum index → r = (avoidScrolling, this))
  ∧ (uncontrolled this → get (getState this) "highlightedIndex" ≠ VNum index →
       r.1 = true
       ∧ get (getState r.2) "highlightedIndex" = VNum index
       ∧ get (getState r.2) "isOpen" = get (getState this) "isOpen"
       ∧ get (getState r.2) "selectedItem" = get (getState this) "selectedItem"
       ∧ get (getState r.2) "inputValue" = get (getState this) "inputValue").
Proof.
  intros r. subst r. unfold item_onMouseMove. split.
  - intros Hh. by rewrite bool_decide_eq_true_2.
  - intros Hu Hne. rewrite bool_decide_eq_false_2 by congruence. cbn [fst snd].
    split; [done|]. by apply setHighlightedIndex_fields.
Qed.

Lemma item_onMouseMove_highlights_witness :
  let this := Scenario.open3_at2 in
  let r := item_onMouseMove 0 false this in
  uncontrolled this
  ∧ get (getState this) "highlightedIndex" ≠ VNum 0
  ∧ r.1 = true
  ∧ get (getState r.2) "highlightedIndex" = VNum 0.
Proof.
  intros this r.
  assert (Hu : uncontrolled this) by (split; [reflexivity | intros; reflexivity]).
  destruct (item_onMouseMove_highlights 0 false this) as [_ H].
  destruct (H Hu) as (H1 & H2 & _); [by vm_compute|].
  split_and!; [exact Hu | by vm_compute | exact H1 | exact H2].
Defined.

(** *** Transitions whose callback goes on with the instance *)

Lemma internalSetState_effective_untouched stateToSet tag this k :
  stateReducer (props this) (getState this) (proposal stateToSet (getState this)) !! k = None →
  get (getState (internalSetState stateToSet (user_cb tag) this)) k = get (getState this) k.
Proof.
  intros Hn. unfold getState, getState_of. rewrite internalSetState_props.
  unfold get. rewrite !getState_lookup.
  by rewrite internalSetState_lookup_untouched.
Qed.

Lemma getState_ext a b : state a = state b → props a = props b → getState a = getState b.
Proof. intros Hs Hp. unfold getState, getState_of. by rewrite Hs, Hp. Qed.

Lemma getItemCount_ext a b :
  items a = items b → itemCount a = itemCount b → props a = props b →
  getItemCount a = getItemCount b.
Proof. intros Hi Hn Hp. unfold getItemCount. by rewrite Hi, Hn, Hp. Qed.

Lemma user_cb_getState tag this : getState (cbToCb (user_cb tag) this) = getState this.
Proof. by destruct tag. Qed.

(** *** Transitions started from a completion callback *)

Lemma internalSetState_split stateToSet cb this :
  internalSetState stateToSet cb this =
    queuedSetState stateToSet cb (beforeSetState stateToSet this).
Proof. reflexivity. Qed.

Lemma beforeSetState_silent (o : obj) this :
  o !! "inputValue" = None → beforeSetState (PatchObj o) this = this.
Proof.
  intros H. unfold beforeSetState, hasOwnProperty. cbn [isFunction negb andb patch_obj].
  by rewrite H, (bool_decide_eq_false_2 (is_Some None)) by (by intros [? ?]).
Qed.



(** What a callback that starts a transition finds, and what is left when
    the transition it was attached to is over. *)
Lemma internalSetState_queueing_then stateToSet (cb : cb_queueing) this :
  ∃ committed,
    getState committed = getState (internalSetState stateToSet None this)
    ∧ props committed = props this
    ∧ getItemCount committed = getItemCount this
    ∧ isMouseDown committed = isMouseDown this
    ∧ isTouchMove committed = isTouchMove this
    ∧ trace committed =
        trace this
        ++ match announced stateToSet this !! "inputValue" with
           | Some v =>
               [onInputValueChange v
                  (spread (getStateAndHelpers this) (announced stateToSet this))]
           | None => []
           end
    ∧ internalSetState_queueing stateToSet cb this =
        default id (cb committed).2
          (afterSetState stateToSet None (update_of stateToSet this) (cb committed).1).
Proof.
  change (internalSetState stateToSet None this)
    with (internalSetState stateToSet (user_cb None) this).
  unfold internalSetState_queueing.
  set (c1 := negb _ && _). set (e1 := λ this0, onInputValueChange (get (patch_obj _) _) _).
  rewrite (props_when c1 e1 this), (getState_when c1 e1 this).
  fold (update_of stateToSet this).
  set (u := update_of stateToSet this).
  set (c2 := isFunction _ && _). set (e2 := λ this0, onInputValueChange (get (newStateToSet u) _) _).
  exists (set_state (spread (state (when c2 e2 (when c1 e1 this))) (nextState u))
            (when c2 e2 (when c1 e1 this))).
  split_and!; [| | | | | |reflexivity].
  - apply getState_ext.
    + cbn [state set_state]. by rewrite internalSetState_state, !state_when.
    + cbn [props set_state]. by rewrite internalSetState_props, !props_when.
  - cbn [props set_state]. by rewrite !props_when.
  - apply getItemCount_ext; cbn [items itemCount props set_state].
    + destruct (when_frame c2 e2 (when c1 e1 this)) as (-> & _).
      by destruct (when_frame c1 e1 this) as (-> & _).
    + destruct (when_frame c2 e2 (when c1 e1 this)) as (_ & -> & _).
      by destruct (when_frame c1 e1 this) as (_ & -> & _).
    + by rewrite !props_when.
  - cbn [isMouseDown set_state].
    destruct (when_frame c2 e2 (when c1 e1 this)) as (_ & _ & -> & _).
    by destruct (when_frame c1 e1 this) as (_ & _ & -> & _).
  - cbn [isTouchMove set_state].
    destruct (when_frame c2 e2 (when c1 e1 this)) as (_ & _ & _ & ->).
    by destruct (when_frame c1 e1 this) as (_ & _ & _ & ->).
  - cbn [trace set_state]. rewrite !trace_when.
    rewrite <- app_assoc. f_equal. subst c1 c2 e1 e2. cbv beta.
    rewrite ?getStateAndHelpers_when.
    destruct stateToSet as [o|f]; cbn [isFunction negb andb patch_obj announced app].
    + rewrite app_nil_r.
      by rewrite (if_hasOwnProperty o "inputValue"
                    (λ v, [onInputValueChange v (spread (getStateAndHelpers this) o)])).
    + fold u.
      by rewrite (if_hasOwnProperty (newStateToSet u) "inputValue"
                    (λ v, [onInputValueChange v
                             (spread (getStateAndHelpers this) (newStateToSet u))])).
Qed.

Lemma setHighlightedIndex_queueing_spec (index : Z) (o : obj) c :
  utils.pickState o !! "inputValue" = None →
  let r := setHighlightedIndex_queueing (VNum index) o c in
  r.1 = c ∧ ∃ q, r.2 = Some q ∧ ∀ x, q x = setHighlightedIndex (VNum index) o x.
Proof.
  intros Hn r. subst r. unfold setHighlightedIndex_queueing, or_default.
  rewrite decide_False by done. cbn [fst snd].
  assert (Hl : spread {[ "highlightedIndex" := VNum index ]} (utils.pickState o)
               !! "inputValue" = None).
  { unfold spread. rewrite lookup_union_r by done. by apply lookup_singleton_ne. }
  split; [by apply beforeSetState_silent|].
  eexists. split; [reflexivity|]. intros x.
  unfold setHighlightedIndex, or_default. rewrite decide_False by done.
  by rewrite internalSetState_split, beforeSetState_silent.
Qed.


(** *** The completion callback *)







Lemma pickState_type (t : jsval) :
  utils.pickState {[ "type" := t ]} = ({[ "type" := t ]} : obj).
Proof. unfold utils.pickState. apply map_filter_singleton_True. cbn. set_solver. Qed.

Lemma js_not_truthy v : truthy (js_not v) = negb (truthy v).
Proof. reflexivity. Qed.

Lemma setHighlightedIndex_type_only (index : Z) type this :
  setHighlightedIndex (VNum index) (utils.pickState {[ "type" := VType type ]}) this
  = setHighlightedIndex (VNum index) {[ "type" := VType type ]} this.
Proof. unfold setHighlightedIndex. by rewrite !pickState_type. Qed.

(** The state once the notifications are sent and the highlight queued by
    the callback, if any, has been set. *)
Lemma queued_highlight_settles stateToSet (u : Update)
    (r : Component * option (Component → Component)) c type (next : option Z) :
  uncontrolled c → getState r.1 = getState c → props r.1 = props c →
  match next with
  | None => r.2 = None
  | Some n =>
      ∃ q, r.2 = Some q
           ∧ ∀ x, q x = setHighlightedIndex (VNum n) {[ "type" := VType type ]} x
  end →
  let final := default id r.2 (afterSetState stateToSet None u r.1) in
  uncontrolled final
  ∧ get (getState final) "isOpen" = get (getState c) "isOpen"
  ∧ get (getState final) "selectedItem" = get (getState c) "selectedItem"
  ∧ get (getState final) "inputValue" = get (getState c) "inputValue"
  ∧ get (getState final) "highlightedIndex"
    = match next with Some n => VNum n | None => get (getState c) "highlightedIndex" end.
Proof.
  intros Huc Hg Hp Hnext final. subst final.
  set (x := afterSetState stateToSet None u r.1).
  assert (Hgx : getState x = getState c)
    by (subst x; by rewrite afterSetState_getState).
  assert (Hpx : props x = props c).
  { subst x. destruct (afterSetState_frame stateToSet u r.1) as (_ & -> & _). exact Hp. }
  assert (Hux : uncontrolled x) by (unfold uncontrolled; by rewrite Hpx).
  destruct next as [n|].
  - destruct Hnext as (q & -> & Hq). cbn [default]. rewrite Hq.
    destruct (setHighlightedIndex_fields n type x Hux) as (F1 & F2 & F3 & F4).
    cbn zeta in F1, F2, F3, F4. rewrite Hgx in F2, F3, F4.
    split_and!; [|exact F2 | exact F3 | exact F4 | exact F1].
    unfold uncontrolled, setHighlightedIndex. change None with (user_cb None).
    by rewrite internalSetState_props, Hpx.
  - rewrite Hnext. cbn [default id]. rewrite Hgx. by split_and!.
Qed.

Lemma highlightOnToggle_spec type tag c :
  let r := highlightOnToggle (utils.pickState {[ "type" := VType type ]}) (user_cb tag) c in
  getState r.1 = getState c ∧ props r.1 = props c
  ∧ ∃ next : option Z,
      match next with
      | None => r.2 = None
      | Some n =>
          ∃ q, r.2 = Some q
               ∧ ∀ x, q x = setHighlightedIndex (VNum n) {[ "type" := VType type ]} x
      end
      ∧ match next with
        | Some n => VNum n
        | None => get (getState c) "highlightedIndex"
        end = get (getState c) "highlightedIndex".
Proof.
  intros r. subst r. unfold highlightOnToggle. cbv zeta.
  destruct (truthy (get (getState c) "isOpen") && (0 <? getItemCount c)
            && match get (getState c) "highlightedIndex" with
               | VNum _ => true
               | _ => false
               end) eqn:E.
  - destruct (get (getState c) "highlightedIndex") as [| | |n| | |] eqn:Eh;
      try (rewrite andb_false_r in E; discriminate E).
    destruct (setHighlightedIndex_queueing_spec n
                (utils.pickState {[ "type" := VType type ]}) c) as (H1 & q & H2 & Hq).
    { rewrite !pickState_type. by apply lookup_singleton_ne. }
    cbn zeta in H1, H2. cbn [fst snd]. rewrite H1, H2.
    split_and!; [apply user_cb_getState | apply user_cb_props |].
    exists (Some n). split; [|done]. exists q. split; [done|].
    intros x. rewrite Hq. apply setHighlightedIndex_type_only.
  - cbn [fst snd]. split_and!; [apply user_cb_getState | apply user_cb_props |].
    by exists None.
Qed.

Lemma toggleMenu_fields type tag this :
  uncontrolled this →
  let this' := toggleMenu {[ "type" := VType type ]} (user_cb tag) this in
  get (getState this') "isOpen" = js_not (get (getState this) "isOpen")
  ∧ get (getState this') "highlightedIndex" =
      (if truthy (get (getState this) "isOpen")
       then defaultHighlightedIndex (props this)
       else get (getState this) "highlightedIndex")
  ∧ get (getState this') "selectedItem" = get (getState this) "selectedItem"
  ∧ get (getState this') "inputValue" = get (getState this) "inputValue"
  ∧ uncontrolled this'.
Proof.
  intros Hu this'. subst this'. unfold toggleMenu.
  set (f := λ st : obj, spread _ _).
  destruct (internalSetState_queueing_then (PatchFn f)
              (highlightOnToggle (utils.pickState {[ "type" := VType type ]}) (user_cb tag))
              this)
    as (c & Hg & Hp & _ & _ & _ & _ & Heq).
  rewrite Heq. clear Heq.
  assert (Huc : uncontrolled c) by (unfold uncontrolled; by rewrite Hp).
  assert (Hfields : ∀ key, key ∈ fourFields →
            get (getState c) key =
              match (spread {[ "isOpen" := js_not (get (state this) "isOpen") ]}
                       (if truthy (get (state this) "isOpen")
                        then {[ "highlightedIndex" := defaultHighlightedIndex (props this) ]}
                        else ∅) : obj) !! key with
              | Some v => v
              | None => get (getState this) key
              end).
  { intros key Hk. rewrite Hg. change None with (user_cb None).
    rewrite (transition_fields (PatchFn f) _ {[ "type" := VType type ]} None this Hu eq_refl)
      by done.
    by rewrite type_only_lookup. }
  destruct (highlightOnToggle_spec type tag c) as (R1 & R2 & next & Hnext & Hsame).
  destruct (queued_highlight_settles (PatchFn f) (update_of (PatchFn f) this) _ c type next
              Huc R1 R2 Hnext) as (Fu & F1 & F2 & F3 & F4).
  cbn zeta in Fu, F1, F2, F3, F4. rewrite Hsame in F4.
  rewrite F1, F2, F3, F4. clear F1 F2 F3 F4 Hnext Hsame R1 R2 Hg.
  rewrite !Hfields by apply fourFields_mem.
  rewrite (uncontrolled_getState this Hu).
  split_and!; [| | | |exact Fu]; clear;
    unfold spread; destruct (truthy (get (state this) "isOpen")); by simplify_map_eq.
Qed.



(** *** Arrow keys on a closed widget, Home and End *)






(** X12: Home and End, whatever [getNonDisabledIndex] is.  On a closed
    widget they do nothing, not even prevent the default action; on an open
    one they prevent it, and with no items they stop there; otherwise, on a
    widget that owns its state, the highlighted index becomes what
    [getNonDisabledIndex] answers from the first index searching on (Home)
    or from the last searching back (End), and no other field changes. *)
Theorem Home_End_guards (getNonDisabledIndex : nonDisabledIndex_t) event this :
  let home := Home getNonDisabledIndex event this in
  let end_ := End_key getNonDisabledIndex event this in
  (truthy (get (getState this) "isOpen") = false →
     home = (event, this) ∧ end_ = (event, this))
  ∧ (truthy (get (getState this) "isOpen") = true → getItemCount this ≤ 0 →
     home = (preventDefault event, this) ∧ end_ = (preventDefault event, this))
  ∧ (truthy (get (getState this) "isOpen") = true → 0 < getItemCount this →
     uncontrolled this →
     home.1 = preventDefault event ∧ end_.1 = preventDefault event
     ∧ get (getState home.2) "highlightedIndex" =
         VNum (getNonDisabledIndex 0 false (getItemCount this)
                 (isItemDisabled this VUndefined))
     ∧ get (getState end_.2) "highlightedIndex" =
         VNum (getNonDisabledIndex (getItemCount this - 1) true (getItemCount this)
                 (isItemDisabled this VUndefined))
     ∧ ∀ k, k ∈ ["isOpen"; "selectedItem"; "inputValue"] →
         get (getState home.2) k = get (getState this) k
         ∧ get (getState end_.2) k = get (getState this) k).
Proof.
  intros home end_. subst home end_. unfold Home, End_key. split_and!.
  - intros ->. done.
  - intros -> Hc. cbn [negb orb]. by rewrite (proj2 (Z.leb_le _ 0) Hc).
  - intros -> Hc Hu. cbn [negb orb]. rewrite (proj2 (Z.leb_gt _ 0) Hc). cbn [fst snd].
    destruct (setHighlightedIndex_fields
                (getNonDisabledIndex 0 false (getItemCount this)
                   (isItemDisabled this VUndefined)) keyDownHome this Hu)
      as (H1 & H2 & H3 & H4).
    destruct (setHighlightedIndex_fields
                (getNonDisabledIndex (getItemCount this - 1) true (getItemCount this)
                   (isItemDisabled this VUndefined)) keyDownEnd this Hu)
      as (E1 & E2 & E3 & E4).
    split_and!; [done | done | done | done |].
    intros k Hk. repeat (apply elem_of_cons in Hk as [-> | Hk]);
      [exact (conj H2 E2) | exact (conj H3 E3) | exact (conj H4 E4) |].
    apply elem_of_nil in Hk. destruct Hk.
Qed.

Lemma Home_End_guards_witness :
  let nearest : nonDisabledIndex_t := λ start _ _ _, start in
  let this := Scenario.open3_at2 in
  truthy (get (getState this) "isOpen") = true
  ∧ 0 < getItemCount this
  ∧ uncontrolled this
  ∧ get (getState (Home nearest (Scenario.keydown 36) this).2) "highlightedIndex" = VNum 0.
Proof.
  intros nearest this.
  assert (Hu : uncontrolled this) by (split; [reflexivity | intros; reflexivity]).
  destruct (Home_End_guards nearest (Scenario.keydown 36) this) as (_ & _ & H).
  destruct (H eq_refl eq_refl Hu) as (_ & _ & H3 & _).
  split_and!; [reflexivity | reflexivity | exact Hu | exact H3].
Defined.

(** *** Releases outside the widget, and blur *)

Lemma outerClicks_app a b : outerClicks (a ++ b) = outerClicks a ++ outerClicks b.
Proof. apply omap_app. Qed.

Lemma reset_outside_frame type this :
  let this' :=
    reset {[ "type" := VType type ]}
      (Some (λ this, call (onOuterClick (getStateAndHelpers this)) this)) this in
  isMouseDown this' = isMouseDown this ∧ isTouchMove this' = isTouchMove this
  ∧ props this' = props this.
Proof.
  intros this'. subst this'. unfold reset.
  set (f := PatchFn _).
  set (k := λ this0 : Component, call (onOuterClick (getStateAndHelpers this0)) this0).
  destruct (internalSetState_with_callback f k this)
    as (c & _ & Hp & _ & _ & Hm & Ht & _ & Hr).
  rewrite Hr.
  destruct (afterSetState_frame f (update_of f this) (k c)) as (_ & Ap & _ & _ & Am & At).
  by rewrite Am, At, Ap.
Qed.

Lemma reset_notifying_outside type this :
  uncontrolled this →
  let this' :=
    reset {[ "type" := VType type ]}
      (Some (λ this, call (onOuterClick (getStateAndHelpers this)) this)) this in
  get (getState this') "isOpen" = defaultIsOpen (props this)
  ∧ get (getState this') "highlightedIndex" = defaultHighlightedIndex (props this)
  ∧ get (getState this') "inputValue"
      = VStr (itemToString (props this) (get (getState this) "selectedItem"))
  ∧ get (getState this') "selectedItem" = get (getState this) "selectedItem"
  ∧ isMouseDown this' = isMouseDown this
  ∧ isTouchMove this' = isTouchMove this
  ∧ outerClicks (fired this this') = [getStateAndHelpers this'].
Proof.
  intros [Hf Hid] this'.
  destruct (reset_family_uncontrolled this type None Hid Hf) as (R1 & R2 & R3 & R4).
  cbn zeta in R1, R2, R3, R4.
  subst this'. unfold reset in *.
  set (f := PatchFn _) in *.
  set (k := λ this0 : Component, call (onOuterClick (getStateAndHelpers this0)) this0).
  change (user_cb None) with (@None (Component → Component)) in R1, R2, R3, R4.
  destruct (internalSetState_with_callback f k this)
    as (c & Hs & Hp & _ & _ & Hm & Ht & Htr & Hr).
  rewrite Hr.
  destruct (afterSetState_frame f (update_of f this) (k c)) as (As & Ap & _ & _ & Am & At).
  assert (Hg : getState (afterSetState f None (update_of f this) (k c))
               = getState (internalSetState f None this)).
  { apply getState_ext; [by rewrite As | rewrite Ap].
    change None with (user_cb None). by rewrite internalSetState_props. }
  rewrite Hg.
  split_and!; [exact R1 | exact R2 | exact R3 | exact R4 | by rewrite Am | by rewrite At |].
  assert (Hh : getStateAndHelpers (afterSetState f None (update_of f this) (k c))
               = getStateAndHelpers c).
  { apply getStateAndHelpers_ext; [by rewrite As | by rewrite Ap]. }
  rewrite Hh.
  rewrite (fired_app this _
             (match announced f this !! "inputValue" with
              | Some v =>
                  [onInputValueChange v (spread (getStateAndHelpers this) (announced f this))]
              | None => []
              end
              ++ [onOuterClick (getStateAndHelpers c)]
              ++ (if bool_decide (1 < size (onStateChangeArg (update_of f this)))%nat
                  then [onStateChange (onStateChangeArg (update_of f this))
                          (getStateAndHelpers (k c))] else [])
              ++ (if isItemSelected (update_of f this)
                  then [onSelect (patch_selectedItem f) (getStateAndHelpers (k c))] else [])
              ++ (if bool_decide (onChangeArg (update_of f this) ≠ VUndefined)
                  then [onChange (onChangeArg (update_of f this))
                          (getStateAndHelpers (k c))] else [])
              ++ [onUserAction (onStateChangeArg (update_of f this))
                    (getStateAndHelpers (k c))])).
  - rewrite !outerClicks_app.
    destruct (announced f this !! "inputValue"), (bool_decide (1 < _)%nat),
      (isItemSelected _), (bool_decide (onChangeArg _ ≠ _)); reflexivity.
  - rewrite afterSetState_trace. cbn zeta.
    change (trace (k c)) with (trace c ++ [onOuterClick (getStateAndHelpers c)]).
    rewrite Htr. by rewrite <- !app_assoc.
Qed.

(** X13: a mouse release or a touch end delivered by the environment.  The
    mouse release always ends the mouse-down mark.  Inside the widget, on a
    closed widget, or for a touch that moved, nothing else happens.
    Otherwise a widget that owns its state is reset ([isOpen] and
    [highlightedIndex] to their defaults, the input to the projected string
    of the selection, the selection kept) and [onOuterClick] is called
    exactly once, with the state after the reset. *)
Theorem outside_release_resets contextWithinDownshift this :
  let up := onMouseUp contextWithinDownshift this in
  let te := onTouchEnd contextWithinDownshift this in
  isMouseDown up = false
  ∧ (contextWithinDownshift = true ∨ truthy (get (getState this) "isOpen") = false →
       up = set_isMouseDown false this ∧ te = this)
  ∧ (isTouchMove this = true → te = this)
  ∧ (uncontrolled this → contextWithinDownshift = false →
     truthy (get (getState this) "isOpen") = true →
     ∀ after, after = up ∨ (isTouchMove this = false ∧ after = te) →
       get (getState after) "isOpen" = defaultIsOpen (props this)
       ∧ get (getState after) "highlightedIndex" = defaultHighlightedIndex (props this)
       ∧ get (getState after) "inputValue"
           = VStr (itemToString (props this) (get (getState this) "selectedItem"))
       ∧ get (getState after) "selectedItem" = get (getState this) "selectedItem"
       ∧ outerClicks (fired this after) = [getStateAndHelpers after]).
Proof.
  intros up te. subst up te. unfold onMouseUp, onTouchEnd.
  change (getState (set_isMouseDown false this)) with (getState this).
  split_and!.
  - destruct (negb contextWithinDownshift && truthy (get (getState this) "isOpen")); [|done].
    by destruct (reset_outside_frame mouseUp (set_isMouseDown false this)) as (-> & _).
  - intros [-> | ->].
    + cbn [negb andb]. by rewrite andb_false_r.
    + by rewrite !andb_false_r.
  - by intros ->.
  - intros Hu -> Hopen after Hafter. rewrite Hopen in Hafter.
    cbn [negb andb] in Hafter. rewrite andb_true_r in Hafter.
    destruct Hafter as [-> | [Htm ->]].
    + destruct (reset_notifying_outside mouseUp (set_isMouseDown false this) Hu)
        as (R1 & R2 & R3 & R4 & _ & _ & R5).
      by split_and!.
    + rewrite Htm. cbn [negb].
      destruct (reset_notifying_outside touchEnd this Hu) as (R1 & R2 & R3 & R4 & _ & _ & R5).
      by split_and!.
Qed.

Lemma outside_release_resets_witness :
  let this := Scenario.open3_at2 in
  let up := onMouseUp false this in
  uncontrolled this
  ∧ truthy (get (getState this) "isOpen") = true
  ∧ get (getState up) "isOpen" = VBool false
  ∧ length (outerClicks (fired this up)) = 1%nat.
Proof.
  intros this up.
  assert (Hu : uncontrolled this) by (split; [reflexivity | intros; reflexivity]).
  destruct (outside_release_resets false this) as (_ & _ & _ & H).
  destruct (H Hu eq_refl eq_refl up (or_introl eq_refl)) as (H1 & _ & _ & _ & H5).
  split_and!; [exact Hu | reflexivity | exact H1 | by rewrite H5].
Defined.

(** X14: what the timer of a blur does when it fires.  While the mouse is
    held down, or without an environment, nothing; nothing either when the
    focus went to the widget's own button (input blur) or to the input or
    back to the button (button blur); otherwise a widget that owns its
    state is reset: closed state and highlight at their defaults, the input
    at the projected string of the selection, the selection kept. *)
Theorem blur_resets_unless_held stays this :
  let input := inputHandleBlur_timeout stays this in
  let button := buttonHandleBlur_timeout stays this in
  (isMouseDown this = true ∨ environment (props this) = None ∨ stays = true →
     input = this ∧ button = this)
  ∧ (uncontrolled this → isMouseDown this = false → is_Some (environment (props this)) →
     stays = false →
     ∀ after, after = input ∨ after = button →
       get (getState after) "isOpen" = defaultIsOpen (props this)
       ∧ get (getState after) "highlightedIndex" = defaultHighlightedIndex (props this)
       ∧ get (getState after) "inputValue"
           = VStr (itemToString (props this) (get (getState this) "selectedItem"))
       ∧ get (getState after) "selectedItem" = get (getState this) "selectedItem").
Proof.
  intros input button. subst input button.
  unfold inputHandleBlur_timeout, buttonHandleBlur_timeout. split.
  - intros [-> | [-> | ->]]; [done | | ].
    + rewrite bool_decide_eq_false_2 by (by intros [? ?]). by rewrite orb_true_r.
    + by destruct (_ || _).
  - intros [Hf Hid] Hm He -> after Hafter.
    rewrite Hm, (bool_decide_eq_true_2 _ He) in Hafter. cbn [negb orb] in Hafter.
    destruct Hafter as [-> | ->].
    + apply (reset_family_uncontrolled this blurInput None Hid Hf).
    + apply (reset_family_uncontrolled this blurButton None Hid Hf).
Qed.

Lemma blur_resets_unless_held_witness :
  let this := Scenario.open3_at2 in
  uncontrolled this
  ∧ isMouseDown this = false
  ∧ is_Some (environment (props this))
  ∧ get (getState (inputHandleBlur_timeout false this)) "isOpen" = VBool false.
Proof.
  intros this.
  assert (Hu : uncontrolled this) by (split; [reflexivity | intros; reflexivity]).
  assert (He : is_Some (environment (props this))) by (by eexists).
  destruct (blur_resets_unless_held false this) as [_ H].
  destruct (H Hu eq_refl He eq_refl (inputHandleBlur_timeout false this) (or_introl eq_refl))
    as (H1 & _).
  split_and!; [exact Hu | reflexivity | exact He | exact H1].
Defined.

(** *** Updates *)

(** X15: [componentDidUpdate].  It never asks for a scroll while scrolling
    is to be avoided.  Unless [selectedItem] is controlled and
    [selectedItemChanged] tells its previous and its present value apart, it
    starts no transition.  When it does, the projected string of the
    controlled item is announced first through [onInputValueChange], and
    with the default override and an input the widget owns it becomes the
    input value. *)
Theorem componentDidUpdate_syncs_input prevProps prevState avoidScrolling this :
  let r := componentDidUpdate prevProps prevState avoidScrolling this in
  let controlledItem := get (fields (props this)) "selectedItem" in
  let changed :=
    utils.isControlledProp (fields (props this)) "selectedItem"
    && selectedItemChanged (props this) (get (fields prevProps) "selectedItem") controlledItem in
  (avoidScrolling = true → r.1 = false)
  ∧ (changed = false → r.2 = this)
  ∧ (changed = true →
       (∃ helpers,
          head (fired this r.2) =
            Some (onInputValueChange (VStr (itemToString (props this) controlledItem)) helpers))
       ∧ ((∀ st p, stateReducer (props this) st p = p) →
          utils.isControlledProp (fields (props this)) "inputValue" = false →
          get (getState r.2) "inputValue" = VStr (itemToString (props this) controlledItem))).
Proof.
  intros r controlledItem changed. subst r. unfold componentDidUpdate.
  fold controlledItem. fold changed. split_and!.
  - by intros ->.
  - by intros ->.
  - intros ->. cbn [fst snd default]. unfold id. rewrite <- internalSetState_split.
    change (@None (Component → Component)) with (user_cb None). split.
    + rewrite internalSetState_fired. cbn [announced].
      rewrite (lookup_insert_ne _ "type" "inputValue") by done.
      rewrite lookup_singleton_eq. by eexists.
    + intros Hid Hc. apply internalSetState_effective_written; [done | done |].
      rewrite Hid. cbn [proposal].
      rewrite (lookup_insert_ne _ "type" "inputValue") by done.
      by rewrite lookup_singleton_eq.
Qed.

(** The caller replaces the controlled "a" by "b" while index 2 has come to
    be highlighted: the update would scroll, and does not while scrolling is
    to be avoided; "b" is announced first and becomes the input value. *)
Lemma componentDidUpdate_syncs_input_witness :
  let this := Scenario.reselected_b in
  let prevProps := Scenario.controls_selectedItem "a" in
  let prevState := state Scenario.mounted_with_a in
  let r := componentDidUpdate prevProps prevState true this in
  utils.isControlledProp (fields (props this)) "selectedItem"
    && selectedItemChanged (props this) (get (fields prevProps) "selectedItem")
         (get (fields (props this)) "selectedItem") = true
  ∧ (componentDidUpdate prevProps prevState false this).1 = true
  ∧ r.1 = false
  ∧ get (getState this) "inputValue" = VStr "a"
  ∧ (∃ helpers, head (fired this r.2) = Some (onInputValueChange (VStr "b") helpers))
  ∧ get (getState r.2) "inputValue" = VStr "b".
Proof.
  intros this prevProps prevState r.
  destruct (componentDidUpdate_syncs_input prevProps prevState true this)
    as (Havoid & _ & Hsync).
  destruct (Hsync eq_refl) as (Hfirst & Hinput).
  split_and!; [reflexivity | by vm_compute | exact (Havoid eq_refl) | by vm_compute
              | exact Hfirst |].
  apply Hinput; [intros; reflexivity | reflexivity].
Defined.

(** X16: [shouldScroll] after an update in which neither the props nor the
    state changed.  With an open state the widget owns it answers no.
    With [isOpen] controlled, the open test compares the prop with the
    field kept in the state, which transitions never write: while the prop
    says open, the kept field says closed and the highlighted index is
    truthy, it answers yes at every such update. *)
Theorem shouldScroll_steady this :
  (utils.isControlledProp (fields (props this)) "isOpen" = false →
     shouldScroll (state this) (props this) this = false)
  ∧ (utils.isControlledProp (fields (props this)) "isOpen" = true →
     is_Some (state this !! "isOpen") →
     shouldScroll (state this) (props this) this =
       truthy (if bool_decide (get (fields (props this)) "highlightedIndex" = VUndefined)
               then get (state this) "highlightedIndex"
               else get (fields (props this)) "highlightedIndex")
       && truthy (get (fields (props this)) "isOpen")
       && negb (truthy (get (state this) "isOpen"))).
Proof.
  assert (Hsame :
    (if bool_decide (get (fields (props this)) "highlightedIndex" = VUndefined)
     then get (getState this) "highlightedIndex"
     else get (fields (props this)) "highlightedIndex")
    = (if bool_decide (get (fields (props this)) "highlightedIndex" = VUndefined)
       then get (state this) "highlightedIndex"
       else get (fields (props this)) "highlightedIndex")).
  { case_bool_decide as Hh; [|done].
    unfold getState, getState_of. apply getState_uncontrolled.
    unfold utils.isControlledProp. by rewrite bool_decide_eq_false_2 by (by intros ?). }
  unfold shouldScroll. rewrite Hsame.
  rewrite (bool_decide_eq_false_2 (_ ≠ _)) by (by intros ?). rewrite orb_false_r.
  split.
  - intros Hc. unfold getState, getState_of. rewrite (getState_uncontrolled _ _ "isOpen") by done.
    destruct (truthy (get (state this) "isOpen")); [by rewrite andb_false_r | by rewrite andb_false_r].
  - intros Hc Hs. unfold getState, getState_of.
    by rewrite (getState_controlled _ _ "isOpen") by done.
Qed.

(** On the three items open at index 2, all owned by the widget, an
    update that changed nothing does not scroll; where the caller controls
    [isOpen] and says open, with index 1 highlighted and the state's own
    [isOpen] still closed, such an update scrolls. *)
Lemma shouldScroll_steady_witness :
  let owned := Scenario.open3_at2 in
  let this := Scenario.controlled_open_at1 in
  utils.isControlledProp (fields (props owned)) "isOpen" = false
  ∧ shouldScroll (state owned) (props owned) owned = false
  ∧ utils.isControlledProp (fields (props this)) "isOpen" = true
  ∧ get (fields (props this)) "isOpen" = VBool true
  ∧ get (state this) "isOpen" = VBool false
  ∧ get (getState this) "highlightedIndex" = VNum 1
  ∧ shouldScroll (state this) (props this) this = true.
Proof.
  intros owned this.
  destruct (shouldScroll_steady owned) as [Howned _].
  destruct (shouldScroll_steady this) as [_ Hcontrolled].
  split_and!; [reflexivity | exact (Howned eq_refl) | reflexivity | by vm_compute
              | by vm_compute | by vm_compute |].
  rewrite Hcontrolled; [by vm_compute | reflexivity |].
  eexists. vm_compute. reflexivity.
Defined.

(** *** Timers and teardown *)

Lemma filter_all {A} (P : A → Prop) `{∀ x, Decision (P x)} (l : list A) :
  Forall P l → filter P l = l.
Proof.
  induction 1 as [|x l Hx _ IH]; [done|]. rewrite filter_cons_True by done. by rewrite IH.
Qed.

Lemma filter_none {A} (P : A → Prop) `{∀ x, Decision (P x)} (l : list A) :
  Forall (λ x, ¬ P x) l → filter P l = [].
Proof.
  induction 1 as [|x l Hx _ IH]; [done|]. by rewrite filter_cons_False.
Qed.

Lemma tracked_fresh m :
  timers_tracked m →
  Forall (λ i, i ≠ nextTimeoutId m) (timeoutIds m)
  ∧ Forall (λ t : nat * (Component → Component), t.1 ≠ nextTimeoutId m) (pending m).
Proof.
  intros [Hi Hp]. assert (H1 : Forall (λ i, i ≠ nextTimeoutId m) (timeoutIds m)).
  { eapply Forall_impl; [exact Hi|]. cbn. lia. }
  split; [done|]. eapply Forall_impl; [exact Hp|]. cbn. intros t Ht.
  by eapply (proj1 (Forall_forall _ _) H1).
Qed.

Lemma internalSetTimeout_tracked fn m :
  timers_tracked m → timers_tracked (internalSetTimeout fn m).
Proof.
  intros [Hi Hp]. unfold timers_tracked, internalSetTimeout. cbn. split.
  - apply Forall_app. split; [|by repeat constructor].
    eapply Forall_impl; [exact Hi|]. cbn. lia.
  - apply Forall_app. split.
    + eapply Forall_impl; [exact Hp|]. cbn. intros t Ht. apply elem_of_app. by left.
    + repeat constructor. cbn. apply elem_of_app. right. by apply list_elem_of_singleton.
Qed.

Lemma fire_tracked id m : timers_tracked m → timers_tracked (fire id m).
Proof.
  intros [Hi Hp]. unfold fire. destruct (list_find _ _) as [[? [? fn]]|]; [|done].
  unfold timers_tracked. cbn. split.
  - apply Forall_forall. intros i [_ Hin]%list_elem_of_filter.
    by eapply (proj1 (Forall_forall _ _) Hi).
  - apply Forall_forall. intros t [Hne Hin]%list_elem_of_filter.
    apply list_elem_of_filter. split; [done|].
    by eapply (proj1 (Forall_forall _ _) Hp).
Qed.

Lemma internalClearTimeouts_tracked m :
  timers_tracked m →
  pending (internalClearTimeouts m) = [] ∧ timeoutIds (internalClearTimeouts m) = [].
Proof.
  intros [_ Hp]. unfold internalClearTimeouts. cbn. split; [|done].
  apply filter_none. eapply Forall_impl; [exact Hp|]. cbn. tauto.
Qed.

Lemma deliver_tracked d m : timers_tracked m → timers_tracked (deliver d m).
Proof.
  intros Ht. destruct d; cbn [deliver]; try (by destruct (listening m)).
  by apply fire_tracked.
Qed.

(** X17: the timers of a mounted component stay tracked.  From mounting on,
    through every timeout scheduled and everything the environment delivers
    (listener events, timeouts firing), each pending timeout is one whose id
    the component keeps, and each id it keeps was handed out before the next
    one. *)
Theorem timers_stay_tracked this (steps : list (delivery + (Component → Component))) :
  timers_tracked
    (foldl (λ m step, match step with
                      | inl d => deliver d m
                      | inr fn => internalSetTimeout fn m
                      end)
       (componentDidMount this) steps).
Proof.
  assert (H0 : timers_tracked (componentDidMount this)) by (split; constructor).
  revert H0. generalize (componentDidMount this).
  induction steps as [|[d | fn] steps IH]; intros m Hm; cbn [foldl]; [done | |].
  - apply IH. by apply deliver_tracked.
  - apply IH. by apply internalSetTimeout_tracked.
Qed.

Lemma deliver_unmounted d m :
  pending m = [] → listening m = false → deliver d m = m.
Proof.
  intros Hp Hl. destruct d; cbn [deliver]; rewrite ?Hl; try done.
  unfold fire. by rewrite Hp.
Qed.

(** X18: after [componentWillUnmount], on a component whose timers are
    tracked, nothing the environment still delivers reaches the instance:
    no timeout is left to fire, no listener is left to call, and the
    instance stays as it was at unmounting. *)
Theorem unmount_silences m (deliveries : list delivery) :
  timers_tracked m →
  let after := foldl (λ m d, deliver d m) (componentWillUnmount m) deliveries in
  instance after = instance m ∧ pending after = [] ∧ timeoutIds after = []
  ∧ listening after = false.
Proof.
  intros Ht after.
  destruct (internalClearTimeouts_tracked m Ht) as [Hp Hi].
  assert (H0 : instance (componentWillUnmount m) = instance m
               ∧ pending (componentWillUnmount m) = []
               ∧ timeoutIds (componentWillUnmount m) = []
               ∧ listening (componentWillUnmount m) = false) by done.
  subst after. revert H0. generalize (componentWillUnmount m).
  induction deliveries as [|d ds IH]; intros m' H0; cbn [foldl]; [done|].
  destruct H0 as (H1 & H2 & H3 & H4). rewrite deliver_unmounted by done. by apply IH.
Qed.

Lemma unmount_silences_witness :
  let m := inputHandleBlur false (componentDidMount Scenario.open3_at2) in
  timers_tracked m
  ∧ length (pending m) = 1%nat
  ∧ instance (foldl (λ m d, deliver d m) (componentWillUnmount m) [timeout 0%nat; mouseup false])
    = Scenario.open3_at2.
Proof.
  intros m.
  assert (Ht : timers_tracked m).
  { apply internalSetTimeout_tracked. split; constructor. }
  destruct (unmount_silences m [timeout 0%nat; mouseup false] Ht) as (H & _).
  split_and!; [exact Ht | reflexivity | exact H].
Defined.

Lemma fire_fresh fn m :
  timers_tracked m →
  fire (nextTimeoutId m) (internalSetTimeout fn m) =
    {| instance := fn (instance m); timeoutIds := timeoutIds m; pending := pending m;
       nextTimeoutId := S (nextTimeoutId m); listening := listening m |}.
Proof.
  intros Ht. destruct (tracked_fresh m Ht) as [Hi Hp].
  unfold fire, internalSetTimeout. cbn [pending timeoutIds instance nextTimeoutId listening].
  assert (list_find (λ t : nat * (Component → Component), t.1 = nextTimeoutId m)
            (pending m ++ [(nextTimeoutId m, fn)])
          = Some (length (pending m), (nextTimeoutId m, fn))) as ->.
  { apply list_find_Some. split_and!.
    - by apply list_lookup_middle.
    - done.
    - intros j y Hj Hlt. rewrite lookup_app_l in Hj by done.
      by eapply (Forall_lookup_1 _ _ _ _ Hp). }
  rewrite !filter_app.
  rewrite (filter_all (λ i, i ≠ nextTimeoutId m)) by done.
  rewrite (filter_all (λ t : nat * (Component → Component), t.1 ≠ nextTimeoutId m)) by done.
  rewrite !filter_cons_False by (cbn; intros Hne; by apply Hne).
  by rewrite !filter_nil, !app_nil_r.
Qed.

Lemma fire_spent id m :
  Forall (λ t : nat * (Component → Component), t.1 ≠ id) (pending m) → fire id m = m.
Proof.
  intros Hp. unfold fire.
  by rewrite (proj2 (list_find_None (λ t : nat * (Component → Component), t.1 = id) _) Hp).
Qed.

(** X19: a timeout scheduled on a component whose timers are tracked fires
    once.  When the environment delivers it, the function runs on the
    instance and the timer is forgotten, the other timers being kept as they
    were; delivering it again changes nothing. *)
Theorem timeout_fires_once fn m :
  timers_tracked m →
  let id := nextTimeoutId m in
  let fired := deliver (timeout id) (internalSetTimeout fn m) in
  instance fired = fn (instance m)
  ∧ timeoutIds fired = timeoutIds m
  ∧ pending fired = pending m
  ∧ deliver (timeout id) fired = fired.
Proof.
  intros Ht id fired. subst id fired. cbn [deliver].
  rewrite fire_fresh by done. cbn [instance timeoutIds pending].
  split_and!; [done..|].
  apply fire_spent. cbn [pending]. by destruct (tracked_fresh m Ht).
Qed.

Lemma timeout_fires_once_witness :
  let m := componentDidMount Scenario.open3_at2 in
  timers_tracked m
  ∧ instance (deliver (timeout 0%nat) (internalSetTimeout onMouseDown m))
    = onMouseDown Scenario.open3_at2.
Proof.
  intros m.
  assert (Ht : timers_tracked m) by (split; constructor).
  destruct (timeout_fires_once onMouseDown m Ht) as (H & _).
  split; [exact Ht | exact H].
Defined.

(** X20: a blur while the mouse is held down.  When the mouse goes down
    after the input or the button lost the focus and before the timer of
    the blur fires, the blur resets nothing: the instance is left with the
    mouse-down mark and no transition. *)
Theorem blur_waits_for_mouse_release stays m :
  timers_tracked m → listening m = true →
  ∀ blurred, blurred = inputHandleBlur stays m ∨ blurred = buttonHandleBlur stays m →
    instance (deliver (timeout (nextTimeoutId m)) (deliver mousedown blurred))
    = onMouseDown (instance m).
Proof.
  intros Ht Hl blurred Hb.
  assert (Hd : ∀ fn, deliver mousedown (internalSetTimeout fn m)
                     = internalSetTimeout fn (on_instance onMouseDown m)).
  { intros fn. cbn [deliver internalSetTimeout listening]. by rewrite Hl. }
  assert (Ht' : timers_tracked (on_instance onMouseDown m)) by exact Ht.
  destruct Hb as [-> | ->]; unfold inputHandleBlur, buttonHandleBlur; rewrite Hd; cbn [deliver];
    change (nextTimeoutId m) with (nextTimeoutId (on_instance onMouseDown m));
    by rewrite fire_fresh.
Qed.

Lemma blur_waits_for_mouse_release_witness :
  let m := componentDidMount Scenario.open3_at2 in
  timers_tracked m ∧ listening m = true
  ∧ get (getState (instance (deliver (timeout 0%nat) (deliver mousedown (inputHandleBlur false m)))))
      "isOpen" = VBool true.
Proof.
  intros m.
  assert (Ht : timers_tracked m) by (split; constructor).
  pose proof (blur_waits_for_mouse_release false m Ht eq_refl
                (inputHandleBlur false m) (or_introl eq_refl)) as H.
  split_and!; [exact Ht | reflexivity |].
  change (nextTimeoutId m) with 0%nat in H. by rewrite H.
Defined.

(** X21: the two activations of the toggle button, on a widget that owns
    its state.  The space key prevents the default action and flips the
    open state at once; a click flips it when the timeout it schedules
    fires, and not before. *)
Theorem button_activation_toggles event m :
  uncontrolled (instance m) → timers_tracked m →
  let spaced := Space event (instance m) in
  let clicked := buttonHandleClick m in
  spaced.1 = preventDefault event
  ∧ get (getState spaced.2) "isOpen" = js_not (get (getState (instance m)) "isOpen")
  ∧ instance clicked = instance m
  ∧ get (getState (instance (deliver (timeout (nextTimeoutId m)) clicked))) "isOpen"
    = js_not (get (getState (instance m)) "isOpen").
Proof.
  intros Hu Ht spaced clicked. subst spaced clicked.
  destruct (toggleMenu_fields keyDownSpaceButton None (instance m) Hu) as (S1 & _).
  destruct (toggleMenu_fields clickButton None (instance m) Hu) as (C1 & _).
  unfold Space, buttonHandleClick. cbn [fst snd deliver].
  rewrite fire_fresh by done. cbn [instance internalSetTimeout].
  split_and!; [done | exact S1 | done | exact C1].
Qed.

Lemma button_activation_toggles_witness :
  let m := componentDidMount Scenario.closed3 in
  uncontrolled (instance m) ∧ timers_tracked m
  ∧ get (getState (instance (deliver (timeout 0%nat) (buttonHandleClick m)))) "isOpen"
    = VBool true.
Proof.
  intros m.
  assert (Hu : uncontrolled (instance m)) by (split; [reflexivity | intros; reflexivity]).
  assert (Ht : timers_tracked m) by (split; constructor).
  destruct (button_activation_toggles (Scenario.keydown 32) m Hu Ht) as (_ & _ & _ & H).
  split_and!; [exact Hu | exact Ht | exact H].
Defined.

(** *** Construction *)

(** X22: what a new widget that owns its state starts with.  Each field
    has its [initial...] prop where one is given and its default otherwise
    ([null] for the selection); the input starts at [initialInputValue]
    where given, and otherwise at the projected string of the starting
    selection, or empty when there is none.  Constructing notifies nobody. *)
Theorem constructor_initial_state p :
  fields p = ∅ →
  let this := constructor p in
  let selectedItem := or_default (initialSelectedItem p) VNull in
  get (getState this) "selectedItem" = selectedItem
  ∧ get (getState this) "isOpen" = or_default (initialIsOpen p) (defaultIsOpen p)
  ∧ get (getState this) "highlightedIndex"
      = or_default (initialHighlightedIndex p) (defaultHighlightedIndex p)
  ∧ get (getState this) "inputValue"
      = (if decide (initialInputValue p = VUndefined)
         then VStr (if is_nullish selectedItem then "" else itemToString p selectedItem)
         else initialInputValue p)
  ∧ trace this = [].
Proof.
  intros Hf this selectedItem. subst this.
  unfold getState, getState_of, constructor. cbn [props state trace].
  rewrite Hf, !getState_no_props.
  set (st := ({[ "highlightedIndex" := _; "isOpen" := _; "inputValue" := _;
                 "selectedItem" := _ ]} : obj)).
  assert (Hsel : get st "selectedItem" = selectedItem) by done.
  rewrite Hsel.
  assert (Hst : get st "isOpen" = or_default (initialIsOpen p) (defaultIsOpen p)
                ∧ get st "highlightedIndex"
                  = or_default (initialHighlightedIndex p) (defaultHighlightedIndex p)
                ∧ get st "inputValue" = or_default (initialInputValue p) (VStr ""))
    by done.
  destruct Hst as (S1 & S2 & S3).
  unfold or_default in S3.
  destruct (decide (initialInputValue p = VUndefined)) as [Hi | Hi].
  - rewrite (bool_decide_eq_true_2 _ Hi), andb_true_r.
    destruct (is_nullish selectedItem); cbn [negb].
    + by rewrite Hsel, S1, S2, S3.
    + unfold get. rewrite !lookup_insert_ne by done. rewrite lookup_insert_eq.
      fold (get st "selectedItem") (get st "isOpen") (get st "highlightedIndex").
      by rewrite Hsel, S1, S2.
  - rewrite (bool_decide_eq_false_2 _ Hi), andb_false_r. by rewrite Hsel, S1, S2, S3.
Qed.

Lemma constructor_initial_state_witness :
  fields (Scenario.starts_with_a) = ∅
  ∧ get (getState (constructor Scenario.starts_with_a)) "inputValue" = VStr "a".
Proof.
  destruct (constructor_initial_state Scenario.starts_with_a eq_refl)
    as (_ & _ & _ & H & _).
  split; [reflexivity | exact H].
Defined.

End Component.

(** ** The hook helpers *)

Section Hooks.
Import hooks.

Lemma invokeOnChangeHandler_unchanged handlers type key state newState :
  get newState key = get state key →
  invokeOnChangeHandler handlers type key state newState = [].
Proof.
  intros He. unfold invokeOnChangeHandler.
  rewrite (bool_decide_eq_false_2 (get newState key ≠ get state key)) by (intros H; by apply H).
  by rewrite andb_false_r.
Qed.

(** The changeset [callOnChangeProps] collects. *)
Lemma changes_lookup (keys : list string) (state newState : obj) key :
  (list_to_map
     (omap (λ key, if decide (get newState key ≠ get state key)
                   then Some (key, get newState key) else None) keys) : obj) !! key
  = if decide (key ∈ keys ∧ get newState key ≠ get state key)
    then Some (get newState key) else None.
Proof.
  induction keys as [|k keys IH].
  - cbn. rewrite lookup_empty. rewrite decide_False; [done|].
    intros [Hin _]. by apply elem_of_nil in Hin.
  - cbn [omap list_omap]. destruct (decide (get newState k ≠ get state k)) as [Hd | Hd].
    + cbn [list_to_map foldr curry fst snd]. destruct (decide (key = k)) as [-> | Hne].
      * rewrite lookup_insert_eq. rewrite decide_True; [done|].
        split; [apply elem_of_cons; by left | done].
      * rewrite lookup_insert_ne by done. rewrite IH.
        destruct (decide (key ∈ keys ∧ _)) as [[Hin Hk] | Hn].
        -- rewrite decide_True; [done|]. split; [apply elem_of_cons; by right | done].
        -- rewrite decide_False; [done|]. intros [[? | Hin]%elem_of_cons Hk]; [done|].
           apply Hn. by split.
    + rewrite IH. destruct (decide (key ∈ keys ∧ _)) as [[Hin Hk] | Hn].
      * rewrite decide_True; [done|]. split; [apply elem_of_cons; by right | done].
      * rewrite decide_False; [done|]. intros [[-> | Hin]%elem_of_cons Hk]; [done|].
        apply Hn. by split.
Qed.

(** X23: [callOnChangeProps] when the new state agrees with the old one on
    every key of the state: no handler of the caller is called, neither a
    per-field one nor [onStateChange]. *)
Theorem callOnChangeProps_silent handlers type keys state newState :
  (∀ key, key ∈ keys → get newState key = get state key) →
  callOnChangeProps handlers type keys state newState = [].
Proof.
  intros Hsame. unfold callOnChangeProps.
  assert (Hcalls : flat_map (λ key, invokeOnChangeHandler handlers type key state newState) keys
                   = []).
  { clear -Hsame. induction keys as [|k keys IH]; [done|]. cbn [flat_map].
    rewrite invokeOnChangeHandler_unchanged by (apply Hsame, elem_of_cons; by left).
    apply IH. intros key Hin. apply Hsame, elem_of_cons. by right. }
  rewrite Hcalls. cbn [app].
  rewrite (bool_decide_eq_true_2 (size _ = 0%nat)); [by rewrite andb_false_r|].
  apply map_size_empty_iff, map_eq. intros key. rewrite changes_lookup, lookup_empty.
  rewrite decide_False; [done|]. intros [Hin Hne]. by apply Hne, Hsame.
Qed.

Lemma callOnChangeProps_silent_witness :
  callOnChangeProps (λ _, true) (VStr "t") ["isOpen"; "inputValue"]
    dropdownDefaultStateValues dropdownDefaultStateValues = [].
Proof. apply callOnChangeProps_silent. intros key _. reflexivity. Defined.

(** X24: [callOnChangeProps] when some key of the state changed and the
    caller gave [onStateChange]: it is the last handler called, and beside
    the action type its argument holds exactly the keys of the state whose
    value changed, each with its new value (be it [undefined]). *)
Theorem callOnChangeProps_aggregate handlers type keys state newState changed :
  handlers "onStateChange" = true →
  changed ∈ keys → get newState changed ≠ get state changed →
  ∃ changes : obj,
    last (callOnChangeProps handlers type keys state newState)
      = Some (handler_called "onStateChange" (spread {[ "type" := type ]} changes))
    ∧ ∀ key, changes !! key
             = if decide (key ∈ keys ∧ get newState key ≠ get state key)
               then Some (get newState key) else None.
Proof.
  intros Hh Hin Hne. unfold callOnChangeProps.
  set (changes := list_to_map _ : obj).
  assert (Hl : ∀ key, changes !! key
                      = if decide (key ∈ keys ∧ get newState key ≠ get state key)
                        then Some (get newState key) else None)
    by (intros key; apply changes_lookup).
  exists changes. split; [|exact Hl].
  rewrite Hh. rewrite (bool_decide_eq_false_2 (size changes = 0%nat)).
  - cbn [negb andb]. apply last_snoc.
  - intros Hz%map_size_empty_iff. specialize (Hl changed).
    rewrite Hz, lookup_empty, decide_True in Hl; [done | by split].
Qed.

Lemma callOnChangeProps_aggregate_witness :
  ∃ changes : obj,
    last (callOnChangeProps (λ _, true) (VStr "t") ["isOpen"; "inputValue"]
            dropdownDefaultStateValues (<[ "isOpen" := VBool true ]> dropdownDefaultStateValues))
      = Some (handler_called "onStateChange" (spread {[ "type" := VStr "t" ]} changes))
    ∧ changes !! "isOpen" = Some (VBool true)
    ∧ changes !! "inputValue" = None.
Proof.
  destruct (callOnChangeProps_aggregate (λ _, true) (VStr "t") ["isOpen"; "inputValue"]
              dropdownDefaultStateValues
              (<[ "isOpen" := VBool true ]> dropdownDefaultStateValues) "isOpen")
    as (changes & Hlast & Hl).
  - reflexivity.
  - apply elem_of_cons. by left.
  - by vm_compute.
  - exists changes. split_and!; [exact Hlast | |].
    + rewrite Hl. apply decide_True. split; [apply elem_of_cons; by left | by vm_compute].
    + rewrite Hl. apply decide_False. intros [_ Hne]. by apply Hne.
Defined.

(** X25: [getItemAndIndex].  It throws only when neither the item nor the
    index is given.  Given the index alone it answers the item at that
    index; given the item alone it answers the index of the item's first
    occurrence, at which the item is indeed found, or -1 when the item is
    not among the items. *)
Theorem getItemAndIndex_agree itemProp indexProp items errorMessage :
  (itemProp = VUndefined → indexProp = None →
     getItemAndIndex itemProp indexProp items errorMessage = inl errorMessage)
  ∧ (itemProp ≠ VUndefined ∨ indexProp ≠ None →
     ∃ item index,
       getItemAndIndex itemProp indexProp items errorMessage = inr (item, index)
       ∧ (itemProp = VUndefined → indexProp = Some index ∧ item = array_get items (VNum index))
       ∧ (itemProp ≠ VUndefined → item = itemProp)
       ∧ (itemProp ≠ VUndefined → indexProp = None → itemProp ∈ items →
            array_get items (VNum index) = item
            ∧ ∀ j : nat, items !! j = Some item → index ≤ Z.of_nat j)
       ∧ (itemProp ≠ VUndefined → indexProp = None → itemProp ∉ items → index = -1)).
Proof.
  unfold getItemAndIndex. split.
  - intros -> ->. by rewrite decide_True.
  - intros Hgiven. destruct (decide (itemProp = VUndefined)) as [-> | Hne].
    + destruct indexProp as [index|]; [|by destruct Hgiven].
      exists (array_get items (VNum index)), index. by split_and!.
    + destruct indexProp as [index|].
      * exists itemProp, index. by split_and!.
      * exists itemProp, (indexOf items itemProp). split_and!; try done.
        -- intros _ _ Hin. destruct (indexOf_found items itemProp Hin) as (n & Hn & Hl & Hm).
           rewrite Hn, array_get_nat, Hl. split; [done|].
           intros j Hj. destruct (decide (j < n)%nat) as [Hlt | Hge]; [|lia].
           exfalso. by apply (Hm j Hlt).
        -- intros _ _ Hni. by apply indexOf_missing.
Qed.

Lemma getItemAndIndex_agree_witness :
  VStr "b" ≠ VUndefined
  ∧ getItemAndIndex (VStr "b") None Scenario.abc "no item" = inr (VStr "b", 1).
Proof.
  split; [discriminate|].
  destruct (getItemAndIndex_agree (VStr "b") None Scenario.abc "no item") as [_ H].
  destruct H as (item & index & Hr & _); [by left|].
  reflexivity.
Defined.

(** X26: the starting value of a state field is never [undefined]: for
    each of the four fields, [getDefaultValue] and [getInitialValue] answer
    a defined value whatever the props hold. *)
Theorem getInitialValue_defined props key :
  key ∈ Observe.fourFields →
  getDefaultValue props key ≠ VUndefined ∧ getInitialValue props key ≠ VUndefined.
Proof.
  intros Hk.
  assert (Hb : get dropdownDefaultStateValues key ≠ VUndefined).
  { repeat (apply elem_of_cons in Hk as [-> | Hk]); [by vm_compute..|].
    apply elem_of_nil in Hk. destruct Hk. }
  assert (Hd : getDefaultValue props key ≠ VUndefined).
  { unfold getDefaultValue. by case_bool_decide. }
  split; [exact Hd|]. unfold getInitialValue. by repeat case_bool_decide.
Qed.

Lemma getInitialValue_defined_witness :
  "isOpen" ∈ Observe.fourFields
  ∧ getInitialValue Scenario.hook_plain "isOpen" ≠ VUndefined.
Proof.
  assert (Hk : "isOpen" ∈ Observe.fourFields) by (apply elem_of_cons; right; apply elem_of_cons; by left).
  split; [exact Hk | exact (proj2 (getInitialValue_defined Scenario.hook_plain "isOpen" Hk))].
Defined.

(** X27: the element ids [useElementIds] derives from [id] when the caller
    names none: the label, menu, toggle button and input ids are pairwise
    distinct, the item ids are distinct for distinct indexes, and no item id
    is one of the other four. *)
Theorem useElementIds_distinct id :
  let ids := useElementIds id None None None None None in
  NoDup [labelId ids; menuId ids; toggleButtonId ids; inputId ids]
  ∧ (∀ i j, getItemId ids i = getItemId ids j → i = j)
  ∧ (∀ i, getItemId ids i ∉ [labelId ids; menuId ids; toggleButtonId ids; inputId ids]).
Proof.
  intros ids. subst ids. cbn [useElementIds labelId menuId toggleButtonId inputId getItemId
    or_string default].
  assert (Hs : ∀ a b : string, id +:+ a = id +:+ b → a = b)
    by (intros a b; apply (inj (String.app id))).
  split_and!.
  - repeat (apply NoDup_cons; split;
            [rewrite ?elem_of_cons, elem_of_nil; intros H;
             repeat (destruct H as [H | H]; [apply Hs in H; discriminate H|]); exact H |]).
    apply NoDup_nil_2.
  - intros i j H. apply Hs in H. apply (inj (String.app "-item-")) in H.
    by apply (inj pretty) in H.
  - intros i. rewrite ?elem_of_cons, elem_of_nil. intros H.
    repeat (destruct H as [H | H]; [apply Hs in H; discriminate H|]). exact H.
Qed.

Lemma useElementIds_distinct_witness :
  let ids := useElementIds "downshift-0" None None None None None in
  labelId ids ≠ menuId ids.
Proof.
  intros ids.
  destruct (useElementIds_distinct "downshift-0") as (Hn & _).
  apply NoDup_cons in Hn as [Hn _]. intros He. apply Hn. fold ids. rewrite He.
  apply elem_of_cons. by left.
Defined.

(** X28: opening with a selection.  With no initial and no default
    highlighted index configured, opening a dropdown whose selected item is
    among the items highlights the first occurrence of that item, whatever
    the direction of the key that opened it. *)
Theorem getHighlightedIndexOnOpen_selection props state offset :
  get (fields props) "initialHighlightedIndex" = VUndefined →
  get (fields props) "defaultHighlightedIndex" = VUndefined →
  truthy (get state "selectedItem") = true →
  get state "selectedItem" ∈ items props →
  ∃ n : nat,
    getHighlightedIndexOnOpen props state offset = VNum (Z.of_nat n)
    ∧ items props !! n = Some (get state "selectedItem")
    ∧ ∀ m : nat, (m < n)%nat → items props !! m ≠ Some (get state "selectedItem").
Proof.
  intros Hi Hd Ht Hin.
  destruct (indexOf_found _ _ Hin) as (n & Hn & Hl & Hm).
  exists n. split_and!; [|done..].
  unfold getHighlightedIndexOnOpen. rewrite Hi, Hd, Ht, Hn.
  rewrite (bool_decide_eq_false_2 (VUndefined ≠ VUndefined)) by (intros H; by apply H).
  cbn [andb].
  destruct (items props) as [|x l] eqn:E; [by apply elem_of_nil in Hin|].
  by rewrite (proj2 (Z.eqb_neq _ 0)) by (cbn [length]; lia).
Qed.

Lemma getHighlightedIndexOnOpen_selection_witness :
  let state : obj := {[ "selectedItem" := VStr "c"; "highlightedIndex" := VNum (-1) ]} in
  get state "selectedItem" ∈ items Scenario.hook_plain
  ∧ getHighlightedIndexOnOpen Scenario.hook_plain state 1 = VNum 2.
Proof.
  intros state.
  assert (Hin : get state "selectedItem" ∈ items Scenario.hook_plain).
  { apply elem_of_cons; right. apply elem_of_cons; right. apply elem_of_cons; by left. }
  destruct (getHighlightedIndexOnOpen_selection Scenario.hook_plain state 1
              eq_refl eq_refl eq_refl Hin) as (n & Hr & _).
  split; [exact Hin | reflexivity].
Defined.

End Hooks.
